(** * mom-bot-frontend: the meeting service client and the transcript export

    A shallow embedding of [src/services/meetingService.ts] (the HTTP client
    [MeetingService]) and of [downloadTranscript] from the [App] component,
    with the properties the specification states about them.

    The client code works on values of type [any] (whatever [response.json()]
    yields), so the service is modelled over untyped JavaScript values
    ([jsval]); promises are modelled by an exception-and-state monad whose
    state records the requests handed to [fetch] and the mutable locals of
    [fetchAndAnalyzeMeeting]. *)

From Stdlib Require Import String Ascii List ZArith Bool Lia.
From Stdlib Require Import SpecFloat DecimalString.
Import ListNotations.

Local Open Scope string_scope.
Local Open Scope list_scope.

(* ================================================================== *)
(** * JavaScript values *)
(* ================================================================== *)

(** The values the code can hold: what [JSON.parse] produces ([JNull],
    [JBool], [JNum], [JStr], [JArr], [JObj]), [undefined], and the built-in
    method objects that a property read on an array can yield ([JFun]).
    Numbers are IEEE-754 doubles; objects are kept as their list of own
    properties, read by first match. *)
#[warnings="-register-all"]
Inductive jsval : Type :=
| JUndefined
| JNull
| JBool (b : bool)
| JNum (x : spec_float)
| JStr (s : string)
| JArr (elems : list jsval)
| JObj (fields : list (string * jsval))
| JFun (name : string).

(** An [Error] instance, as far as the code looks at it: its [message]. *)
Record ErrorObj : Type := mkError { err_message : string }.

(** What a [throw] (or a rejected promise) carries: an [Error] instance or
    some other value ([err instanceof Error] tells them apart). *)
Inductive thrown : Type :=
| ThrowError (e : ErrorObj)
| ThrowOther.

(** Completion of a computation without network effects. *)
Inductive completion (A : Type) : Type :=
| Normal (a : A)
| Throws (t : thrown).
Arguments Normal {A} a.
Arguments Throws {A} t.

Definition cbind {A B} (c : completion A) (k : A -> completion B) : completion B :=
  match c with
  | Normal a => k a
  | Throws t => Throws t
  end.

Declare Scope completion_scope.
Delimit Scope completion_scope with completion.
Notation "x <~ c ;; k" := (cbind c (fun x => k))
  (at level 61, c at next level, right associativity) : completion_scope.

(** The run-time faults of the engine that this code can provoke. *)
Inductive engine_fault : Type :=
| ReadOfNullish (base : jsval) (prop : string)   (* null.p, undefined.p *)
| NotAFunction (expr : string)                   (* calling a non-callable *)
| NotPrimitive.                                  (* object without a usable toString *)

Fixpoint assoc (k : string) (fs : list (string * jsval)) : option jsval :=
  match fs with
  | [] => None
  | (k', v) :: fs' => if String.eqb k k' then Some v else assoc k fs'
  end.

Definition has_own (k : string) (fs : list (string * jsval)) : bool :=
  match assoc k fs with Some _ => true | None => false end.

Definition is_nullish (v : jsval) : bool :=
  match v with JUndefined | JNull => true | _ => false end.

(** [ToBoolean]. *)
Definition truthy (v : jsval) : bool :=
  match v with
  | JUndefined | JNull => false
  | JBool b => b
  | JNum (S754_zero _) | JNum S754_nan => false
  | JNum _ => true
  | JStr s => negb (String.eqb s "")
  | JArr _ | JObj _ | JFun _ => true
  end.

(** [a || b] on already evaluated operands (every right operand in the
    source is a literal). *)
Definition js_or (a b : jsval) : jsval := if truthy a then a else b.

Definition string_of_bool (b : bool) : string := if b then "true" else "false".

Definition string_of_nat (n : nat) : string := NilZero.string_of_uint (Nat.to_uint n).
Definition string_of_Z (z : Z) : string := NilZero.string_of_int (Z.to_int z).

(* ================================================================== *)
(** * The platform: browser, engine and network *)
(* ================================================================== *)

Inductive Credentials := cred_include | cred_omit | cred_same_origin.

(** The arguments of one [fetch] call. [req_body] is the value given to
    [JSON.stringify] ([None] when the call has no body). *)
Record Request : Type := mkRequest {
  req_url : string;
  req_method : string;
  req_headers : list (string * string);
  req_credentials : Credentials;
  req_mode : option string;
  req_cache : option string;
  req_body : option jsval
}.

(** A [Response]: the status line and what [response.json()] settles to
    (the parsed body, or the rejection when the body is not JSON). *)
Record Response : Type := mkResponse {
  resp_status : Z;
  resp_statusText : string;
  resp_json : completion jsval
}.

(** [response.ok]. *)
Definition resp_ok (r : Response) : bool :=
  ((200 <=? resp_status r) && (resp_status r <=? 299))%Z.

(** Everything outside the repository that the code consults. The network
    may answer differently as time goes by: it sees the requests made so
    far. *)
Record Platform : Type := mkPlatform {
  location_search : list (string * string);   (* entries of new URLSearchParams(window.location.search) *)
  network : list Request -> Request -> completion Response;   (* fetch: resolves or rejects *)
  date_now : Z;                               (* Date.now() *)
  number_to_string : spec_float -> string;    (* Number::toString *)
  string_to_number : string -> spec_float;    (* StringToNumber *)
  fault_message : engine_fault -> string;     (* wording of the engine's TypeErrors *)
  date_toLocaleString : string -> string      (* new Date(s).toLocaleString() *)
}.

(* ================================================================== *)
(** * Engine operations on values *)
(* ================================================================== *)

Section Engine.
Variable p : Platform.

Definition type_error {A} (f : engine_fault) : completion A :=
  Throws (ThrowError (mkError (fault_message p f))).

(** Names that [Array.prototype] supplies among those the code reads. *)
Definition array_method (k : string) : bool :=
  String.eqb k "forEach" || String.eqb k "map" || String.eqb k "entries"
  || String.eqb k "join".

(** Property read [v.k], for the property names read in this code base
    other than [length] (see [length_positive]): own properties of
    objects, the built-in methods of arrays, [undefined] on other
    primitives, and a TypeError on [null] and [undefined]. *)
Definition get (v : jsval) (k : string) : completion jsval :=
  match v with
  | JUndefined | JNull => type_error (ReadOfNullish v k)
  | JObj fs => Normal (match assoc k fs with Some x => x | None => JUndefined end)
  | JArr _ => Normal (if array_method k then JFun k else JUndefined)
  | JBool _ | JNum _ | JStr _ | JFun _ => Normal JUndefined
  end.

(** Optional chaining [v?.k]. *)
Definition opt_get (v : jsval) (k : string) : completion jsval :=
  if is_nullish v then Normal JUndefined else get v k.

(** [ToString], as a template literal applies it. Arrays go through
    [Array.prototype.join]; a plain object prints as [[object Object]]
    unless it has an own [toString] property, which after [JSON.parse]
    is never callable, so that [OrdinaryToPrimitive] gives up. *)
Fixpoint to_string (v : jsval) : completion string :=
  match v with
  | JUndefined => Normal "undefined"
  | JNull => Normal "null"
  | JBool b => Normal (string_of_bool b)
  | JNum x => Normal (number_to_string p x)
  | JStr s => Normal s
  | JArr l =>
      (fix join (l : list jsval) : completion string :=
         match l with
         | [] => Normal ""
         | x :: r =>
             (s <~ (if is_nullish x then Normal "" else to_string x) ;;
              match r with
              | [] => Normal s
              | _ :: _ => (t <~ join r ;; Normal (s ++ "," ++ t)%string)
              end)%completion
         end) l
  | JObj fs => if has_own "toString" fs then type_error NotPrimitive
               else Normal "[object Object]"
  | JFun name => Normal ("function " ++ name ++ "() { [native code] }")%string
  end.

(** [ToNumber]. For arrays and objects [valueOf] yields the object
    itself, so the conversion goes through [ToString]. *)
Definition to_number (v : jsval) : completion spec_float :=
  match v with
  | JUndefined => Normal S754_nan
  | JNull => Normal (S754_zero false)
  | JBool b => Normal (if b then S754_finite false 4503599627370496 (-52) else S754_zero false)
  | JNum x => Normal x
  | JStr s => Normal (string_to_number p s)
  | JArr _ | JObj _ | JFun _ =>
      (s <~ to_string v ;; Normal (string_to_number p s))%completion
  end.

(** [x > 0] on a number. *)
Definition positive_number (x : spec_float) : bool :=
  match x with
  | S754_infinity false | S754_finite false _ _ => true
  | _ => false
  end.

(** The test [v?.length > 0]: an array or a string is tested for being
    non-empty, an object through its own [length] property, a built-in
    method through its number of parameters (none for [entries], one for
    the others), and every other value has no [length]. *)
Definition length_positive (v : jsval) : completion bool :=
  match v with
  | JArr l => Normal (match l with [] => false | _ :: _ => true end)
  | JStr s => Normal (negb (String.eqb s ""))
  | JObj fs =>
      match assoc "length" fs with
      | Some len => (x <~ to_number len ;; Normal (positive_number x))%completion
      | None => Normal false
      end
  | JFun name => Normal (negb (String.eqb name "entries"))
  | JUndefined | JNull | JBool _ | JNum _ => Normal false
  end.

End Engine.

(* ================================================================== *)
(** * Promises: exceptions, the request log and the mutable locals *)
(* ================================================================== *)

(** The state an [async] function of the service runs in: the requests
    handed to [fetch] so far, oldest first, and the three [let] variables
    of [fetchAndAnalyzeMeeting], which are assigned inside a [try] block and
    read after it. *)
Record State : Type := mkState {
  trace : list Request;
  var_analyzeResponse : option Response;   (* undefined until assigned *)
  var_analyzeData : jsval;
  var_lastError : option ErrorObj          (* Error | null *)
}.

Definition initial_state : State := mkState [] None JUndefined None.

(** An awaited computation: it settles (resolves or rejects) and leaves a
    state behind. A rejection keeps the state reached so far. *)
Definition Async (A : Type) : Type := State -> completion A * State.

Definition ret {A} (a : A) : Async A := fun s => (Normal a, s).

Definition bind {A B} (m : Async A) (k : A -> Async B) : Async B :=
  fun s => match m s with
           | (Normal a, s') => k a s'
           | (Throws t, s') => (Throws t, s')
           end.

Declare Scope async_scope.
Delimit Scope async_scope with async.
Notation "x <- c ;; k" := (bind c (fun x => k))
  (at level 61, c at next level, right associativity) : async_scope.
Notation "c ;;; k" := (bind c (fun _ => k))
  (at level 61, right associativity) : async_scope.

(** A synchronous computation used inside an [async] function. *)
Definition lift {A} (c : completion A) : Async A := fun s => (c, s).

(** [try { body } catch (e) { handler e }]. *)
Definition try_catch {A} (body : Async A) (handler : thrown -> Async A) : Async A :=
  fun s => match body s with
           | (Normal a, s') => (Normal a, s')
           | (Throws t, s') => handler t s'
           end.

(** [console.log], [console.warn] and [console.error] write to the
    developer console only; their arguments are evaluated by the caller. *)
Definition console_log (args : list jsval) : Async unit := ret tt.

Definition set_analyzeResponse (r : Response) : Async unit :=
  fun s => (Normal tt, mkState (trace s) (Some r) (var_analyzeData s) (var_lastError s)).
Definition set_analyzeData (d : jsval) : Async unit :=
  fun s => (Normal tt, mkState (trace s) (var_analyzeResponse s) d (var_lastError s)).
Definition set_lastError (e : ErrorObj) : Async unit :=
  fun s => (Normal tt, mkState (trace s) (var_analyzeResponse s) (var_analyzeData s) (Some e)).
(** [let analyzeResponse; let analyzeData; let lastError = null;] *)
Definition declare_locals : Async unit :=
  fun s => (Normal tt, mkState (trace s) None JUndefined None).
Definition read {A} (f : State -> A) : Async A := fun s => (Normal (f s), s).

(** [for (const x of xs) { body x }] where the body ends in [break] or runs
    to its end. *)
Inductive loop_exit := Break | Continue.

Fixpoint for_of {A} (xs : list A) (body : A -> Async loop_exit) : Async unit :=
  match xs with
  | [] => ret tt
  | x :: rest =>
      (e <- body x ;;
       match e with
       | Break => ret tt
       | Continue => for_of rest body
       end)%async
  end.

(** [err instanceof Error ? err : new Error(msg)]. *)
Definition error_or_new (t : thrown) (msg : string) : ErrorObj :=
  match t with
  | ThrowError e => e
  | ThrowOther => mkError msg
  end.

(* ================================================================== *)
(** * meetingService.ts *)
(* ================================================================== *)

Definition API_BASE_URL : string := "https://mom-bot-transcript-service.onrender.com".

(** [URLSearchParams.prototype.get]: the first value given for the name,
    [null] when there is none. *)
Fixpoint params_get (name : string) (ps : list (string * string)) : option string :=
  match ps with
  | [] => None
  | (k, v) :: ps' => if String.eqb k name then Some v else params_get name ps'
  end.

Section Helpers.
Variable p : Platform.

Definition getTestModeFromUrl : bool :=
  let urlParams := location_search p in
  let testModeParam := params_get "test_mode" urlParams in
  match testModeParam with
  | None => true
  | Some v => String.eqb v "true"
  end.

Definition baseUrls : list string :=
  [ "http://localhost:8000/api/v1/analyze";
    "http://127.0.0.1:8000/api/v1/analyze";
    "http://0.0.0.0:8000/api/v1/analyze" ].

Definition getAnalyzeApiUrls : list string :=
  let testMode := getTestModeFromUrl in
  map (fun url => url ++ "?test_mode=" ++ string_of_bool testMode
                      ++ "&llm_timeout=60&user_lookup_timeout=30")%string
      baseUrls.
End Helpers.

(** [interface MeetingProcessResult]. A field is [None] when the object
    literal that builds the result does not list the key. *)
Record MeetingProcessResult : Type := mkResult {
  success : bool;
  data : option jsval;
  analyzeResponse : option jsval;
  error : option jsval
}.

Module MeetingService.
Section Service.
Variable p : Platform.

Definition fetch (req : Request) : Async Response :=
  fun s => (network p (trace s) req,
            mkState (trace s ++ [req]) (var_analyzeResponse s)
                    (var_analyzeData s) (var_lastError s)).

(** [await response.json()]. *)
Definition json (r : Response) : Async jsval := lift (resp_json r).

Definition auth_status_request : Request :=
  mkRequest (API_BASE_URL ++ "/auth/status?t=" ++ string_of_Z (date_now p))%string
            "GET"
            [("Cache-Control", "no-cache"); ("Pragma", "no-cache")]
            cred_include None (Some "no-cache") None.

Definition checkAuthStatus : Async jsval :=
  try_catch
    (console_log [JStr "Checking auth status with API:";
                  JStr (API_BASE_URL ++ "/auth/status")] ;;;
     response <- fetch auth_status_request ;;
     console_log [JStr "Auth status response:"] ;;;
     data <- json response ;;
     console_log [JStr "Auth status data:"; data] ;;;
     authenticated <- lift (get p data "authenticated") ;;
     console_log [JStr "Setting auth status to:"; authenticated] ;;;
     ret data)%async
    (fun err =>
       (console_log [JStr "Auth status check failed:"] ;;;
        ret (JObj [("authenticated", JBool false)]))%async).

Definition logout : Async unit :=
  try_catch
    (_ <- fetch (mkRequest (API_BASE_URL ++ "/auth/logout") "GET" []
                           cred_include None None None) ;;
     ret tt)%async
    (fun err => (console_log [JStr "Logout failed:"] ;;; lift (Throws err))%async).

Definition getLoginUrl : string := (API_BASE_URL ++ "/auth/login")%string.

(** [recv.forEach(cb)]: only an array has a callable [forEach]. *)
Fixpoint forEach_from (l : list jsval) (i : nat)
         (cb : jsval -> nat -> completion unit) : completion unit :=
  match l with
  | [] => Normal tt
  | x :: r => (_ <~ cb x i ;; forEach_from r (S i) cb)%completion
  end.

Definition forEach (expr : string) (recv : jsval)
           (cb : jsval -> nat -> completion unit) : completion unit :=
  match recv with
  | JArr l => forEach_from l 0 cb
  | JUndefined | JNull => type_error p (ReadOfNullish recv "forEach")
  | _ => type_error p (NotAFunction expr)
  end.

(** The line logged for one entry:
    [`${entryIndex + 1}. [${entry?.startTime || '00:00'} - ${entry?.endTime || '00:00'}] ${entry?.speaker ? `${entry.speaker}: ` : ''}${entry?.text || 'No content'}`]. *)
Definition entry_line (entry : jsval) (entryIndex : nat) : completion string :=
  (startTime <~ opt_get p entry "startTime" ;;
   s1 <~ to_string p (js_or startTime (JStr "00:00")) ;;
   endTime <~ opt_get p entry "endTime" ;;
   s2 <~ to_string p (js_or endTime (JStr "00:00")) ;;
   speaker <~ opt_get p entry "speaker" ;;
   s3 <~ (if truthy speaker
          then (sp <~ get p entry "speaker" ;;
                s <~ to_string p sp ;;
                Normal (s ++ ": ")%string)
          else Normal "") ;;
   text <~ opt_get p entry "text" ;;
   s4 <~ to_string p (js_or text (JStr "No content")) ;;
   Normal (string_of_nat (entryIndex + 1) ++ ". [" ++ s1 ++ " - " ++ s2 ++ "] "
             ++ s3 ++ s4)%string)%completion.

(** The console dump of the transcript on the success path (the block
    under "Log original transcript data for reference"); [d] is
    [data.data]. Nothing is returned, but the property reads, the
    [forEach] calls and the template literals are evaluated. *)
Definition log_original_transcript (meetingTitle : string) (d : jsval)
  : completion unit :=
  (transcripts <~ opt_get p d "transcripts" ;;
   nonempty <~ length_positive p transcripts ;;
   if nonempty then
     (ts <~ get p d "transcripts" ;;
      forEach "data.data.transcripts.forEach" ts
        (fun transcript index =>
           created <~ opt_get p transcript "createdDateTime" ;;
           _ <~ to_string p (js_or created (JStr "Unknown")) ;;
           entries <~ opt_get p transcript "entries" ;;
           if is_nullish entries then Normal tt
           else forEach "transcript?.entries?.forEach" entries
                  (fun entry entryIndex =>
                     _ <~ entry_line entry entryIndex ;; Normal tt)))
   else Normal tt)%completion.

Definition transcript_fetch_request (meetingUrl : string) : Request :=
  mkRequest (API_BASE_URL ++ "/transcript/fetch")%string "POST"
            [("Content-Type", "application/json")]
            cred_include None None
            (Some (JObj [("joinUrl", JStr meetingUrl)])).

(** The analyze call; [d] is [data.data], and [JSON.stringify(undefined)]
    leaves the request without a body. *)
Definition analyze_request (apiUrl : string) (d : jsval) : Request :=
  mkRequest apiUrl "POST"
            [("accept", "application/json");
             ("accept-language",
              "en-IN,en-US;q=0.9,en-GB;q=0.8,en;q=0.7,ta;q=0.6,kn;q=0.5");
             ("content-type", "application/json")]
            cred_omit (Some "cors") None
            (match d with JUndefined => None | _ => Some d end).

(** The body of the loop over the analyze URLs. *)
Definition try_analyze (d : jsval) (apiUrl : string) : Async loop_exit :=
  try_catch
    (console_log [JStr ("Trying analyze API URL: " ++ apiUrl)] ;;;
     r <- fetch (analyze_request apiUrl d) ;;
     set_analyzeResponse r ;;;
     console_log [JStr "Analyze response"] ;;;
     body <- json r ;;
     set_analyzeData body ;;;
     console_log [JStr "Analyze raw response data:"; body] ;;;
     (* If we got here, the call succeeded, so break out of the loop *)
     ret Break)%async
    (fun analyzeError =>
       (console_log [JStr ("Failed to connect to " ++ apiUrl)] ;;;
        set_lastError (error_or_new analyzeError "Unknown error") ;;;
        (* Continue to try the next URL *)
        ret Continue)%async).

(** [lastError?.message]. *)
Definition lastError_message (e : option ErrorObj) : jsval :=
  match e with
  | Some e => JStr (err_message e)
  | None => JUndefined
  end.

(** [`Analysis failed - could not connect to any analyze API endpoints. Last error: ${lastError?.message || 'Unknown network error'}. Transcript was fetched successfully.`] *)
Definition network_failure_message (lastError : option ErrorObj) : completion string :=
  (last <~ to_string p (js_or (lastError_message lastError)
                              (JStr "Unknown network error")) ;;
   Normal ("Analysis failed - could not connect to any analyze API endpoints. Last error: "
             ++ last ++ ". Transcript was fetched successfully.")%string)%completion.

(** [`Analysis failed: ${analyzeData?.message || 'Unknown error'}, but transcript was fetched successfully`] *)
Definition analysis_failed_message (analyzeData : jsval) : completion string :=
  (message <~ opt_get p analyzeData "message" ;;
   msg <~ to_string p (js_or message (JStr "Unknown error")) ;;
   Normal ("Analysis failed: " ++ msg
             ++ ", but transcript was fetched successfully")%string)%completion.

Definition fetchAndAnalyzeMeeting (meetingUrl meetingTitle : string)
  : Async MeetingProcessResult :=
  try_catch
    ((* Step 1: Fetch transcript *)
     response <- fetch (transcript_fetch_request meetingUrl) ;;
     data <- json response ;;
     ok <- lift (get p data "success") ;;
     if negb (truthy ok) then
       message <- lift (get p data "message") ;;
       ret (mkResult false None None
              (Some (js_or message (JStr "Failed to fetch transcript"))))
     else
       d <- lift (get p data "data") ;;
       meetingInfo <- lift (opt_get p d "meetingInfo") ;;
       console_log [JStr "Meeting Info:"; meetingInfo] ;;;
       (* Step 2: Analyze meeting data *)
       let testMode := getTestModeFromUrl p in
       console_log [JStr ("Using test_mode: " ++ string_of_bool testMode)] ;;;
       declare_locals ;;;
       (* Try multiple API URLs in case the service is running on different addresses *)
       let analyzeUrls := getAnalyzeApiUrls p in
       for_of analyzeUrls (try_analyze d) ;;;
       analyzeResponse <- read var_analyzeResponse ;;
       analyzeData <- read var_analyzeData ;;
       lastError <- read var_lastError ;;
       match analyzeResponse with
       | None =>
           (* If all URLs failed, return error *)
           (* Still return success with transcript data even if analysis
              fails due to network error *)
           summary <- lift (network_failure_message lastError) ;;
           ret (mkResult true (Some d) None (Some (JStr summary)))
       | Some analyzeResponse =>
           if resp_ok analyzeResponse then
             lift (log_original_transcript meetingTitle d) ;;;
             ret (mkResult true (Some d) (Some analyzeData) None)
           else
             (* Still return success with transcript data even if analysis fails *)
             summary <- lift (analysis_failed_message analyzeData) ;;
             ret (mkResult true (Some d) (Some analyzeData) (Some (JStr summary)))
       end)%async
    (fun err =>
       (console_log [JStr "Error in meeting summary process:"] ;;;
        let errorMessage :=
          match err with
          | ThrowError e => err_message e
          | ThrowOther => "An error occurred during the process"
          end in
        ret (mkResult false None None (Some (JStr errorMessage))))%async).

(** [apiUrl.split('?')[0]]: the part of the URL before the first [?]. *)
Fixpoint before_query (s : string) : string :=
  match s with
  | EmptyString => EmptyString
  | String c s' => if Ascii.eqb c "?"%char then EmptyString
                   else String c (before_query s')
  end.

Record Connectivity : Type := mkConnectivity {
  conn_success : bool;
  workingUrl : option string;
  conn_error : option string
}.

Fixpoint probe (urls : list string) : Async Connectivity :=
  match urls with
  | [] =>
      ret (mkConnectivity false None
             (Some "Could not connect to any analyze API endpoints. Make sure the Python service is running on port 8000."))
  | apiUrl :: rest =>
      try_catch
        (_ <- fetch (mkRequest (before_query apiUrl) "OPTIONS" [] cred_same_origin
                               (Some "cors") None None) ;;
         ret (mkConnectivity true (Some apiUrl) None))%async
        (fun _ => probe rest)
  end.

Definition testAnalyzeApiConnectivity : Async Connectivity :=
  probe (getAnalyzeApiUrls p).

End Service.
End MeetingService.

(* ================================================================== *)
(** * App.tsx: the transcript export *)
(* ================================================================== *)

Module App.

(** The component keeps the transcript in state of type
    [TranscriptData | null] and guards every read with [?.] or [||]; the
    records below follow the declared interfaces, with [None] for a field
    (or an array element) that is missing, [null] or [undefined]. *)
Record TranscriptEntry : Type := mkEntry {
  startTime : option string;
  endTime : option string;
  text : option string;
  speaker : option string
}.

Record Attendee : Type := mkAttendee {
  name : option string;
  email : option string
}.

Record MeetingInfo : Type := mkMeetingInfo {
  id : option string;
  subject : option string;
  startDateTime : option string;
  endDateTime : option string;
  attendees : option (list Attendee)
}.

(** One element of [transcripts]; its [id] field is [section_id] here. *)
Record TranscriptSection : Type := mkSection {
  section_id : option string;
  createdDateTime : option string;
  entries : option (list (option TranscriptEntry))
}.

Record TranscriptData : Type := mkTranscriptData {
  meetingInfo : option MeetingInfo;
  transcripts : option (list (option TranscriptSection))
}.

(** What the click on the generated link saves. *)
Record Download : Type := mkDownload {
  filename : string;
  mime : string;
  content : string
}.

Definition newline : ascii := ascii_of_nat 10.
Definition nl : string := String newline EmptyString.

(** [x || d] for an optional string: the empty string is falsy too. *)
Definition or_default (x : option string) (d : string) : string :=
  match x with
  | Some s => if String.eqb s "" then d else s
  | None => d
  end.

(** [o?.f]. *)
Definition opt_field {A B} (o : option A) (f : A -> option B) : option B :=
  match o with
  | Some a => f a
  | None => None
  end.

(** [xs.map((x, index) => f x index)]. *)
Fixpoint map_index_from {A B} (f : A -> nat -> B) (i : nat) (xs : list A) : list B :=
  match xs with
  | [] => []
  | x :: r => f x i :: map_index_from f (S i) r
  end.
Definition map_index {A B} (f : A -> nat -> B) (xs : list A) : list B :=
  map_index_from f 0 xs.

(** [`[${entry?.startTime || '00:00'} - ${entry?.endTime || '00:00'}] ${entry?.speaker ? `${entry.speaker}: ` : ''}${entry?.text || 'No content'}`]. *)
Definition format_entry (entry : option TranscriptEntry) : string :=
  ("[" ++ or_default (opt_field entry startTime) "00:00"
       ++ " - " ++ or_default (opt_field entry endTime) "00:00" ++ "] "
       ++ (match opt_field entry speaker with
           | Some s => if String.eqb s "" then "" else s ++ ": "
           | None => ""
           end)
       ++ or_default (opt_field entry text) "No content")%string.

Definition divider : string := (nl ++ nl ++ "---" ++ nl ++ nl)%string.

Section Exporting.
Variable p : Platform.

(** [new Date(dateString).toLocaleString()]; neither call throws on a
    string, so the [catch] branch is never taken. *)
Definition formatTime (dateString : string) : string :=
  date_toLocaleString p dateString.

Definition header (transcriptData : TranscriptData)
           (transcript : option TranscriptSection) (index : nat) : string :=
  ("Meeting: "
     ++ or_default (opt_field (meetingInfo transcriptData) subject) "Untitled Meeting"
     ++ nl ++ "Date: "
     ++ (match opt_field (meetingInfo transcriptData) startDateTime with
         | Some s => if String.eqb s "" then "Unknown" else formatTime s
         | None => "Unknown"
         end)
     ++ nl ++ "Transcript ID: "
     ++ or_default (opt_field transcript section_id)
                   ("transcript-" ++ string_of_nat (index + 1))
     ++ nl ++ nl)%string.

(** [transcript?.entries?.map(...).join('\n') || 'No transcript entries available']. *)
Definition entries_text (transcript : option TranscriptSection) : string :=
  match opt_field transcript entries with
  | Some es =>
      let joined := String.concat nl (map format_entry es) in
      if String.eqb joined "" then "No transcript entries available" else joined
  | None => "No transcript entries available"
  end.

Definition block (transcriptData : TranscriptData)
           (transcript : option TranscriptSection) (index : nat) : string :=
  (header transcriptData transcript index ++ entries_text transcript)%string.

Definition export_content (transcriptData : TranscriptData) : string :=
  match transcripts transcriptData with
  | Some ts =>
      let joined := String.concat divider (map_index (block transcriptData) ts) in
      if String.eqb joined "" then "No transcript data available" else joined
  | None => "No transcript data available"
  end.

Definition export_filename (transcriptData : TranscriptData) : string :=
  ("transcript-" ++ or_default (opt_field (meetingInfo transcriptData) id) "meeting"
                 ++ ".txt")%string.

(** [downloadTranscript]: nothing happens while there is no transcript;
    otherwise a text blob is saved under the file name. *)
Definition downloadTranscript (transcriptData : option TranscriptData)
  : option Download :=
  match transcriptData with
  | None => None
  | Some td => Some (mkDownload (export_filename td) "text/plain" (export_content td))
  end.
End Exporting.

(** ** Reading an export back *)

(** [s.split(sep)] for a non-empty separator: the pieces of [s] between
    the occurrences of [sep], found from left to right. [skip] counts the
    characters of a separator still to be passed over and [acc] is the
    piece being collected. *)
Fixpoint split_from (sep s : string) (skip : nat) (acc : string) : list string :=
  match s with
  | EmptyString => [acc]
  | String c s' =>
      match skip with
      | S k => split_from sep s' k acc
      | O =>
          if String.prefix sep s
          then acc :: split_from sep s' (String.length sep - 1) EmptyString
          else split_from sep s' 0 (acc ++ String c EmptyString)%string
      end
  end.

Definition split (sep s : string) : list string := split_from sep s 0 EmptyString.

(** The blocks of an export, and the lines of one block. *)
Definition read_blocks (exported : string) : list string := split divider exported.
Definition read_lines (blk : string) : list string := split nl blk.

(** The entry lines of a block: what follows the three header lines and
    the blank line. *)
Definition read_entry_lines (blk : string) : list string := skipn 4 (read_lines blk).

Fixpoint newline_free (s : string) : bool :=
  match s with
  | EmptyString => true
  | String c s' => negb (Ascii.eqb c newline) && newline_free s'
  end.

Definition opt_newline_free (x : option string) : bool :=
  match x with
  | Some s => newline_free s
  | None => true
  end.

(** No field of the entry that is exported holds a line break. *)
Definition entry_clean (entry : option TranscriptEntry) : bool :=
  opt_newline_free (opt_field entry startTime)
  && opt_newline_free (opt_field entry endTime)
  && opt_newline_free (opt_field entry speaker)
  && opt_newline_free (opt_field entry text).

Definition section_clean (transcript : option TranscriptSection) : bool :=
  opt_newline_free (opt_field transcript section_id)
  && match opt_field transcript entries with
     | Some es => forallb entry_clean es
     | None => true
     end.

Section Reading.
Variable p : Platform.

(** Nothing that goes into the export holds a line break: the subject,
    the date as the platform renders it, the section ids and the fields
    of the entries. *)
Definition transcript_clean (transcriptData : TranscriptData) : bool :=
  opt_newline_free (opt_field (meetingInfo transcriptData) subject)
  && match opt_field (meetingInfo transcriptData) startDateTime with
     | Some s => newline_free (formatTime p s)
     | None => true
     end
  && match transcripts transcriptData with
     | Some ts => forallb section_clean ts
     | None => true
     end.

(** The three lines of a block's header. *)
Definition header_lines (transcriptData : TranscriptData)
           (transcript : option TranscriptSection) (index : nat) : list string :=
  [ ("Meeting: "
       ++ or_default (opt_field (meetingInfo transcriptData) subject) "Untitled Meeting")%string;
    ("Date: "
       ++ (match opt_field (meetingInfo transcriptData) startDateTime with
           | Some s => if String.eqb s "" then "Unknown" else formatTime p s
           | None => "Unknown"
           end))%string;
    ("Transcript ID: "
       ++ or_default (opt_field transcript section_id)
                     ("transcript-" ++ string_of_nat (index + 1)))%string ].

(** The lines that stand for the entries of a section: one per entry,
    or the placeholder when there is none. *)
Definition entry_lines (transcript : option TranscriptSection) : list string :=
  match opt_field transcript entries with
  | Some (e :: es) => map format_entry (e :: es)
  | _ => ["No transcript entries available"]
  end.
End Reading.

(** No occurrence of [sep] starts inside [x], whatever follows [x]. *)
Fixpoint clear_of (sep x : string) : Prop :=
  match x with
  | EmptyString => True
  | String c x' =>
      (forall rest, String.prefix sep (String c (x' ++ rest)) = false)
      /\ clear_of sep x'
  end.

End App.

(* ================================================================== *)
(** * Vocabulary of the statements *)
(* ================================================================== *)

Section Vocabulary.
Variable p : Platform.

(** The transcript fetch succeeds with payload [d]: the request resolves,
    its body parses, [data.success] is truthy and [data.data] is [d]. *)
Definition fetched (s : State) (meetingUrl : string) (d : jsval) : Prop :=
  exists resp body ok,
    network p (trace s) (MeetingService.transcript_fetch_request meetingUrl) = Normal resp
    /\ resp_json resp = Normal body
    /\ get p body "success" = Normal ok
    /\ truthy ok = true
    /\ get p body "data" = Normal d.

(** The requests on record when the [k]-th analyze candidate (from 0) is
    tried, and what the network does with that attempt. *)
Definition requests_before (s : State) (meetingUrl : string) (d : jsval) (k : nat)
  : list Request :=
  trace s ++ MeetingService.transcript_fetch_request meetingUrl
          :: map (fun u => MeetingService.analyze_request u d)
                 (firstn k (getAnalyzeApiUrls p)).

Definition candidate (s : State) (meetingUrl : string) (d : jsval) (k : nat)
  : completion Response :=
  network p (requests_before s meetingUrl d k)
          (MeetingService.analyze_request (nth k (getAnalyzeApiUrls p) "") d).

(** A transport-level failure: [fetch] itself rejects. *)
Definition transport_failure (c : completion Response) : bool :=
  match c with
  | Throws _ => true
  | Normal _ => false
  end.

(** The attempt gets through the [try] block: the request resolves and
    the body parses as JSON. *)
Definition completes (c : completion Response) : bool :=
  match c with
  | Normal r => match resp_json r with Normal _ => true | Throws _ => false end
  | Throws _ => false
  end.

(** The wording of the [catch] blocks for a thrown value. *)
Definition thrown_message (t : thrown) (default : string) : string :=
  match t with
  | ThrowError e => err_message e
  | ThrowOther => default
  end.

(** The outcome of step 1 up to the test of [data.success]. *)
Definition phase1 (s : State) (meetingUrl : string) : completion jsval :=
  (resp <~ network p (trace s) (MeetingService.transcript_fetch_request meetingUrl) ;;
   body <~ resp_json resp ;;
   get p body "success")%completion.

Definition unauthenticated : jsval := JObj [("authenticated", JBool false)].

End Vocabulary.

(** ** The declared transcript shape as a JSON value *)

(** A payload of the declared [TranscriptData] shape, as [JSON.parse] hands
    it to the service: a missing field is an absent key, a missing array
    element is [null]. *)
Definition json_field (k : string) (x : option string) : list (string * jsval) :=
  match x with
  | Some s => [(k, JStr s)]
  | None => []
  end.

Definition encode_entry (entry : option App.TranscriptEntry) : jsval :=
  match entry with
  | Some e =>
      JObj (json_field "startTime" (App.startTime e)
            ++ json_field "endTime" (App.endTime e)
            ++ json_field "text" (App.text e)
            ++ json_field "speaker" (App.speaker e))
  | None => JNull
  end.

Definition encode_section (transcript : option App.TranscriptSection) : jsval :=
  match transcript with
  | Some t =>
      JObj (json_field "id" (App.section_id t)
            ++ json_field "createdDateTime" (App.createdDateTime t)
            ++ match App.entries t with
               | Some es => [("entries", JArr (map encode_entry es))]
               | None => []
               end)
  | None => JNull
  end.

Definition encode_attendee (a : App.Attendee) : jsval :=
  JObj (json_field "name" (App.name a) ++ json_field "email" (App.email a)).

Definition encode_meetingInfo (m : App.MeetingInfo) : jsval :=
  JObj (json_field "id" (App.id m)
        ++ json_field "subject" (App.subject m)
        ++ json_field "startDateTime" (App.startDateTime m)
        ++ json_field "endDateTime" (App.endDateTime m)
        ++ match App.attendees m with
           | Some l => [("attendees", JArr (map encode_attendee l))]
           | None => []
           end).

Definition encode_transcript (td : App.TranscriptData) : jsval :=
  JObj (match App.meetingInfo td with
        | Some m => [("meetingInfo", encode_meetingInfo m)]
        | None => []
        end
        ++ match App.transcripts td with
           | Some ts => [("transcripts", JArr (map encode_section ts))]
           | None => []
           end).

(** Values whose conversion to a string cannot throw. *)
Definition is_primitive (v : jsval) : bool :=
  match v with
  | JArr _ | JObj _ => false
  | _ => true
  end.

(* ================================================================== *)
(** * Sample platforms *)
(* ================================================================== *)

(** Concrete responses and a concrete platform on which the statements
    below are exercised. The engine wording is V8's; no number is printed
    or parsed in the samples, so their number printer only tells the
    special values apart. *)
Definition json_response (status : Z) (body : jsval) : completion Response :=
  Normal (mkResponse status "" (Normal body)).

Definition unparsed_response (status : Z) : completion Response :=
  Normal (mkResponse status ""
            (Throws (ThrowError (mkError "Unexpected token < in JSON at position 0")))).

Definition connection_refused : completion Response :=
  Throws (ThrowError (mkError "Failed to fetch")).

Definition sample_faults (f : engine_fault) : string :=
  match f with
  | ReadOfNullish JNull prop =>
      "Cannot read properties of null (reading '" ++ prop ++ "')"
  | ReadOfNullish _ prop =>
      "Cannot read properties of undefined (reading '" ++ prop ++ "')"
  | NotAFunction expr => expr ++ " is not a function"
  | NotPrimitive => "Cannot convert object to primitive value"
  end%string.

Definition sample_number_text (x : spec_float) : string :=
  match x with
  | S754_zero _ => "0"
  | S754_nan => "NaN"
  | S754_infinity false => "Infinity"
  | S754_infinity true => "-Infinity"
  | S754_finite _ _ _ => "1"
  end.

(** The network of the samples answers by URL: [auth] to the status check,
    [transcript] to the transcript fetch, and [c0], [c1], [c2] to the three
    analyze candidates. *)
Definition sample_network (auth transcript c0 c1 c2 : completion Response)
           (log : list Request) (req : Request) : completion Response :=
  let url := req_url req in
  if String.prefix (API_BASE_URL ++ "/auth/status") url then auth
  else if String.eqb url (API_BASE_URL ++ "/transcript/fetch") then transcript
  else if String.prefix "http://localhost:8000/" url then c0
  else if String.prefix "http://127.0.0.1:8000/" url then c1
  else if String.prefix "http://0.0.0.0:8000/" url then c2
  else connection_refused.

Definition sample_platform (search : list (string * string))
           (auth transcript c0 c1 c2 : completion Response) : Platform :=
  mkPlatform search (sample_network auth transcript c0 c1 c2) 1767225600000
             sample_number_text (fun _ => S754_nan) sample_faults (fun s => s).

(** A transcript payload of the declared shape, and a fetch answer that
    carries it. *)
Definition sample_transcript : jsval :=
  JObj [("meetingInfo", JObj [("id", JStr "m-1"); ("subject", JStr "Weekly sync")]);
        ("transcripts",
         JArr [JObj [("id", JStr "t-1");
                     ("createdDateTime", JStr "2026-02-01T10:00:00Z");
                     ("entries",
                      JArr [JObj [("startTime", JStr "00:01"); ("endTime", JStr "00:05");
                                  ("text", JStr "Hello"); ("speaker", JStr "Ann")];
                            JObj [("startTime", JStr "00:06"); ("endTime", JStr "00:09");
                                  ("text", JStr "Hi")]])]])].

Definition fetched_ok (payload : jsval) : completion Response :=
  json_response 200 (JObj [("success", JBool true); ("data", payload)]).

(** Two sections of two entries each, as the export sees them. *)
Definition sample_sections : list (option App.TranscriptSection) :=
  [ Some (App.mkSection (Some "t-1") None
            (Some [ Some (App.mkEntry (Some "00:01") (Some "00:05") (Some "Hello") (Some "Ann"));
                    Some (App.mkEntry (Some "00:06") None (Some "Hi") None) ]));
    Some (App.mkSection None None
            (Some [ Some (App.mkEntry None None None (Some "Bob"));
                    None ])) ].

Definition sample_export : App.TranscriptData :=
  App.mkTranscriptData
    (Some (App.mkMeetingInfo (Some "m-1") (Some "Weekly sync")
             (Some "2026-02-01T10:00:00Z") None None))
    (Some sample_sections).

(** One section with one entry whose text holds a divider. *)
Definition divided_export : App.TranscriptData :=
  App.mkTranscriptData None
    (Some [ Some (App.mkSection (Some "t-1") None
                    (Some [ Some (App.mkEntry (Some "00:01") (Some "00:05")
                                    (Some ("before" ++ App.divider ++ "after")%string)
                                    (Some "Ann")) ])) ]).

(** No section at all. *)
Definition empty_export : App.TranscriptData :=
  App.mkTranscriptData None (Some []).

Definition quiet_platform : Platform :=
  sample_platform [] connection_refused connection_refused
                  connection_refused connection_refused connection_refused.

(* ================================================================== *)
(** * App.tsx: the handlers of the component *)
(* ================================================================== *)

(** ** Handlers over component state *)

(** A handler of the component runs with the component's state [C] (what
    [useState] keeps) beside the state of the service calls it awaits. A
    [set...] call made before a throw stays made. *)
Module Hooks.

Definition UI (C A : Type) : Type := C -> State -> (completion A * C) * State.

Definition uret {C A} (a : A) : UI C A := fun c s => (Normal a, c, s).

Definition ubind {C A B} (m : UI C A) (k : A -> UI C B) : UI C B :=
  fun c s => match m c s with
             | (Normal a, c', s') => k a c' s'
             | (Throws t, c', s') => (Throws t, c', s')
             end.

(** [await m] for a call [m] that does not touch the component. *)
Definition await {C A} (m : Async A) : UI C A :=
  fun c s => let (r, s') := m s in (r, c, s').

(** A state setter, [setX(v)] being [set (setX v)]. *)
Definition set {C} (f : C -> C) : UI C unit := fun c s => (Normal tt, f c, s).

(** [try { body } catch (err) { handler err }]. *)
Definition ucatch {C A} (body : UI C A) (handler : thrown -> UI C A) : UI C A :=
  fun c s => match body c s with
             | (Throws t, c', s') => handler t c' s'
             | done => done
             end.

(** [try { body } finally { cleanup }]. *)
Definition ufinally {C A} (body : UI C A) (cleanup : UI C unit) : UI C A :=
  fun c s => match body c s with
             | (r, c', s') =>
                 match cleanup c' s' with
                 | (Normal _, c'', s'') => (r, c'', s'')
                 | (Throws t, c'', s'') => (Throws t, c'', s'')
                 end
             end.

End Hooks.

Declare Scope ui_scope.
Delimit Scope ui_scope with ui.
Notation "x <- c ;; k" := (Hooks.ubind c (fun x => k))
  (at level 61, c at next level, right associativity) : ui_scope.
Notation "c ;;; k" := (Hooks.ubind c (fun _ => k))
  (at level 61, right associativity) : ui_scope.

(** [err.message] in a [catch (err: any)]. For an [Error] it is the
    message. A rejection with any other value is one case of [thrown];
    what the read gives for that value (a TypeError when the value is
    [null] or [undefined], the value's own [message] when it has one, and
    [undefined] otherwise) is [other_message]. *)
Definition message_of (other_message : completion jsval) (err : thrown)
  : completion jsval :=
  match err with
  | ThrowError e => Normal (JStr (err_message e))
  | ThrowOther => other_message
  end.

(** ** The version with a URL field *)

Module AppComponent.
Import Hooks.

(** The state the component keeps with [useState]. What comes from a
    response is stored as it was parsed; [JNull] is the [null] of
    [transcriptData] and [error]. *)
Record Component : Type := mkComponent {
  authStatus : jsval;
  loading : bool;
  fetching : bool;
  meetingUrl : string;
  transcriptData : jsval;
  error : jsval
}.

Definition setAuthStatus (v : jsval) (c : Component) : Component :=
  mkComponent v (loading c) (fetching c) (meetingUrl c) (transcriptData c) (error c).
Definition setLoading (b : bool) (c : Component) : Component :=
  mkComponent (authStatus c) b (fetching c) (meetingUrl c) (transcriptData c) (error c).
Definition setFetching (b : bool) (c : Component) : Component :=
  mkComponent (authStatus c) (loading c) b (meetingUrl c) (transcriptData c) (error c).
Definition setTranscriptData (v : jsval) (c : Component) : Component :=
  mkComponent (authStatus c) (loading c) (fetching c) (meetingUrl c) v (error c).
Definition setError (v : jsval) (c : Component) : Component :=
  mkComponent (authStatus c) (loading c) (fetching c) (meetingUrl c) (transcriptData c) v.

Section Handlers.
Variable p : Platform.
(** [String.prototype.trim]. *)
Variable trim : string -> string.
(** What [err.message] gives for a rejection that is no [Error]. *)
Variable other_message : completion jsval.

Definition status_request : Request :=
  mkRequest (API_BASE_URL ++ "/auth/status")%string "GET" []
            cred_include None None None.

Definition logout_request : Request :=
  mkRequest (API_BASE_URL ++ "/auth/logout")%string "GET" []
            cred_include None None None.

Definition checkAuthStatus : UI Component unit :=
  ufinally
    (ucatch
       (response <- await (MeetingService.fetch p status_request) ;;
        data <- await (MeetingService.json response) ;;
        set (setAuthStatus data))
       (fun err => set (setAuthStatus (JObj [("authenticated", JBool false)]))))%ui
    (set (setLoading false)).

Definition handleLogout : UI Component unit :=
  ucatch
    (_ <- await (MeetingService.fetch p logout_request) ;;
     set (setAuthStatus (JObj [("authenticated", JBool false)])) ;;;
     set (setTranscriptData JNull))%ui
    (fun err => uret tt).

(** [authStatus.authenticated], as the render reads it to choose between
    the signed-in and the signed-out view. *)
Definition render_authenticated (c : Component) : completion bool :=
  (authenticated <~ get p (authStatus c) "authenticated" ;;
   Normal (truthy authenticated))%completion.

(** [meetingUrl] is the state of the render the handler belongs to. *)
Definition handleFetchTranscript : UI Component unit :=
  fun c =>
  (if String.eqb (trim (meetingUrl c)) "" then
     set (setError (JStr "Please enter a Teams meeting URL"))
   else
     (set (setFetching true) ;;;
      set (setError JNull) ;;;
      set (setTranscriptData JNull) ;;;
      ufinally
        (ucatch
           (response <- await (MeetingService.fetch p
                                 (MeetingService.transcript_fetch_request
                                    (trim (meetingUrl c)))) ;;
            data <- await (MeetingService.json response) ;;
            ok <- await (lift (get p data "success")) ;;
            if truthy ok then
              d <- await (lift (get p data "data")) ;;
              (* console.log of data.data, data.data?.meetingInfo, data.data?.transcripts *)
              _ <- await (lift (opt_get p d "meetingInfo")) ;;
              _ <- await (lift (opt_get p d "transcripts")) ;;
              set (setTranscriptData d)
            else
              message <- await (lift (get p data "message")) ;;
              set (setError (js_or message (JStr "Failed to fetch transcript"))))
           (fun err =>
              message <- await (lift (message_of other_message err)) ;;
              set (setError (js_or message (JStr "An error occurred")))))
        (set (setFetching false))))%ui c.

End Handlers.

(** ** [formatDuration] *)

(** The numbers of [formatDuration] are doubles whose values are integers
    (time values, their difference, floors of quotients) or [NaN]; they
    are kept as [option Z], with the rounding of the double operations
    written out. *)

(** [num / den] rounded to the nearest integer, ties to the even one. *)
Definition round_half_even (num den : Z) : Z :=
  let m := (num / den)%Z in
  let r := (num mod den)%Z in
  if ((den <? 2 * r) || ((den =? 2 * r) && Z.odd m))%Z then (m + 1)%Z else m.

(** The exponent [E] of the double nearest to [x / k] for positive
    integers [x] and [k]: its 53-bit mantissa [m] has
    [2^52 <= (x / k) / 2^E < 2^53]. *)
Definition quotient_exponent (x k : Z) : Z :=
  let e := (Z.log2 x - Z.log2 k)%Z in
  let below := if (0 <=? e)%Z then (x <? k * 2 ^ e)%Z else (x * 2 ^ (- e) <? k)%Z in
  ((if below then e - 1 else e) - 52)%Z.

(** [Math.floor(x / k)] for an integer-valued double [x] and a positive
    integer constant [k]: the quotient is rounded to the nearest double
    [m * 2^E] (towards the dividend's sign, the rounding is symmetric)
    before the floor is taken. With [k = 1] this is the double nearest to
    the integer [x]. *)
Definition floor_quotient (x k : Z) : Z :=
  if (x =? 0)%Z then 0%Z
  else
    let E := quotient_exponent (Z.abs x) k in
    if (0 <=? E)%Z
    then (Z.sgn x * round_half_even (Z.abs x) (k * 2 ^ E) * 2 ^ E)%Z
    else ((Z.sgn x * round_half_even (Z.abs x * 2 ^ (- E)) k) / 2 ^ (- E))%Z.

Section Duration.
(** [new Date(s).getTime()]: the time value in milliseconds, an integer
    of magnitude at most 8.64 * 10^15, or [NaN] ([None] here) when the
    string is not a date. *)
Variable getTime : string -> option Z.

(** [a - b]: the difference of two integer-valued doubles, rounded to
    the nearest double. *)
Definition number_sub (a b : option Z) : option Z :=
  match a, b with
  | Some x, Some y => Some (floor_quotient (x - y) 1)
  | _, _ => None
  end.

(** [Math.floor(a / k)] for a positive integer constant [k]. *)
Definition floor_div (a : option Z) (k : Z) : option Z :=
  option_map (fun x => floor_quotient x k) a.

(** [a % k] for a positive integer constant [k] and [a >= 0]; the
    remainder of doubles is exact. *)
Definition number_mod (a : option Z) (k : Z) : option Z :=
  option_map (fun x => (x mod k)%Z) a.

(** [a > 0]; false on [NaN]. *)
Definition number_positive (a : option Z) : bool :=
  match a with
  | Some x => (0 <? x)%Z
  | None => false
  end.

(** An integer-valued double below 10^21 in magnitude prints as its
    decimal digits. *)
Definition number_text (a : option Z) : string :=
  match a with
  | Some x => string_of_Z x
  | None => "NaN"
  end.

(** None of the operations in the [try] throws, so ['Unknown'] is never
    returned. *)
Definition formatDuration (startTime endTime : string) : string :=
  let start := getTime startTime in
  let end_ := getTime endTime in
  let durationMs := number_sub end_ start in
  let minutes := floor_div durationMs (1000 * 60) in
  let hours := floor_div minutes 60 in
  if number_positive hours then
    (number_text hours ++ "h " ++ number_text (number_mod minutes 60) ++ "m")%string
  else
    (number_text minutes ++ "m")%string.
End Duration.

End AppComponent.

(** ** The version with predefined meetings *)

Module AppSummary.
Import Hooks.

(** The state of that version: the URL field is gone and
    [fetchingMeetingId] ([number | null]) is new. *)
Record Component : Type := mkComponent {
  authStatus : jsval;
  loading : bool;
  fetching : bool;
  fetchingMeetingId : option Z;
  transcriptData : jsval;
  error : jsval
}.

Definition setFetching (b : bool) (c : Component) : Component :=
  mkComponent (authStatus c) (loading c) b (fetchingMeetingId c) (transcriptData c) (error c).
Definition setFetchingMeetingId (i : option Z) (c : Component) : Component :=
  mkComponent (authStatus c) (loading c) (fetching c) i (transcriptData c) (error c).
Definition setTranscriptData (v : jsval) (c : Component) : Component :=
  mkComponent (authStatus c) (loading c) (fetching c) (fetchingMeetingId c) v (error c).
Definition setError (v : jsval) (c : Component) : Component :=
  mkComponent (authStatus c) (loading c) (fetching c) (fetchingMeetingId c) (transcriptData c) v.

Section Handlers.
Variable p : Platform.
(** What [err.message] gives for a rejection that is no [Error]. *)
Variable other_message : completion jsval.

(** The block that logs the summary entries is the one of
    [fetchAndAnalyzeMeeting], word for word but for the texts logged. *)
Definition handleFetchMeetingSummary (meetingUrl meetingTitle : string) (meetingId : Z)
  : UI Component unit :=
  (set (setFetching true) ;;;
   set (setFetchingMeetingId (Some meetingId)) ;;;
   set (setError JNull) ;;;
   set (setTranscriptData JNull) ;;;
   ufinally
     (ucatch
        (response <- await (MeetingService.fetch p
                              (MeetingService.transcript_fetch_request meetingUrl)) ;;
         data <- await (MeetingService.json response) ;;
         ok <- await (lift (get p data "success")) ;;
         if truthy ok then
           d <- await (lift (get p data "data")) ;;
           _ <- await (lift (opt_get p d "meetingInfo")) ;;
           (* Log summary entries in a readable format *)
           await (lift (MeetingService.log_original_transcript p meetingTitle d)) ;;;
           set (setTranscriptData d)
         else
           message <- await (lift (get p data "message")) ;;
           set (setError (js_or message (JStr "Failed to generate summary"))))
        (fun err =>
           message <- await (lift (message_of other_message err)) ;;
           set (setError (js_or message (JStr "An error occurred")))))
     (set (setFetching false) ;;; set (setFetchingMeetingId None)))%ui.

End Handlers.
End AppSummary.

(** ** The version that goes through [MeetingService] *)

Module AppAnalysis.
Import Hooks.

(** A field of the result read as a property: [undefined] when the key is
    not there. *)
Definition field (x : option jsval) : jsval :=
  match x with
  | Some v => v
  | None => JUndefined
  end.

(** [result.data], [result.analyzeResponse] and [result.error]. *)
Definition result_data (result : MeetingProcessResult) : jsval := field (data result).
Definition result_analyzeResponse (result : MeetingProcessResult) : jsval :=
  field (analyzeResponse result).
Definition result_error (result : MeetingProcessResult) : jsval := field (error result).

Record Component : Type := mkComponent {
  authStatus : jsval;
  loading : bool;
  fetching : bool;
  fetchingMeetingId : option Z;
  transcriptData : jsval;
  analyzeResponse : jsval;
  error : jsval
}.

Definition setAuthStatus (v : jsval) (c : Component) : Component :=
  mkComponent v (loading c) (fetching c) (fetchingMeetingId c) (transcriptData c)
              (analyzeResponse c) (error c).
Definition setLoading (b : bool) (c : Component) : Component :=
  mkComponent (authStatus c) b (fetching c) (fetchingMeetingId c) (transcriptData c)
              (analyzeResponse c) (error c).
Definition setFetching (b : bool) (c : Component) : Component :=
  mkComponent (authStatus c) (loading c) b (fetchingMeetingId c) (transcriptData c)
              (analyzeResponse c) (error c).
Definition setFetchingMeetingId (i : option Z) (c : Component) : Component :=
  mkComponent (authStatus c) (loading c) (fetching c) i (transcriptData c)
              (analyzeResponse c) (error c).
Definition setTranscriptData (v : jsval) (c : Component) : Component :=
  mkComponent (authStatus c) (loading c) (fetching c) (fetchingMeetingId c) v
              (analyzeResponse c) (error c).
Definition setAnalyzeResponse (v : jsval) (c : Component) : Component :=
  mkComponent (authStatus c) (loading c) (fetching c) (fetchingMeetingId c) (transcriptData c)
              v (error c).
Definition setError (v : jsval) (c : Component) : Component :=
  mkComponent (authStatus c) (loading c) (fetching c) (fetchingMeetingId c) (transcriptData c)
              (analyzeResponse c) v.


Section Handlers.
Variable p : Platform.

Definition checkAuthStatus : UI Component unit :=
  ufinally
    (ucatch
       (authData <- await (MeetingService.checkAuthStatus p) ;;
        set (setAuthStatus authData))
       (fun err => set (setAuthStatus (JObj [("authenticated", JBool false)]))))%ui
    (set (setLoading false)).

Definition handleLogout : UI Component unit :=
  ucatch
    (await (MeetingService.logout p) ;;;
     set (setAuthStatus (JObj [("authenticated", JBool false)])) ;;;
     set (setTranscriptData JNull) ;;;
     set (setAnalyzeResponse JNull))%ui
    (fun err => uret tt).

(** [authStatus.authenticated], as the render reads it to choose between
    the signed-in and the signed-out view. *)
Definition render_authenticated (c : Component) : completion bool :=
  (authenticated <~ get p (authStatus c) "authenticated" ;;
   Normal (truthy authenticated))%completion.

(** [html.substring(0, 200) + '...']: only a string has [substring]. *)
Definition html_preview (html : jsval) : completion unit :=
  match html with
  | JStr _ => Normal tt
  | JUndefined | JNull => type_error p (ReadOfNullish html "substring")
  | _ => type_error p (NotAFunction "result.analyzeResponse.data.html.substring")
  end.

(** The block under "Log analyze response for debugging"; [a] is
    [result.analyzeResponse]. *)
Definition log_analyze_response (a : jsval) : completion unit :=
  (if truthy a then
     d <~ get p a "data" ;;
     _ <~ opt_get p d "mode" ;;
     d <~ get p a "data" ;;
     _ <~ opt_get p d "page_url" ;;
     d <~ get p a "data" ;;
     _ <~ opt_get p d "html" ;;
     d <~ get p a "data" ;;
     html <~ opt_get p d "html" ;;
     if truthy html then
       d <~ get p a "data" ;;
       html <~ get p d "html" ;;
       html_preview html
     else Normal tt
   else Normal tt)%completion.

Definition handleFetchMeetingSummary (meetingUrl meetingTitle : string) (meetingId : Z)
  : UI Component unit :=
  (set (setFetching true) ;;;
   set (setFetchingMeetingId (Some meetingId)) ;;;
   set (setError JNull) ;;;
   set (setTranscriptData JNull) ;;;
   set (setAnalyzeResponse JNull) ;;;
   ufinally
     (ucatch
        (result <- await (MeetingService.fetchAndAnalyzeMeeting p meetingUrl meetingTitle) ;;
         if success result then
           set (setTranscriptData (result_data result)) ;;;
           set (setAnalyzeResponse (js_or (result_analyzeResponse result) JNull)) ;;;
           (* Log analyze response for debugging *)
           await (lift (log_analyze_response (result_analyzeResponse result))) ;;;
           if truthy (result_error result)
           then set (setError (result_error result))
           else uret tt
         else
           set (setError (js_or (result_error result)
                                (JStr "Failed to process meeting"))))
        (fun err =>
           let errorMessage :=
             match err with
             | ThrowError e => err_message e
             | ThrowOther => "An error occurred during the process"
             end in
           set (setError (JStr errorMessage))))
     (set (setFetching false) ;;; set (setFetchingMeetingId None)))%ui.

End Handlers.
End AppAnalysis.

(* ================================================================== *)
(** * More vocabulary *)
(* ================================================================== *)

Section MoreVocabulary.
Variable p : Platform.

(** What the network does with the attempts on [urls], one after the
    other, from the request log [log] on; [d] is the payload sent. *)
Fixpoint attempts (d : jsval) (urls : list string) (log : list Request)
  : list (completion Response) :=
  match urls with
  | [] => []
  | u :: rest =>
      network p log (MeetingService.analyze_request u d)
      :: attempts d rest (log ++ [MeetingService.analyze_request u d])
  end.

(** The response held in [analyzeResponse] after such attempts: that of
    the last attempt whose request resolved. *)
Fixpoint last_resolved (outcomes : list (completion Response)) (held : option Response)
  : option Response :=
  match outcomes with
  | [] => held
  | Normal r :: rest => last_resolved rest (Some r)
  | Throws _ :: rest => last_resolved rest held
  end.

(** The preflight request of [testAnalyzeApiConnectivity]. *)
Definition probe_request (apiUrl : string) : Request :=
  mkRequest (MeetingService.before_query apiUrl) "OPTIONS" [] cred_same_origin
            (Some "cors") None None.

(** The request of [logout]. *)
Definition logout_request : Request :=
  mkRequest (API_BASE_URL ++ "/auth/logout")%string "GET" []
            cred_include None None None.

(** What the network does with the [k]-th preflight (from 0) of a run of
    [testAnalyzeApiConnectivity] that starts in state [s]. *)
Definition preflight (s : State) (k : nat) : completion Response :=
  network p (trace s ++ map probe_request (firstn k (getAnalyzeApiUrls p)))
          (probe_request (nth k (getAnalyzeApiUrls p) "")).

End MoreVocabulary.

(** ** More samples *)

(** A network that refuses the first [n] requests it sees and answers the
    later ones with [answer]. *)
Definition refusing_first (n : nat) (answer : completion Response)
           (log : list Request) (req : Request) : completion Response :=
  if Nat.ltb (List.length log) n then connection_refused else answer.

Definition platform_of (net : list Request -> Request -> completion Response) : Platform :=
  mkPlatform [] net 1767225600000 sample_number_text (fun _ => S754_nan)
             sample_faults (fun s => s).

(** A [trim] good enough for the samples: it drops spaces at both ends. *)
Fixpoint drop_spaces (s : string) : string :=
  match s with
  | String " " s' => drop_spaces s'
  | _ => s
  end.

Fixpoint rev_string (s acc : string) : string :=
  match s with
  | EmptyString => acc
  | String c s' => rev_string s' (String c acc)
  end.

Definition sample_trim (s : string) : string :=
  rev_string (drop_spaces (rev_string (drop_spaces s) "")) "".

(** Time values by table, for the samples. *)
Definition sample_getTime (s : string) : option Z :=
  if String.eqb s "2026-02-01T10:00:00Z" then Some 1769940000000%Z
  else if String.eqb s "2026-02-01T10:45:30Z" then Some 1769942730000%Z
  else if String.eqb s "2026-02-01T12:05:00Z" then Some 1769947500000%Z
  else if String.eqb s "-271821-04-20T00:00:00.000Z" then Some (-8640000000000000)%Z
  else if String.eqb s "+275760-09-12T23:59:59.999Z" then Some 8639999999999999%Z
  else None.

(** [Some ""] read as a missing field. *)
Definition nonempty (x : option string) : option string :=
  match x with
  | Some s => if String.eqb s "" then None else Some s
  | None => None
  end.

(** A component with a URL typed in, one with a blank field, and one of
    the version with predefined meetings showing an earlier transcript. *)
Definition typing_component : AppComponent.Component :=
  AppComponent.mkComponent (JObj [("authenticated", JBool true)]) false false
    "  https://teams.example/meet/1 " JNull (JStr "Earlier failure").

Definition blank_component : AppComponent.Component :=
  AppComponent.mkComponent (JObj [("authenticated", JBool true)]) false false
    "   " sample_transcript JNull.

Definition summary_component : AppSummary.Component :=
  AppSummary.mkComponent (JObj [("authenticated", JBool true)]) false false None
    sample_transcript JNull.


(** ** Vocabulary and samples for the component *)

(** What [result.analyzeResponse.data?.html] finds in an analysis body:
    the [html] of its [data] object, [undefined] when there is none. *)
Definition analysis_html (a : jsval) : jsval :=
  match a with
  | JObj fields =>
      match assoc "data" fields with
      | Some (JObj inner) =>
          match assoc "html" inner with
          | Some html => html
          | None => JUndefined
          end
      | _ => JUndefined
      end
  | _ => JUndefined
  end.

Definition is_string (v : jsval) : bool :=
  match v with
  | JStr _ => true
  | _ => false
  end.

(** A component of the version that goes through the service, showing an
    earlier meeting. *)
Definition analysis_component : AppAnalysis.Component :=
  AppAnalysis.mkComponent (JObj [("authenticated", JBool true)]) false false None
    sample_transcript (JObj [("data", JObj [("mode", JStr "test")])]) JNull.

(** Whatever the computation throws is an [Error]. *)
Definition throws_errors_only {A} (c : completion A) : Prop :=
  forall t, c = Throws t -> exists e, t = ThrowError e.

(* ================================================================== *)
(** * Properties of the meeting service *)
(* ================================================================== *)

Lemma params_get_test_mode (ps : list (string * string)) :
  (match params_get "test_mode" ps with None => true | Some v => String.eqb v "true" end) = true
  <-> params_get "test_mode" ps = None \/ params_get "test_mode" ps = Some "true".
Proof.
  destruct (params_get "test_mode" ps) as [v|]; split; intros H; auto.
  - right. apply String.eqb_eq in H. now subst.
  - destruct H as [H|H]; [discriminate|]. injection H as ->. reflexivity.
Qed.

(** C9. The analyze candidates are built from the page's query string:
    the [test_mode] flag is true exactly when the parameter is absent or
    equals ['true'] (so it is true when absent), and the candidates are the
    three base URLs, in order, each followed by
    [?test_mode=<flag>&llm_timeout=60&user_lookup_timeout=30]. *)
Theorem analyze_urls_follow_query_string (p : Platform) :
  (getTestModeFromUrl p = true
   <-> params_get "test_mode" (location_search p) = None
       \/ params_get "test_mode" (location_search p) = Some "true")
  /\ (params_get "test_mode" (location_search p) = None -> getTestModeFromUrl p = true)
  /\ List.length (getAnalyzeApiUrls p) = 3
  /\ (forall k u, nth_error (getAnalyzeApiUrls p) k = Some u ->
        exists base, nth_error baseUrls k = Some base
          /\ u = (base ++ "?test_mode=" ++ string_of_bool (getTestModeFromUrl p)
                       ++ "&llm_timeout=60&user_lookup_timeout=30")%string).
Proof.
  split; [apply params_get_test_mode|].
  split; [intros H; unfold getTestModeFromUrl; now rewrite H|].
  split; [reflexivity|].
  intros k u H. unfold getAnalyzeApiUrls in H.
  rewrite nth_error_map in H.
  destruct (nth_error baseUrls k) as [base|]; [|discriminate].
  exists base. split; [reflexivity|]. simpl in H. now injection H as <-.
Qed.

Section ServiceProperties.
Variable p : Platform.

(** What [checkAuthStatus] resolves to, by cases on the network. *)
Lemma checkAuthStatus_cases (s : State) :
  fst (MeetingService.checkAuthStatus p s) =
  Normal (match network p (trace s) (MeetingService.auth_status_request p) with
          | Throws _ => unauthenticated
          | Normal resp =>
              match resp_json resp with
              | Throws _ => unauthenticated
              | Normal body => if is_nullish body then unauthenticated else body
              end
          end).
Proof.
  unfold MeetingService.checkAuthStatus, try_catch, bind, MeetingService.fetch,
    MeetingService.json, lift, console_log, ret. simpl.
  destruct (network p (trace s) (MeetingService.auth_status_request p)) as [resp|t];
    simpl; [|reflexivity].
  destruct (resp_json resp) as [body|t]; simpl; [|reflexivity].
  destruct body; reflexivity.
Qed.

(** C7. [checkAuthStatus] never rejects: whatever the network does, the
    promise resolves to a value, and that value is
    [{authenticated: false}] when the request fails or the body does not
    parse. *)
Theorem checkAuthStatus_never_rejects (s : State) :
  (exists v s', MeetingService.checkAuthStatus p s = (Normal v, s'))
  /\ (forall t,
        network p (trace s) (MeetingService.auth_status_request p) = Throws t ->
        fst (MeetingService.checkAuthStatus p s) = Normal unauthenticated)
  /\ (forall resp t,
        network p (trace s) (MeetingService.auth_status_request p) = Normal resp ->
        resp_json resp = Throws t ->
        fst (MeetingService.checkAuthStatus p s) = Normal unauthenticated).
Proof.
  split; [|split].
  - pose proof (checkAuthStatus_cases s) as H.
    destruct (MeetingService.checkAuthStatus p s) as [c s'] eqn:E. simpl in H.
    subst c. eauto.
  - intros t H. rewrite checkAuthStatus_cases, H. reflexivity.
  - intros resp t H J. rewrite checkAuthStatus_cases, H, J. reflexivity.
Qed.

(** C10 (amended). [checkAuthStatus] does not look at the HTTP status:
    a body that parses to anything but [null] is returned as it is,
    whatever the status and whether or not it has an [authenticated]
    field. The fallback [{authenticated: false}] is produced when the
    request rejects, when the body does not parse, and when the body is the
    JSON value [null] (reading [data.authenticated] for the log line then
    throws inside the [try]). *)
Theorem checkAuthStatus_returns_body (s : State) :
  (forall resp body,
      network p (trace s) (MeetingService.auth_status_request p) = Normal resp ->
      resp_json resp = Normal body ->
      is_nullish body = false ->
      fst (MeetingService.checkAuthStatus p s) = Normal body)
  /\ (forall resp body,
        network p (trace s) (MeetingService.auth_status_request p) = Normal resp ->
        resp_json resp = Normal body ->
        is_nullish body = true ->
        fst (MeetingService.checkAuthStatus p s) = Normal unauthenticated)
  /\ (completes (network p (trace s) (MeetingService.auth_status_request p)) = false ->
      fst (MeetingService.checkAuthStatus p s) = Normal unauthenticated).
Proof.
  repeat split.
  - intros resp body H J N. rewrite checkAuthStatus_cases, H, J, N. reflexivity.
  - intros resp body H J N. rewrite checkAuthStatus_cases, H, J, N. reflexivity.
  - intros C. rewrite checkAuthStatus_cases. unfold completes in C.
    destruct (network p (trace s) (MeetingService.auth_status_request p)) as [resp|t];
      [|reflexivity].
    destruct (resp_json resp); [discriminate|reflexivity].
Qed.
End ServiceProperties.

Section LoopProperties.
Variable p : Platform.
Variable d : jsval.

Local Abbreviation A := (fun u => MeetingService.analyze_request u d).

Lemma try_analyze_rejected (u : string) (s : State) (t : thrown) :
  network p (trace s) (A u) = Throws t ->
  MeetingService.try_analyze p d u s =
  (Normal Continue,
   mkState (trace s ++ [A u]) (var_analyzeResponse s) (var_analyzeData s)
           (Some (error_or_new t "Unknown error"))).
Proof.
  intros H. unfold MeetingService.try_analyze, try_catch, bind, MeetingService.fetch,
    console_log, ret. simpl. rewrite H. reflexivity.
Qed.

Lemma try_analyze_unparsed (u : string) (s : State) (r : Response) (t : thrown) :
  network p (trace s) (A u) = Normal r ->
  resp_json r = Throws t ->
  MeetingService.try_analyze p d u s =
  (Normal Continue,
   mkState (trace s ++ [A u]) (Some r) (var_analyzeData s)
           (Some (error_or_new t "Unknown error"))).
Proof.
  intros H J. unfold MeetingService.try_analyze, try_catch, bind, MeetingService.fetch,
    MeetingService.json, lift, set_analyzeResponse, console_log, ret.
  simpl. rewrite H. simpl. rewrite J. reflexivity.
Qed.

Lemma try_analyze_completed (u : string) (s : State) (r : Response) (body : jsval) :
  network p (trace s) (A u) = Normal r ->
  resp_json r = Normal body ->
  MeetingService.try_analyze p d u s =
  (Normal Break, mkState (trace s ++ [A u]) (Some r) body (var_lastError s)).
Proof.
  intros H J. unfold MeetingService.try_analyze, try_catch, bind, MeetingService.fetch,
    MeetingService.json, lift, set_analyzeResponse, set_analyzeData, console_log, ret.
  simpl. rewrite H. simpl. rewrite J. reflexivity.
Qed.

(** An attempt that does not complete moves on to the next URL and logs
    exactly its own request. *)
Lemma try_analyze_advances (u : string) (s : State) :
  completes (network p (trace s) (A u)) = false ->
  exists s', MeetingService.try_analyze p d u s = (Normal Continue, s')
             /\ trace s' = trace s ++ [A u].
Proof.
  unfold completes. intros H.
  destruct (network p (trace s) (A u)) as [r|t] eqn:N.
  - destruct (resp_json r) as [b|t] eqn:J; [discriminate|].
    eexists. split; [apply (try_analyze_unparsed _ _ _ _ N J)|reflexivity].
  - eexists. split; [apply (try_analyze_rejected _ _ _ N)|reflexivity].
Qed.

(** The loop stops at the first attempt that completes: the attempts
    before it are logged in order, none after it is made, and the locals
    hold that attempt's response and parsed body. *)
Lemma for_of_stops_at_first_completed (urls : list string) :
  forall (s : State) (k : nat) (r : Response) (body : jsval),
    k < List.length urls ->
    (forall j, j < k ->
       completes (network p (trace s ++ map A (firstn j urls)) (A (nth j urls ""))) = false) ->
    network p (trace s ++ map A (firstn k urls)) (A (nth k urls "")) = Normal r ->
    resp_json r = Normal body ->
    exists e,
      for_of urls (MeetingService.try_analyze p d) s =
      (Normal tt, mkState (trace s ++ map A (firstn (S k) urls)) (Some r) body e).
Proof.
  induction urls as [|u rest IH]; intros s k r body Hk Hbefore Hnet Hjson.
  - simpl in Hk. lia.
  - destruct k as [|k].
    + simpl in Hnet. rewrite app_nil_r in Hnet.
      exists (var_lastError s). simpl. unfold bind.
      rewrite (try_analyze_completed u s r body Hnet Hjson). reflexivity.
    + assert (H0 : completes (network p (trace s) (A u)) = false).
      { specialize (Hbefore 0 ltac:(lia)). simpl in Hbefore.
        now rewrite app_nil_r in Hbefore. }
      destruct (try_analyze_advances u s H0) as (s' & Hstep & Htrace).
      destruct (IH s' k r body) as (e & Hloop).
      * simpl in Hk. lia.
      * intros j Hj. specialize (Hbefore (S j) ltac:(lia)). simpl in Hbefore.
        rewrite Htrace, <- app_assoc. exact Hbefore.
      * rewrite Htrace, <- app_assoc. exact Hnet.
      * exact Hjson.
      * exists e. cbn [for_of]. unfold bind. rewrite Hstep, Hloop.
        rewrite Htrace, <- app_assoc. reflexivity.
Qed.

(** The loop always runs to its end without throwing. *)
Lemma for_of_try_analyze_total (urls : list string) :
  forall s, exists s', for_of urls (MeetingService.try_analyze p d) s = (Normal tt, s').
Proof.
  induction urls as [|u rest IH]; intros s; simpl.
  - eexists. reflexivity.
  - unfold bind.
    destruct (network p (trace s) (A u)) as [r|t] eqn:N.
    + destruct (resp_json r) as [b|t] eqn:J.
      * rewrite (try_analyze_completed u s r b N J). eexists. reflexivity.
      * rewrite (try_analyze_unparsed u s r t N J). apply IH.
    + rewrite (try_analyze_rejected u s t N). apply IH.
Qed.

(** When every attempt is rejected by the network, all of them are made,
    the response and data locals are left alone, and [lastError] is the
    error of the last attempt. *)
Lemma for_of_all_rejected (urls : list string) :
  forall (s : State),
    (forall j, j < List.length urls ->
       transport_failure
         (network p (trace s ++ map A (firstn j urls)) (A (nth j urls ""))) = true) ->
    exists e,
      for_of urls (MeetingService.try_analyze p d) s =
      (Normal tt, mkState (trace s ++ map A urls) (var_analyzeResponse s)
                          (var_analyzeData s) e)
      /\ (forall k t, S k = List.length urls ->
            network p (trace s ++ map A (firstn k urls)) (A (nth k urls "")) = Throws t ->
            e = Some (error_or_new t "Unknown error")).
Proof.
  induction urls as [|u rest IH]; intros s Hall.
  - exists (var_lastError s). split.
    + simpl. rewrite app_nil_r. destruct s; reflexivity.
    + intros k t Hk. discriminate.
  - pose proof (Hall 0 ltac:(simpl; lia)) as H0. simpl in H0.
    rewrite app_nil_r in H0.
    destruct (network p (trace s) (A u)) as [r|t0] eqn:N; [discriminate|].
    pose proof (try_analyze_rejected u s t0 N) as Hstep.
    set (s' := mkState (trace s ++ [A u]) (var_analyzeResponse s) (var_analyzeData s)
                       (Some (error_or_new t0 "Unknown error"))) in *.
    destruct (IH s') as (e & Hloop & Hlast).
    { intros j Hj. specialize (Hall (S j) ltac:(simpl; lia)). simpl in Hall.
      subst s'. cbn [trace]. rewrite <- app_assoc. exact Hall. }
    exists e. split.
    + cbn [for_of]. unfold bind. rewrite Hstep, Hloop. subst s'. cbn.
      rewrite <- app_assoc. reflexivity.
    + intros k t Hk Hnet. destruct rest as [|u' rest'].
      * simpl in Hk. injection Hk as ->. simpl in Hnet. rewrite app_nil_r in Hnet.
        rewrite N in Hnet. injection Hnet as <-.
        subst s'. simpl in Hloop. unfold ret in Hloop. congruence.
      * destruct k as [|k]; [simpl in Hk; discriminate|].
        apply (Hlast k t).
        -- simpl in Hk. simpl. lia.
        -- subst s'. cbn [trace]. rewrite <- app_assoc. exact Hnet.
Qed.
End LoopProperties.

Section Orchestration.
Variable p : Platform.

Local Abbreviation fetch_request := MeetingService.transcript_fetch_request.
Local Abbreviation failure msg := (mkResult false None None (Some (JStr msg))).
Local Abbreviation catch_all t := (thrown_message t "An error occurred during the process").

Lemma try_catch_total {A} (body : Async A) (handler : thrown -> Async A) :
  (forall t s, exists a s', handler t s = (Normal a, s')) ->
  forall s, exists a s', try_catch body handler s = (Normal a, s').
Proof.
  intros H s. unfold try_catch.
  destruct (body s) as [[a|t] s']; [eauto|apply H].
Qed.

Ltac run :=
  cbn -[for_of getAnalyzeApiUrls MeetingService.log_original_transcript
        MeetingService.analysis_failed_message MeetingService.network_failure_message].

Ltac enter_step1 :=
  unfold MeetingService.fetchAndAnalyzeMeeting, try_catch, bind, MeetingService.fetch,
    MeetingService.json, lift, console_log, declare_locals, read, ret; run.

Ltac enter_step2 Hf :=
  let resp := fresh "resp" in
  let body := fresh "body" in
  let ok := fresh "ok" in
  let Hnet := fresh "Hnet" in
  let Hjson := fresh "Hjson" in
  let Hok := fresh "Hok" in
  let Htruthy := fresh "Htruthy" in
  let Hd := fresh "Hd" in
  destruct Hf as (resp & body & ok & Hnet & Hjson & Hok & Htruthy & Hd);
  enter_step1;
  rewrite Hnet; run; rewrite Hjson; run; rewrite Hok; run;
  rewrite Htruthy; run; rewrite Hd; run.

Lemma opt_get_meetingInfo_normal (b : jsval) :
  exists v, opt_get p b "meetingInfo" = Normal v.
Proof. destruct b; cbn; eauto. Qed.

(** Step 1 throws: the outer [catch] reports the failure. *)
Lemma step1_throws (s : State) (meetingUrl meetingTitle : string) (t : thrown) :
  phase1 p s meetingUrl = Throws t ->
  MeetingService.fetchAndAnalyzeMeeting p meetingUrl meetingTitle s =
  (Normal (failure (catch_all t)),
   mkState (trace s ++ [fetch_request meetingUrl]) (var_analyzeResponse s)
           (var_analyzeData s) (var_lastError s)).
Proof.
  unfold phase1, cbind. enter_step1.
  destruct (network p (trace s) (fetch_request meetingUrl)) as [resp|t'].
  - destruct (resp_json resp) as [body|t'']; run.
    + intros ->. destruct t; reflexivity.
    + intros [= ->]. destruct t; reflexivity.
  - intros [= ->]. destruct t; reflexivity.
Qed.

(** Step 1 answers, but [data.success] is falsy. *)
Lemma step1_not_success (s : State) (meetingUrl meetingTitle : string)
      (resp : Response) (body ok : jsval) :
  network p (trace s) (fetch_request meetingUrl) = Normal resp ->
  resp_json resp = Normal body ->
  get p body "success" = Normal ok ->
  truthy ok = false ->
  exists message,
    get p body "message" = Normal message
    /\ MeetingService.fetchAndAnalyzeMeeting p meetingUrl meetingTitle s =
       (Normal (mkResult false None None
                  (Some (js_or message (JStr "Failed to fetch transcript")))),
        mkState (trace s ++ [fetch_request meetingUrl]) (var_analyzeResponse s)
                (var_analyzeData s) (var_lastError s)).
Proof.
  intros Hnet Hjson Hok Hfalsy.
  assert (exists message, get p body "message" = Normal message) as (message & Hm).
  { destruct body; try (eexists; reflexivity); discriminate. }
  exists message. split; [exact Hm|].
  enter_step1. rewrite Hnet; run. rewrite Hjson; run. rewrite Hok; run.
  rewrite Hfalsy; run. rewrite Hm. reflexivity.
Qed.

(** The state in which the loop over the analyze URLs starts. *)
Local Abbreviation loop_start s meetingUrl :=
  (mkState (trace s ++ [fetch_request meetingUrl]) None JUndefined None).

Lemma step2_no_response (s s2 : State) (meetingUrl meetingTitle : string) (d : jsval) :
  fetched p s meetingUrl d ->
  for_of (getAnalyzeApiUrls p) (MeetingService.try_analyze p d) (loop_start s meetingUrl)
    = (Normal tt, s2) ->
  var_analyzeResponse s2 = None ->
  MeetingService.fetchAndAnalyzeMeeting p meetingUrl meetingTitle s =
  (Normal (match MeetingService.network_failure_message p (var_lastError s2) with
           | Normal summary => mkResult true (Some d) None (Some (JStr summary))
           | Throws t => failure (catch_all t)
           end), s2).
Proof.
  intros Hf Hloop Hnone. enter_step2 Hf.
  destruct (opt_get_meetingInfo_normal d) as (mi & ->). run.
  rewrite Hloop. run. rewrite Hnone.
  destruct (MeetingService.network_failure_message p (var_lastError s2)) as [m|[e|]];
    reflexivity.
Qed.

Lemma step2_response (s s2 : State) (meetingUrl meetingTitle : string) (d : jsval)
      (r : Response) :
  fetched p s meetingUrl d ->
  for_of (getAnalyzeApiUrls p) (MeetingService.try_analyze p d) (loop_start s meetingUrl)
    = (Normal tt, s2) ->
  var_analyzeResponse s2 = Some r ->
  MeetingService.fetchAndAnalyzeMeeting p meetingUrl meetingTitle s =
  (Normal (if resp_ok r then
             match MeetingService.log_original_transcript p meetingTitle d with
             | Normal _ => mkResult true (Some d) (Some (var_analyzeData s2)) None
             | Throws t => failure (catch_all t)
             end
           else
             match MeetingService.analysis_failed_message p (var_analyzeData s2) with
             | Normal summary =>
                 mkResult true (Some d) (Some (var_analyzeData s2)) (Some (JStr summary))
             | Throws t => failure (catch_all t)
             end), s2).
Proof.
  intros Hf Hloop Hsome. enter_step2 Hf.
  destruct (opt_get_meetingInfo_normal d) as (mi & ->). run.
  rewrite Hloop. run. rewrite Hsome.
  destruct (resp_ok r).
  - destruct (MeetingService.log_original_transcript p meetingTitle d) as [u|[e|]];
      reflexivity.
  - destruct (MeetingService.analysis_failed_message p (var_analyzeData s2)) as [m|[e|]];
      reflexivity.
Qed.

(** The loop as [fetchAndAnalyzeMeeting] runs it, in the vocabulary of
    the statements. *)
Lemma loop_stops_at (s : State) (meetingUrl : string) (d : jsval)
      (k : nat) (r : Response) (body : jsval) :
  k < 3 ->
  (forall j, j < k -> completes (candidate p s meetingUrl d j) = false) ->
  candidate p s meetingUrl d k = Normal r ->
  resp_json r = Normal body ->
  exists e,
    for_of (getAnalyzeApiUrls p) (MeetingService.try_analyze p d) (loop_start s meetingUrl)
    = (Normal tt, mkState (requests_before p s meetingUrl d (S k)) (Some r) body e).
Proof.
  intros Hk Hbefore Hnet Hjson.
  destruct (for_of_stops_at_first_completed p d (getAnalyzeApiUrls p)
              (loop_start s meetingUrl) k r body) as (e & He).
  - exact Hk.
  - intros j Hj. specialize (Hbefore j Hj).
    unfold candidate, requests_before in Hbefore.
    cbn [trace]. rewrite <- app_assoc. exact Hbefore.
  - unfold candidate, requests_before in Hnet.
    cbn [trace]. rewrite <- app_assoc. exact Hnet.
  - exact Hjson.
  - exists e. rewrite He. cbn [trace]. unfold requests_before.
    rewrite <- app_assoc. reflexivity.
Qed.

Lemma network_failure_message_normal (e : ErrorObj) :
  exists summary,
    MeetingService.network_failure_message p (Some e) = Normal summary
    /\ summary <> "".
Proof.
  unfold MeetingService.network_failure_message, js_or. cbn.
  destruct (String.eqb (err_message e) ""); cbn; eexists; (split; [reflexivity|discriminate]).
Qed.

(** C2. When the body of the transcript-fetch response has
    [success: false], the call returns [{success: false, error}] where
    [error] is the body's [message] if that is truthy and
    ['Failed to fetch transcript'] otherwise, and the transcript fetch is
    the only request made: no analyze call is issued. *)
Theorem failed_fetch_is_terminal (s : State) (meetingUrl meetingTitle : string)
        (resp : Response) (fields : list (string * jsval)) :
  network p (trace s) (fetch_request meetingUrl) = Normal resp ->
  resp_json resp = Normal (JObj fields) ->
  assoc "success" fields = Some (JBool false) ->
  let message := match assoc "message" fields with Some m => m | None => JUndefined end in
  fst (MeetingService.fetchAndAnalyzeMeeting p meetingUrl meetingTitle s)
  = Normal (mkResult false None None
              (Some (if truthy message then message
                     else JStr "Failed to fetch transcript")))
  /\ trace (snd (MeetingService.fetchAndAnalyzeMeeting p meetingUrl meetingTitle s))
     = trace s ++ [fetch_request meetingUrl].
Proof.
  intros Hnet Hjson Hsuccess message.
  destruct (step1_not_success s meetingUrl meetingTitle resp (JObj fields) (JBool false)
              Hnet Hjson) as (m & Hm & Hrun).
  - cbn. now rewrite Hsuccess.
  - reflexivity.
  - cbn in Hm. injection Hm as <-. rewrite Hrun. split; reflexivity.
Qed.


(** C1 (amended). The candidates are tried in their fixed order and the
    loop stops at the first one whose request resolves and whose body
    parses as JSON, whatever its HTTP status; an attempt that is rejected
    by the network or whose body does not parse moves on to the next
    candidate. So when the [k]-th candidate is the first to complete, the
    requests made are the transcript fetch and the candidates up to [k],
    in order, and no later one. If that candidate's status is not 2xx
    (HTTP 500 from the first candidate, say) and the error summary can be
    built from its body, the result carries the body as [analyzeResponse]
    together with that summary as [error]. *)
Theorem analysis_stops_at_first_parsed_response
        (s : State) (meetingUrl meetingTitle : string) (d : jsval)
        (k : nat) (r : Response) (body : jsval) :
  fetched p s meetingUrl d ->
  k < 3 ->
  (forall j, j < k -> completes (candidate p s meetingUrl d j) = false) ->
  candidate p s meetingUrl d k = Normal r ->
  resp_json r = Normal body ->
  trace (snd (MeetingService.fetchAndAnalyzeMeeting p meetingUrl meetingTitle s))
  = requests_before p s meetingUrl d (S k)
  /\ (resp_ok r = false ->
      forall summary,
        MeetingService.analysis_failed_message p body = Normal summary ->
        fst (MeetingService.fetchAndAnalyzeMeeting p meetingUrl meetingTitle s)
        = Normal (mkResult true (Some d) (Some body) (Some (JStr summary)))).
Proof.
  intros Hf Hk Hbefore Hnet Hjson.
  destruct (loop_stops_at s meetingUrl d k r body Hk Hbefore Hnet Hjson) as (e & Hloop).
  rewrite (step2_response s _ meetingUrl meetingTitle d r Hf Hloop eq_refl).
  split; [reflexivity|].
  intros Hstatus summary Hsummary. cbn [fst var_analyzeData].
  rewrite Hstatus, Hsummary. reflexivity.
Qed.

(** C4 (amended). When the transcript fetch succeeds and the candidate
    at which the loop stops answers with a status that is not 2xx, the
    outcome is decided by the summary
    [`Analysis failed: ${analyzeData?.message || 'Unknown error'}, but transcript was fetched successfully`].
    If the body's [message], when truthy, converts to a string (every
    primitive does), the call returns
    [{success: true, data, analyzeResponse, error}] with the parsed body as
    [analyzeResponse] and that summary as [error]. If the conversion
    throws (a [message] that is an object with an own [toString]
    property), the outer [catch] returns [{success: false, error}] with
    the thrown message instead, without [data] or [analyzeResponse]. *)
Theorem failed_analysis_is_partial_success
        (s : State) (meetingUrl meetingTitle : string) (d : jsval)
        (k : nat) (r : Response) (body : jsval) :
  fetched p s meetingUrl d ->
  k < 3 ->
  (forall j, j < k -> completes (candidate p s meetingUrl d j) = false) ->
  candidate p s meetingUrl d k = Normal r ->
  resp_json r = Normal body ->
  resp_ok r = false ->
  exists message,
    opt_get p body "message" = Normal message
    /\ fst (MeetingService.fetchAndAnalyzeMeeting p meetingUrl meetingTitle s)
       = Normal (match to_string p (js_or message (JStr "Unknown error")) with
                 | Normal text =>
                     mkResult true (Some d) (Some body)
                       (Some (JStr ("Analysis failed: " ++ text
                                      ++ ", but transcript was fetched successfully")))
                 | Throws t =>
                     mkResult false None None
                       (Some (JStr (thrown_message t "An error occurred during the process")))
                 end)
    /\ (is_primitive message = true ->
        exists text,
          fst (MeetingService.fetchAndAnalyzeMeeting p meetingUrl meetingTitle s)
          = Normal (mkResult true (Some d) (Some body)
                      (Some (JStr ("Analysis failed: " ++ text
                                     ++ ", but transcript was fetched successfully")))))
    /\ (forall fields,
          message = JObj fields ->
          has_own "toString" fields = true ->
          fst (MeetingService.fetchAndAnalyzeMeeting p meetingUrl meetingTitle s)
          = Normal (mkResult false None None
                      (Some (JStr (fault_message p NotPrimitive))))).
Proof.
  intros Hf Hk Hbefore Hnet Hjson Hstatus.
  destruct (loop_stops_at s meetingUrl d k r body Hk Hbefore Hnet Hjson) as (e & Hloop).
  rewrite (step2_response s _ meetingUrl meetingTitle d r Hf Hloop eq_refl).
  cbn [fst var_analyzeData]. rewrite Hstatus.
  unfold MeetingService.analysis_failed_message.
  assert (exists message, opt_get p body "message" = Normal message) as (message & Hm)
      by (destruct body; cbn; eauto).
  exists message. rewrite Hm. cbn [cbind].
  split; [reflexivity|]. split; [|split].
  - destruct (to_string p (js_or message (JStr "Unknown error"))) as [text|[err|]];
      reflexivity.
  - intros Hprim.
    assert (exists text, to_string p (js_or message (JStr "Unknown error")) = Normal text)
      as (text & ->).
    { unfold js_or. destruct (truthy message); [|cbn; eauto].
      destruct message; try discriminate; cbn; eauto. }
    exists text. reflexivity.
  - intros fields -> Hown. cbn. rewrite Hown. reflexivity.
Qed.

(** C5 (amended). When the transcript fetch succeeds, the candidate at
    which the loop stops (the first whose request resolves and whose body
    parses as JSON) answers 2xx, and the console dump of the transcript
    on the success path does not throw, the call returns
    [{success: true, data, analyzeResponse}] with that candidate's body and
    no [error] key. With [k = 1] this is the case of a first candidate
    that fails and a second one that answers 200. *)
Theorem successful_analysis_has_no_error
        (s : State) (meetingUrl meetingTitle : string) (d : jsval)
        (k : nat) (r : Response) (body : jsval) :
  fetched p s meetingUrl d ->
  k < 3 ->
  (forall j, j < k -> completes (candidate p s meetingUrl d j) = false) ->
  candidate p s meetingUrl d k = Normal r ->
  resp_json r = Normal body ->
  resp_ok r = true ->
  MeetingService.log_original_transcript p meetingTitle d = Normal tt ->
  fst (MeetingService.fetchAndAnalyzeMeeting p meetingUrl meetingTitle s)
  = Normal (mkResult true (Some d) (Some body) None).
Proof.
  intros Hf Hk Hbefore Hnet Hjson Hstatus Hlog.
  destruct (loop_stops_at s meetingUrl d k r body Hk Hbefore Hnet Hjson) as (e & Hloop).
  rewrite (step2_response s _ meetingUrl meetingTitle d r Hf Hloop eq_refl).
  cbn [fst var_analyzeData]. rewrite Hstatus, Hlog. reflexivity.
Qed.

(** C6. [fetchAndAnalyzeMeeting] never rejects: every run resolves to a
    [MeetingProcessResult]. In particular, when step 1 throws (the request
    is rejected, the body does not parse, or the body is [null] so that
    reading [data.success] throws), the result is
    [{success: false, error}] with the message of the thrown error. *)
Theorem fetchAndAnalyzeMeeting_never_rejects
        (s : State) (meetingUrl meetingTitle : string) :
  (exists result s',
      MeetingService.fetchAndAnalyzeMeeting p meetingUrl meetingTitle s
      = (Normal result, s'))
  /\ (forall t,
        phase1 p s meetingUrl = Throws t ->
        fst (MeetingService.fetchAndAnalyzeMeeting p meetingUrl meetingTitle s)
        = Normal (mkResult false None None
                    (Some (JStr (thrown_message t "An error occurred during the process"))))).
Proof.
  split.
  - unfold MeetingService.fetchAndAnalyzeMeeting. apply try_catch_total.
    intros t s0. unfold bind, console_log, ret. eauto.
  - intros t H. rewrite (step1_throws s meetingUrl meetingTitle t H). reflexivity.
Qed.
End Orchestration.

(* ------------------------------------------------------------------ *)
(** ** When the summary and the console dump cannot throw *)
(* ------------------------------------------------------------------ *)

Section WellShaped.
Variable p : Platform.

Lemma to_string_primitive (v : jsval) :
  is_primitive v = true -> exists s, to_string p v = Normal s.
Proof. destruct v; intros H; try discriminate; cbn; eauto. Qed.

(** The analysis-failed summary exists whenever the body's [message] is
    missing or a primitive value. *)
Lemma analysis_failed_message_primitive (body message : jsval) :
  opt_get p body "message" = Normal message ->
  is_primitive message = true ->
  exists summary, MeetingService.analysis_failed_message p body = Normal summary.
Proof.
  intros Hm Hprim. unfold MeetingService.analysis_failed_message. rewrite Hm. cbn [cbind].
  destruct (to_string_primitive (js_or message (JStr "Unknown error"))) as (s & ->).
  - unfold js_or. destruct (truthy message); [exact Hprim|reflexivity].
  - cbn. eauto.
Qed.

(** On an entry of the declared shape the logged line is the index
    followed by the very line the export writes for that entry. *)
Lemma entry_line_encoded (entry : option App.TranscriptEntry) (i : nat) :
  MeetingService.entry_line p (encode_entry entry) i
  = Normal (string_of_nat (i + 1) ++ ". " ++ App.format_entry entry)%string.
Proof.
  destruct entry as [[st en tx sp]|]; [|reflexivity].
  unfold MeetingService.entry_line, encode_entry, App.format_entry.
  destruct st as [st|], en as [en|], tx as [tx|], sp as [sp|]; cbn;
    unfold js_or; cbn;
    repeat match goal with
           | |- context [String.eqb ?s ""] => destruct (String.eqb s ""); cbn
           end;
    reflexivity.
Qed.

Lemma forEach_entries_encoded (es : list (option App.TranscriptEntry)) :
  forall i,
    MeetingService.forEach_from (map encode_entry es) i
      (fun entry entryIndex =>
         (_ <~ MeetingService.entry_line p entry entryIndex ;; Normal tt)%completion)
    = Normal tt.
Proof.
  induction es as [|e es IH]; intros i; [reflexivity|].
  cbn [map MeetingService.forEach_from].
  rewrite entry_line_encoded. cbn [cbind]. apply IH.
Qed.

Lemma section_logged (t : option App.TranscriptSection) :
  (created <~ opt_get p (encode_section t) "createdDateTime" ;;
   _ <~ to_string p (js_or created (JStr "Unknown")) ;;
   entries <~ opt_get p (encode_section t) "entries" ;;
   if is_nullish entries then Normal tt
   else MeetingService.forEach p "transcript?.entries?.forEach" entries
          (fun entry entryIndex =>
             _ <~ MeetingService.entry_line p entry entryIndex ;; Normal tt))%completion
  = Normal tt.
Proof.
  destruct t as [[sid created es]|]; [|reflexivity].
  unfold encode_section.
  destruct sid as [sid|], created as [created|], es as [es|]; cbn;
    unfold js_or; cbn;
    repeat match goal with
           | |- context [String.eqb ?s ""] => destruct (String.eqb s ""); cbn
           end;
    try reflexivity; apply forEach_entries_encoded.
Qed.

Lemma forEach_sections_encoded (ts : list (option App.TranscriptSection)) :
  forall i,
    MeetingService.forEach_from (map encode_section ts) i
      (fun transcript index =>
         (created <~ opt_get p transcript "createdDateTime" ;;
          _ <~ to_string p (js_or created (JStr "Unknown")) ;;
          entries <~ opt_get p transcript "entries" ;;
          if is_nullish entries then Normal tt
          else MeetingService.forEach p "transcript?.entries?.forEach" entries
                 (fun entry entryIndex =>
                    _ <~ MeetingService.entry_line p entry entryIndex ;; Normal tt))%completion)
    = Normal tt.
Proof.
  induction ts as [|t ts IH]; intros i; [reflexivity|].
  cbn [map MeetingService.forEach_from].
  rewrite section_logged. cbn [cbind]. apply IH.
Qed.

(** The console dump of the success path does not throw on a payload of
    the declared [TranscriptData] shape. *)
Lemma log_original_transcript_encoded (meetingTitle : string) (td : App.TranscriptData) :
  MeetingService.log_original_transcript p meetingTitle (encode_transcript td) = Normal tt.
Proof.
  unfold MeetingService.log_original_transcript, encode_transcript.
  destruct (App.meetingInfo td) as [m|], (App.transcripts td) as [ts|];
    try reflexivity;
    cbn -[MeetingService.forEach_from];
    (destruct ts as [|t ts]; [reflexivity|]);
    cbn -[MeetingService.forEach_from];
    apply (forEach_sections_encoded (t :: ts)).
Qed.

(** On a payload of the declared shape, then, a 2xx answer of the stopping
    candidate always ends in the result without [error]. *)
Lemma declared_shape_analysis_succeeds
      (s : State) (meetingUrl meetingTitle : string) (td : App.TranscriptData)
      (k : nat) (r : Response) (body : jsval) :
  fetched p s meetingUrl (encode_transcript td) ->
  k < 3 ->
  (forall j, j < k -> completes (candidate p s meetingUrl (encode_transcript td) j) = false) ->
  candidate p s meetingUrl (encode_transcript td) k = Normal r ->
  resp_json r = Normal body ->
  resp_ok r = true ->
  fst (MeetingService.fetchAndAnalyzeMeeting p meetingUrl meetingTitle s)
  = Normal (mkResult true (Some (encode_transcript td)) (Some body) None).
Proof.
  intros Hf Hk Hbefore Hnet Hjson Hstatus.
  destruct (loop_stops_at p s meetingUrl _ k r body Hk Hbefore Hnet Hjson) as (e & Hloop).
  rewrite (step2_response p s _ meetingUrl meetingTitle _ r Hf Hloop eq_refl).
  cbn [fst var_analyzeData]. rewrite Hstatus, log_original_transcript_encoded. reflexivity.
Qed.
End WellShaped.

(* ------------------------------------------------------------------ *)
(** ** The statements at work on the sample platforms *)
(* ------------------------------------------------------------------ *)

Lemma analyze_urls_follow_query_string_witness :
  let p := sample_platform [("auth", "success"); ("test_mode", "false")]
             connection_refused connection_refused
             connection_refused connection_refused connection_refused in
  getTestModeFromUrl p = false
  /\ exists base,
       nth_error baseUrls 1 = Some base
       /\ "http://127.0.0.1:8000/api/v1/analyze?test_mode=false&llm_timeout=60&user_lookup_timeout=30"
          = (base ++ "?test_mode=" ++ string_of_bool (getTestModeFromUrl p)
                  ++ "&llm_timeout=60&user_lookup_timeout=30")%string.
Proof.
  intros p. split; [reflexivity|].
  destruct (analyze_urls_follow_query_string p) as (_ & _ & _ & H).
  apply (H 1). reflexivity.
Defined.

Lemma checkAuthStatus_never_rejects_witness :
  let p := sample_platform [] connection_refused connection_refused
             connection_refused connection_refused connection_refused in
  fst (MeetingService.checkAuthStatus p initial_state) = Normal unauthenticated.
Proof.
  intros p.
  destruct (checkAuthStatus_never_rejects p initial_state) as (_ & H & _).
  apply (H (ThrowError (mkError "Failed to fetch"))). reflexivity.
Defined.

Lemma checkAuthStatus_returns_body_witness :
  let body := JObj [("error", JStr "session expired")] in
  let p := sample_platform [] (json_response 401 body) connection_refused
             connection_refused connection_refused connection_refused in
  fst (MeetingService.checkAuthStatus p initial_state) = Normal body.
Proof.
  intros body p.
  destruct (checkAuthStatus_returns_body p initial_state) as (H & _).
  apply (H (mkResponse 401 "" (Normal body)) body); reflexivity.
Defined.

(** C10, as stated, fails for the body [null]: it parses, but the result
    is the fallback and not the parsed body. *)
Lemma checkAuthStatus_null_body_counterexample :
  let p := sample_platform [] (json_response 200 JNull) connection_refused
             connection_refused connection_refused connection_refused in
  network p [] (MeetingService.auth_status_request p)
  = Normal (mkResponse 200 "" (Normal JNull))
  /\ fst (MeetingService.checkAuthStatus p initial_state)
     = Normal (JObj [("authenticated", JBool false)])
  /\ fst (MeetingService.checkAuthStatus p initial_state) <> Normal JNull.
Proof.
  intros p. split; [reflexivity|]. split; [reflexivity|]. discriminate.
Qed.

Lemma failed_fetch_is_terminal_witness :
  let fields := [("success", JBool false); ("message", JStr "Meeting not found")] in
  let p := sample_platform [] connection_refused (json_response 200 (JObj fields))
             (json_response 200 (JObj [])) connection_refused connection_refused in
  fst (MeetingService.fetchAndAnalyzeMeeting p "https://teams.example/meet/1" "Standup"
         initial_state)
  = Normal (mkResult false None None (Some (JStr "Meeting not found")))
  /\ trace (snd (MeetingService.fetchAndAnalyzeMeeting p "https://teams.example/meet/1"
                   "Standup" initial_state))
     = [MeetingService.transcript_fetch_request "https://teams.example/meet/1"].
Proof.
  intros fields p.
  apply (failed_fetch_is_terminal p initial_state "https://teams.example/meet/1" "Standup"
           (mkResponse 200 "" (Normal (JObj fields))) fields); reflexivity.
Defined.

(** [fetched] on a sample platform, by evaluation. *)
Ltac fetched_by_evaluation :=
  unfold fetched; do 3 eexists; repeat split; reflexivity.


Lemma analysis_stops_at_first_parsed_response_witness :
  let body := JObj [("message", JStr "LLM unavailable")] in
  let p := sample_platform [] connection_refused (fetched_ok sample_transcript)
             (json_response 500 body) (json_response 200 (JObj [])) connection_refused in
  trace (snd (MeetingService.fetchAndAnalyzeMeeting p "https://teams.example/meet/1"
                "Standup" initial_state))
  = [MeetingService.transcript_fetch_request "https://teams.example/meet/1";
     MeetingService.analyze_request
       "http://localhost:8000/api/v1/analyze?test_mode=true&llm_timeout=60&user_lookup_timeout=30"
       sample_transcript]
  /\ fst (MeetingService.fetchAndAnalyzeMeeting p "https://teams.example/meet/1" "Standup"
            initial_state)
     = Normal (mkResult true (Some sample_transcript) (Some body)
                 (Some (JStr "Analysis failed: LLM unavailable, but transcript was fetched successfully"))).
Proof.
  intros body p.
  destruct (analysis_stops_at_first_parsed_response p initial_state
              "https://teams.example/meet/1" "Standup" sample_transcript 0
              (mkResponse 500 "" (Normal body)) body) as (Htrace & Hresult).
  - fetched_by_evaluation.
  - lia.
  - intros j Hj. lia.
  - reflexivity.
  - reflexivity.
  - split; [exact Htrace|]. apply Hresult; reflexivity.
Defined.

(** C1, as stated, fails in two ways. First: the first candidate answers
    HTTP 500 with a body that is not JSON; [response.json()] throws inside
    the [try], the loop moves on, the second candidate is attempted, and
    its answer is what the result carries, without an [error]. Second: the
    first candidate answers HTTP 500 with a JSON body whose [message] is an
    object with an own [toString] property; no second candidate is tried,
    but building the error summary throws and the result is a plain
    failure without [analyzeResponse]. *)
Lemma first_candidate_500_counterexample :
  (let p := sample_platform [] connection_refused (fetched_ok sample_transcript)
              (unparsed_response 500) (json_response 200 (JObj [])) connection_refused in
   let run := MeetingService.fetchAndAnalyzeMeeting p "https://teams.example/meet/1"
                "Standup" initial_state in
   (exists r, candidate p initial_state "https://teams.example/meet/1" sample_transcript 0
              = Normal r /\ resp_status r = 500%Z)
   /\ map req_url (trace (snd run))
      = ["https://mom-bot-transcript-service.onrender.com/transcript/fetch";
         "http://localhost:8000/api/v1/analyze?test_mode=true&llm_timeout=60&user_lookup_timeout=30";
         "http://127.0.0.1:8000/api/v1/analyze?test_mode=true&llm_timeout=60&user_lookup_timeout=30"]
   /\ fst run = Normal (mkResult true (Some sample_transcript) (Some (JObj [])) None))
  /\
  (let body := JObj [("message", JObj [("toString", JNull)])] in
   let p := sample_platform [] connection_refused (fetched_ok sample_transcript)
              (json_response 500 body) (json_response 200 (JObj [])) connection_refused in
   let run := MeetingService.fetchAndAnalyzeMeeting p "https://teams.example/meet/1"
                "Standup" initial_state in
   candidate p initial_state "https://teams.example/meet/1" sample_transcript 0
   = json_response 500 body
   /\ List.length (trace (snd run)) = 2
   /\ fst run = Normal (mkResult false None None
                          (Some (JStr "Cannot convert object to primitive value")))).
Proof.
  split.
  - cbv zeta. split; [eexists; split; reflexivity|]. split; reflexivity.
  - cbv zeta. split; [reflexivity|]. split; reflexivity.
Qed.

Lemma failed_analysis_is_partial_success_witness :
  let body := JObj [("detail", JStr "Not Found")] in
  let p := sample_platform [] connection_refused (fetched_ok sample_transcript)
             connection_refused (json_response 404 body) connection_refused in
  fst (MeetingService.fetchAndAnalyzeMeeting p "https://teams.example/meet/1" "Standup"
         initial_state)
  = Normal (mkResult true (Some sample_transcript) (Some body)
              (Some (JStr "Analysis failed: Unknown error, but transcript was fetched successfully"))).
Proof.
  intros body p.
  destruct (failed_analysis_is_partial_success p initial_state "https://teams.example/meet/1"
              "Standup" sample_transcript 1 (mkResponse 404 "" (Normal body)) body)
    as (message & Hm & Hrun & _).
  - fetched_by_evaluation.
  - lia.
  - intros j Hj. destruct j as [|j]; [reflexivity|lia].
  - reflexivity.
  - reflexivity.
  - reflexivity.
  - rewrite Hrun. injection Hm as <-. reflexivity.
Defined.

(** C4, as stated, fails in two ways. First: the first two candidates are
    refused and the third answers HTTP 500 with a body that is not JSON;
    the loop ends with that response in hand but without parsed data, and
    the result carries [analyzeResponse: undefined] rather than a parsed
    error body. Second: the first candidate answers HTTP 500 with a JSON
    body whose [message] is an object with an own [toString] property
    (never callable after [JSON.parse]); the template literal that builds
    the summary throws, and the outer [catch] returns
    [{success: false, error}] without [data] or [analyzeResponse]. *)
Lemma failed_analysis_counterexample :
  (let p := sample_platform [] connection_refused (fetched_ok sample_transcript)
              connection_refused connection_refused (unparsed_response 500) in
   fetched p initial_state "https://teams.example/meet/1" sample_transcript
   /\ (exists r, candidate p initial_state "https://teams.example/meet/1" sample_transcript 2
                 = Normal r /\ resp_status r = 500%Z /\ resp_ok r = false)
   /\ fst (MeetingService.fetchAndAnalyzeMeeting p "https://teams.example/meet/1" "Standup"
             initial_state)
      = Normal (mkResult true (Some sample_transcript) (Some JUndefined)
                  (Some (JStr "Analysis failed: Unknown error, but transcript was fetched successfully"))))
  /\
  (let body := JObj [("message", JObj [("toString", JNull)])] in
   let p := sample_platform [] connection_refused (fetched_ok sample_transcript)
              (json_response 500 body) connection_refused connection_refused in
   fetched p initial_state "https://teams.example/meet/1" sample_transcript
   /\ candidate p initial_state "https://teams.example/meet/1" sample_transcript 0
      = json_response 500 body
   /\ fst (MeetingService.fetchAndAnalyzeMeeting p "https://teams.example/meet/1" "Standup"
             initial_state)
      = Normal (mkResult false None None
                  (Some (JStr "Cannot convert object to primitive value")))).
Proof.
  split.
  - cbv zeta. split; [fetched_by_evaluation|].
    split; [eexists; repeat split; reflexivity|reflexivity].
  - cbv zeta. split; [fetched_by_evaluation|]. split; reflexivity.
Qed.

Lemma successful_analysis_has_no_error_witness :
  let body := JObj [("data", JObj [("mode", JStr "test"); ("html", JStr "<p>Minutes</p>")])] in
  let p := sample_platform [] connection_refused (fetched_ok sample_transcript)
             connection_refused (json_response 200 body) connection_refused in
  fst (MeetingService.fetchAndAnalyzeMeeting p "https://teams.example/meet/1" "Standup"
         initial_state)
  = Normal (mkResult true (Some sample_transcript) (Some body) None).
Proof.
  intros body p.
  apply (successful_analysis_has_no_error p initial_state "https://teams.example/meet/1"
           "Standup" sample_transcript 1 (mkResponse 200 "" (Normal body)) body).
  - fetched_by_evaluation.
  - lia.
  - intros j Hj. destruct j as [|j]; [reflexivity|lia].
  - reflexivity.
  - reflexivity.
  - reflexivity.
  - reflexivity.
Defined.

(** C5, as stated, fails in two ways. First: the first candidate is
    refused, the second answers 200 with a body that is not JSON and the
    third answers 500; the loop does not stop at the second candidate, and
    the result carries the third candidate's body and an [error]. Second:
    the fetch succeeds with a payload whose [transcripts] is the string
    ["x"], and the first candidate answers 200 with a JSON body; the
    console dump calls [forEach] on the string, which throws, and the outer
    [catch] returns a failure. *)
Lemma successful_analysis_counterexample :
  (let body := JObj [("message", JStr "down")] in
   let p := sample_platform [] connection_refused (fetched_ok sample_transcript)
              connection_refused (unparsed_response 200) (json_response 500 body) in
   transport_failure
     (candidate p initial_state "https://teams.example/meet/1" sample_transcript 0) = true
   /\ (exists r, candidate p initial_state "https://teams.example/meet/1" sample_transcript 1
                 = Normal r /\ resp_status r = 200%Z)
   /\ fst (MeetingService.fetchAndAnalyzeMeeting p "https://teams.example/meet/1" "Standup"
             initial_state)
      = Normal (mkResult true (Some sample_transcript) (Some body)
                  (Some (JStr "Analysis failed: down, but transcript was fetched successfully"))))
  /\
  (let payload := JObj [("transcripts", JStr "x")] in
   let p := sample_platform [] connection_refused (fetched_ok payload)
              (json_response 200 (JObj [])) connection_refused connection_refused in
   fetched p initial_state "https://teams.example/meet/1" payload
   /\ candidate p initial_state "https://teams.example/meet/1" payload 0
      = json_response 200 (JObj [])
   /\ fst (MeetingService.fetchAndAnalyzeMeeting p "https://teams.example/meet/1" "Standup"
             initial_state)
      = Normal (mkResult false None None
                  (Some (JStr "data.data.transcripts.forEach is not a function")))).
Proof.
  split.
  - cbv zeta. split; [reflexivity|]. split; [eexists; split; reflexivity|reflexivity].
  - cbv zeta. split; [fetched_by_evaluation|]. split; reflexivity.
Qed.

Lemma fetchAndAnalyzeMeeting_never_rejects_witness :
  let p := sample_platform [] connection_refused (json_response 200 JNull)
             connection_refused connection_refused connection_refused in
  fst (MeetingService.fetchAndAnalyzeMeeting p "https://teams.example/meet/1" "Standup"
         initial_state)
  = Normal (mkResult false None None
              (Some (JStr "Cannot read properties of null (reading 'success')"))).
Proof.
  intros p.
  destruct (fetchAndAnalyzeMeeting_never_rejects p initial_state
              "https://teams.example/meet/1" "Standup") as (_ & H).
  apply (H (ThrowError (mkError "Cannot read properties of null (reading 'success')"))).
  reflexivity.
Defined.

(* ================================================================== *)
(** * Properties of the transcript export *)
(* ================================================================== *)

Module AppProperties.
Import App.

Lemma append_assoc (a b c : string) : ((a ++ b) ++ c = a ++ (b ++ c))%string.
Proof. induction a as [|x a IH]; simpl; [reflexivity|now rewrite IH]. Qed.

Lemma append_nil_r (a : string) : (a ++ "" = a)%string.
Proof. induction a as [|x a IH]; simpl; [reflexivity|now rewrite IH]. Qed.

Lemma prefix_append (sep rest : string) : String.prefix sep (sep ++ rest) = true.
Proof.
  induction sep as [|c sep IH]; simpl.
  - now destruct rest.
  - destruct (ascii_dec c c) as [_|n]; [exact IH|now elim n].
Qed.

(** ** [split] undoes [concat] *)

Section Split.
Variable sep : string.

Lemma split_from_clear (x : string) :
  forall rest acc,
    clear_of sep x ->
    split_from sep (x ++ rest) 0 acc = split_from sep rest 0 (acc ++ x).
Proof.
  induction x as [|c x IH]; intros rest acc Hclear.
  - simpl. now rewrite append_nil_r.
  - destruct Hclear as [Hhead Htail]. cbn [append split_from].
    rewrite Hhead, (IH rest _ Htail), append_assoc. reflexivity.
Qed.

Lemma split_from_skip (x : string) :
  forall rest acc,
    split_from sep (x ++ rest) (String.length x) acc = split_from sep rest 0 acc.
Proof.
  induction x as [|c x IH]; intros rest acc; [reflexivity|].
  cbn [append String.length split_from]. apply IH.
Qed.

Lemma split_from_separator (rest acc : string) :
  sep <> "" ->
  split_from sep (sep ++ rest) 0 acc = acc :: split_from sep rest 0 "".
Proof.
  intros Hsep. pose proof (prefix_append sep rest) as Hp.
  destruct sep as [|c sep'] eqn:E; [now elim Hsep|].
  cbn [append split_from]. cbn [append] in Hp. rewrite Hp.
  replace (String.length (String c sep') - 1) with (String.length sep')
    by (cbn [String.length]; lia).
  f_equal. rewrite <- E. apply split_from_skip.
Qed.

Lemma split_concat (b : string) (bs : list string) :
  sep <> "" ->
  Forall (clear_of sep) (b :: bs) ->
  split sep (String.concat sep (b :: bs)) = b :: bs.
Proof.
  intros Hsep Hall. unfold split.
  assert (G : forall acc, split_from sep (String.concat sep (b :: bs)) 0 acc
                          = (acc ++ b)%string :: bs); [|apply (G EmptyString)].
  revert b Hall. induction bs as [|b' bs IH]; intros b Hall acc.
  - cbn [String.concat]. rewrite <- (append_nil_r b) at 1.
    rewrite split_from_clear by (now inversion Hall). reflexivity.
  - change (String.concat sep (b :: b' :: bs))
      with (b ++ sep ++ String.concat sep (b' :: bs))%string.
    inversion Hall as [|? ? Hb Hrest]; subst.
    rewrite split_from_clear by exact Hb.
    rewrite split_from_separator by exact Hsep.
    now rewrite (IH b' Hrest).
Qed.

Lemma split_concat_nonempty (ls : list string) :
  sep <> "" -> ls <> [] ->
  Forall (clear_of sep) ls ->
  split sep (String.concat sep ls) = ls.
Proof.
  intros Hsep Hne Hall. destruct ls as [|b bs]; [now elim Hne|].
  now apply split_concat.
Qed.
End Split.

(** ** Line breaks *)

Lemma newline_free_cons (c : ascii) (s : string) :
  newline_free (String c s) = true <-> c <> newline /\ newline_free s = true.
Proof.
  cbn [newline_free]. rewrite andb_true_iff, negb_true_iff, Ascii.eqb_neq. reflexivity.
Qed.

Lemma newline_free_append (a b : string) :
  newline_free (a ++ b) = newline_free a && newline_free b.
Proof.
  induction a as [|c a IH]; [reflexivity|].
  cbn [append newline_free]. now rewrite IH, andb_assoc.
Qed.

Lemma prefix_head_mismatch (a c : ascii) (sep' s : string) :
  a <> c -> String.prefix (String a sep') (String c s) = false.
Proof. intros H. simpl. destruct (ascii_dec a c); [contradiction|reflexivity]. Qed.

(** A separator that begins with a line break does not start inside a
    text without line breaks. *)
Lemma clear_of_newline_free_append (sep' x y : string) :
  newline_free x = true ->
  clear_of (String newline sep') y ->
  clear_of (String newline sep') (x ++ y).
Proof.
  induction x as [|c x IH]; intros Hnf Hy; [exact Hy|].
  apply newline_free_cons in Hnf as [Hc Hx].
  cbn [append clear_of]. split; [|now apply IH].
  intros rest. apply prefix_head_mismatch. congruence.
Qed.

Lemma clear_of_newline_free (sep' x : string) :
  newline_free x = true -> clear_of (String newline sep') x.
Proof.
  intros H. rewrite <- (append_nil_r x).
  now apply clear_of_newline_free_append.
Qed.

Lemma newline_free_digits (u : Decimal.uint) :
  newline_free (NilEmpty.string_of_uint u) = true.
Proof. induction u; cbn; auto. Qed.

Lemma newline_free_string_of_nat (n : nat) : newline_free (string_of_nat n) = true.
Proof.
  unfold string_of_nat, NilZero.string_of_uint.
  destruct (Nat.to_uint n) eqn:E; try reflexivity;
    rewrite <- E; apply newline_free_digits.
Qed.

Lemma newline_free_or_default (x : option string) (d : string) :
  opt_newline_free x = true -> newline_free d = true ->
  newline_free (or_default x d) = true.
Proof.
  destruct x as [s|]; cbn; intros H Hd; [|exact Hd].
  destruct (String.eqb s ""); assumption.
Qed.

Lemma newline_free_format_entry (entry : option TranscriptEntry) :
  entry_clean entry = true -> newline_free (format_entry entry) = true.
Proof.
  unfold entry_clean, format_entry. rewrite !andb_true_iff.
  intros [[[Hs He] Hsp] Ht].
  assert (HA : newline_free (or_default (opt_field entry startTime) "00:00") = true)
    by (apply newline_free_or_default; [assumption|reflexivity]).
  assert (HB : newline_free (or_default (opt_field entry endTime) "00:00") = true)
    by (apply newline_free_or_default; [assumption|reflexivity]).
  assert (HT : newline_free (or_default (opt_field entry text) "No content") = true)
    by (apply newline_free_or_default; [assumption|reflexivity]).
  assert (HS : newline_free (match opt_field entry speaker with
                             | Some s => if String.eqb s "" then "" else s ++ ": "
                             | None => ""
                             end)%string = true).
  { destruct (opt_field entry speaker) as [s|]; [|reflexivity].
    destruct (String.eqb s ""); [reflexivity|].
    rewrite newline_free_append. cbn in Hsp. now rewrite Hsp. }
  change ("[" ++ ?x)%string with (String "[" x).
  rewrite newline_free_cons. split; [discriminate|].
  rewrite !newline_free_append, HA, HB, HS, HT. reflexivity.
Qed.

(** ** The shape of a block *)

Section Blocks.
Variable p : Platform.
Variable td : TranscriptData.

(** The entry lines are never an empty list, and the first of them
    begins with ["["] or with the ["N"] of the placeholder. *)
Lemma entry_lines_head (t : option TranscriptSection) :
  exists c l ls,
    entry_lines t = String c l :: ls /\ c <> newline /\ c <> "-"%char.
Proof.
  unfold entry_lines.
  destruct (opt_field t entries) as [[|e es]|];
    cbn [map]; unfold format_entry;
    repeat eexists; try reflexivity; discriminate.
Qed.

Lemma concat_head (c : ascii) (l : string) (ls : list string) :
  exists r, String.concat nl (String c l :: ls) = String c r.
Proof. destruct ls; cbn; eauto. Qed.

Lemma format_entry_head (e : option TranscriptEntry) :
  exists r, format_entry e = String "["%char r.
Proof. eexists. reflexivity. Qed.

Lemma entries_text_lines (t : option TranscriptSection) :
  entries_text t = String.concat nl (entry_lines t).
Proof.
  unfold entries_text, entry_lines.
  destruct (opt_field t entries) as [[|e es]|]; try reflexivity.
  cbn [map]. destruct (format_entry_head e) as (r & ->).
  destruct (concat_head "["%char r (map format_entry es)) as (r' & ->).
  reflexivity.
Qed.

Lemma block_lines (t : option TranscriptSection) (i : nat) :
  block p td t i
  = String.concat nl (header_lines p td t i ++ "" :: entry_lines t).
Proof.
  unfold block. rewrite entries_text_lines.
  destruct (entry_lines_head t) as (c & l & ls & -> & _).
  unfold header, header_lines. cbn [app String.concat].
  rewrite !append_assoc. reflexivity.
Qed.

Lemma divider_unfold :
  divider = String newline (String newline ("---" ++ nl ++ nl)).
Proof. reflexivity. Qed.

Lemma clear_of_after_newline (c : ascii) (y : string) :
  c <> newline ->
  clear_of divider (String c y) ->
  clear_of divider (nl ++ String c y).
Proof.
  intros Hc Hy. change (nl ++ String c y)%string with (String newline (String c y)).
  cbn [clear_of]. split; [|exact Hy].
  intros rest. rewrite divider_unfold. cbn [append String.prefix].
  destruct (ascii_dec newline newline) as [_|n]; [|now elim n].
  apply prefix_head_mismatch. congruence.
Qed.

Lemma clear_of_after_blank_line (c : ascii) (y : string) :
  c <> newline -> c <> "-"%char ->
  clear_of divider (String c y) ->
  clear_of divider (nl ++ nl ++ String c y).
Proof.
  intros Hc Hdash Hy.
  change (nl ++ nl ++ String c y)%string
    with (String newline (nl ++ String c y)).
  cbn [clear_of]. split; [|now apply clear_of_after_newline].
  intros rest. rewrite divider_unfold.
  change ((nl ++ String c y) ++ rest)%string
    with (String newline (String c (y ++ rest))).
  cbn [String.prefix].
  destruct (ascii_dec newline newline) as [_|n]; [|now elim n].
  apply prefix_head_mismatch. congruence.
Qed.

(** Lines that are neither empty nor broken leave no room for a
    divider. *)
Lemma clear_of_plain_lines (ls : list string) :
  Forall (fun l => newline_free l = true /\ l <> "") ls ->
  clear_of divider (String.concat nl ls).
Proof.
  induction ls as [|l ls IH]; intros Hall; [exact I|].
  inversion Hall as [|? ? [Hnf Hne] Hrest]; subst.
  destruct ls as [|l' ls'].
  - cbn [String.concat]. rewrite divider_unfold. now apply clear_of_newline_free.
  - change (String.concat nl (l :: l' :: ls'))
      with (l ++ nl ++ String.concat nl (l' :: ls'))%string.
    rewrite divider_unfold. apply clear_of_newline_free_append; [exact Hnf|].
    rewrite <- divider_unfold.
    specialize (IH Hrest).
    inversion Hrest as [|? ? [Hnf' Hne'] _]; subst.
    destruct l' as [|c l']; [now elim Hne'|].
    destruct (concat_head c l' ls') as (r & Hr). rewrite Hr in *.
    apply clear_of_after_newline; [|exact IH].
    now apply newline_free_cons in Hnf' as [Hc _].
Qed.

(** The same with one blank line in the middle, provided the line
    after it does not begin with a dash. *)
Lemma clear_of_lines_with_blank (hs : list string) (c : ascii) (l : string)
      (ls : list string) :
  Forall (fun l => newline_free l = true /\ l <> "") hs ->
  Forall (fun l => newline_free l = true /\ l <> "") (String c l :: ls) ->
  c <> "-"%char ->
  clear_of divider (String.concat nl (hs ++ "" :: String c l :: ls)).
Proof.
  intros Hhs Hes Hdash.
  assert (Hc : c <> newline).
  { inversion Hes as [|? ? [Hnf _] _]; subst.
    now apply newline_free_cons in Hnf as [Hc _]. }
  pose proof (clear_of_plain_lines _ Hes) as Hentries.
  destruct (concat_head c l ls) as (r & Hr).
  induction hs as [|h hs IH].
  - change (String.concat nl ([] ++ "" :: String c l :: ls))
      with (nl ++ String.concat nl (String c l :: ls))%string.
    rewrite Hr in *. now apply clear_of_after_newline.
  - inversion Hhs as [|? ? [Hnf Hne] Hrest]; subst. specialize (IH Hrest).
    destruct hs as [|h' hs'].
    + change (String.concat nl ([h] ++ "" :: String c l :: ls))
        with (h ++ nl ++ nl ++ String.concat nl (String c l :: ls))%string.
      rewrite Hr in *. rewrite divider_unfold.
      apply clear_of_newline_free_append; [exact Hnf|]. rewrite <- divider_unfold.
      now apply clear_of_after_blank_line.
    + change (String.concat nl ((h :: h' :: hs') ++ "" :: String c l :: ls))
        with (h ++ nl ++ String.concat nl ((h' :: hs') ++ "" :: String c l :: ls))%string.
      rewrite divider_unfold.
      apply clear_of_newline_free_append; [exact Hnf|]. rewrite <- divider_unfold.
      inversion Hrest as [|? ? [Hnf' Hne'] _]; subst.
      destruct h' as [|c' h']; [now elim Hne'|].
      destruct (concat_head c' h' (hs' ++ "" :: String c l :: ls)) as (r' & Hr').
      change ((String c' h' :: hs') ++ "" :: String c l :: ls)
        with (String c' h' :: hs' ++ "" :: String c l :: ls) in *.
      rewrite Hr' in *.
      apply clear_of_after_newline; [|exact IH].
      now apply newline_free_cons in Hnf' as [Hc' _].
Qed.

Hypothesis Hclean : transcript_clean p td = true.

Lemma header_lines_newline_free (t : option TranscriptSection) (i : nat) :
  section_clean t = true ->
  Forall (fun l => newline_free l = true /\ l <> "") (header_lines p td t i).
Proof.
  intros Ht. unfold transcript_clean in Hclean. unfold section_clean in Ht.
  rewrite !andb_true_iff in Hclean. destruct Hclean as [[Hsubject Hdate] _].
  apply andb_true_iff in Ht as [Hid _].
  unfold header_lines. repeat constructor; try discriminate.
  - rewrite newline_free_append. apply andb_true_iff. split; [reflexivity|].
    now apply newline_free_or_default.
  - rewrite newline_free_append. apply andb_true_iff. split; [reflexivity|].
    destruct (opt_field (meetingInfo td) startDateTime) as [s|]; [|reflexivity].
    destruct (String.eqb s ""); [reflexivity|exact Hdate].
  - rewrite newline_free_append. apply andb_true_iff. split; [reflexivity|].
    apply newline_free_or_default; [exact Hid|].
    rewrite newline_free_append. apply andb_true_iff.
    split; [reflexivity|apply newline_free_string_of_nat].
Qed.

Lemma entry_lines_newline_free (t : option TranscriptSection) :
  section_clean t = true ->
  Forall (fun l => newline_free l = true /\ l <> "") (entry_lines t).
Proof.
  intros Ht. unfold section_clean in Ht. apply andb_true_iff in Ht as [_ Hes].
  unfold entry_lines.
  destruct (opt_field t entries) as [[|e es]|];
    try (repeat constructor; discriminate).
  rewrite forallb_forall in Hes. apply Forall_forall.
  intros l Hl. apply in_map_iff in Hl as (e' & <- & Hin). split.
  - apply newline_free_format_entry, Hes, Hin.
  - discriminate.
Qed.

Lemma block_clear_of_divider (t : option TranscriptSection) (i : nat) :
  section_clean t = true ->
  clear_of divider (block p td t i).
Proof.
  intros Ht. rewrite block_lines.
  destruct (entry_lines_head t) as (c & l & ls & Hl & _ & Hdash).
  pose proof (entry_lines_newline_free t Ht) as He. rewrite Hl in *.
  apply clear_of_lines_with_blank;
    [now apply header_lines_newline_free|exact He|exact Hdash].
Qed.
End Blocks.

Lemma Forall_map_index_from {A B} (P : B -> Prop) (f : A -> nat -> B) (xs : list A) :
  forall i, (forall x j, In x xs -> P (f x j)) -> Forall P (map_index_from f i xs).
Proof.
  induction xs as [|x xs IH]; intros i H; cbn; constructor.
  - apply H. now left.
  - apply IH. intros y j Hy. apply H. now right.
Qed.

Lemma length_map_index_from {A B} (f : A -> nat -> B) (xs : list A) :
  forall i, List.length (map_index_from f i xs) = List.length xs.
Proof. induction xs as [|x xs IH]; intros i; cbn; [reflexivity|now rewrite IH]. Qed.

Lemma plain_line_clear_of_nl (l : string) :
  newline_free l = true -> clear_of nl l.
Proof. apply (clear_of_newline_free EmptyString). Qed.

End AppProperties.



(* ================================================================== *)
(** * Further properties of the meeting service *)
(* ================================================================== *)

Section Connectivity.
Variable p : Platform.

Lemma probe_step_rejected (u : string) (rest : list string) (s : State) (t : thrown) :
  network p (trace s) (probe_request u) = Throws t ->
  MeetingService.probe p (u :: rest) s =
  MeetingService.probe p rest
    (mkState (trace s ++ [probe_request u]) (var_analyzeResponse s)
             (var_analyzeData s) (var_lastError s)).
Proof.
  intros H. cbn [MeetingService.probe].
  unfold try_catch, bind, MeetingService.fetch, ret. cbn.
  change (mkRequest (MeetingService.before_query u) "OPTIONS" [] cred_same_origin
                    (Some "cors") None None) with (probe_request u).
  rewrite H. reflexivity.
Qed.

Lemma probe_step_answered (u : string) (rest : list string) (s : State) (r : Response) :
  network p (trace s) (probe_request u) = Normal r ->
  MeetingService.probe p (u :: rest) s =
  (Normal (MeetingService.mkConnectivity true (Some u) None),
   mkState (trace s ++ [probe_request u]) (var_analyzeResponse s)
           (var_analyzeData s) (var_lastError s)).
Proof.
  intros H. cbn [MeetingService.probe].
  unfold try_catch, bind, MeetingService.fetch, ret. cbn.
  change (mkRequest (MeetingService.before_query u) "OPTIONS" [] cred_same_origin
                    (Some "cors") None None) with (probe_request u).
  rewrite H. reflexivity.
Qed.

Lemma probe_first_answer (urls : list string) :
  forall (s : State) (k : nat) (r : Response),
    k < List.length urls ->
    (forall j, j < k ->
       transport_failure
         (network p (trace s ++ map probe_request (firstn j urls))
                  (probe_request (nth j urls ""))) = true) ->
    network p (trace s ++ map probe_request (firstn k urls))
            (probe_request (nth k urls "")) = Normal r ->
    MeetingService.probe p urls s =
    (Normal (MeetingService.mkConnectivity true (Some (nth k urls "")) None),
     mkState (trace s ++ map probe_request (firstn (S k) urls)) (var_analyzeResponse s)
             (var_analyzeData s) (var_lastError s)).
Proof.
  induction urls as [|u rest IH]; intros s k r Hk Hbefore Hnet.
  - simpl in Hk. lia.
  - destruct k as [|k].
    + simpl in Hnet. rewrite app_nil_r in Hnet.
      now rewrite (probe_step_answered u rest s r Hnet).
    + pose proof (Hbefore 0 ltac:(lia)) as H0. simpl in H0. rewrite app_nil_r in H0.
      destruct (network p (trace s) (probe_request u)) as [r0|t] eqn:N; [discriminate|].
      rewrite (probe_step_rejected u rest s t N).
      rewrite (IH _ k r).
      * cbn [trace var_analyzeResponse var_analyzeData var_lastError firstn map nth].
        now rewrite <- app_assoc.
      * simpl in Hk. lia.
      * intros j Hj. specialize (Hbefore (S j) ltac:(lia)). simpl in Hbefore.
        cbn [trace]. now rewrite <- app_assoc.
      * cbn [trace]. rewrite <- app_assoc. exact Hnet.
Qed.

Lemma probe_no_answer (urls : list string) :
  forall (s : State),
    (forall j, j < List.length urls ->
       transport_failure
         (network p (trace s ++ map probe_request (firstn j urls))
                  (probe_request (nth j urls ""))) = true) ->
    MeetingService.probe p urls s =
    (Normal (MeetingService.mkConnectivity false None
               (Some "Could not connect to any analyze API endpoints. Make sure the Python service is running on port 8000.")),
     mkState (trace s ++ map probe_request urls) (var_analyzeResponse s)
             (var_analyzeData s) (var_lastError s)).
Proof.
  induction urls as [|u rest IH]; intros s Hall.
  - cbn. rewrite app_nil_r. destruct s; reflexivity.
  - pose proof (Hall 0 ltac:(simpl; lia)) as H0. simpl in H0. rewrite app_nil_r in H0.
    destruct (network p (trace s) (probe_request u)) as [r0|t] eqn:N; [discriminate|].
    rewrite (probe_step_rejected u rest s t N). rewrite IH.
    + cbn [trace var_analyzeResponse var_analyzeData var_lastError map].
      now rewrite <- app_assoc.
    + intros j Hj. specialize (Hall (S j) ltac:(simpl; lia)). simpl in Hall.
      cbn [trace]. now rewrite <- app_assoc.
Qed.

(** The preflight goes to the candidates without their query string. *)
Lemma probe_urls :
  map (fun u => req_url (probe_request u)) (getAnalyzeApiUrls p) = baseUrls.
Proof. unfold getAnalyzeApiUrls. destruct (getTestModeFromUrl p); reflexivity. Qed.

(** X1. [testAnalyzeApiConnectivity] probes the candidates in order with
    an [OPTIONS] request to the URL without its query string and stops at
    the first probe that resolves, whatever its HTTP status: it then
    reports success with that candidate's full URL (query string included)
    and has made no later probe. *)
Theorem connectivity_first_reachable (s : State) (k : nat) (r : Response) :
  k < 3 ->
  (forall j, j < k -> transport_failure (preflight p s j) = true) ->
  preflight p s k = Normal r ->
  fst (MeetingService.testAnalyzeApiConnectivity p s)
  = Normal (MeetingService.mkConnectivity true
              (Some (nth k (getAnalyzeApiUrls p) "")) None)
  /\ trace (snd (MeetingService.testAnalyzeApiConnectivity p s))
     = trace s ++ map probe_request (firstn (S k) (getAnalyzeApiUrls p))
  /\ map req_url (map probe_request (firstn (S k) (getAnalyzeApiUrls p)))
     = firstn (S k) baseUrls.
Proof.
  intros Hk Hbefore Hnet. unfold MeetingService.testAnalyzeApiConnectivity.
  rewrite (probe_first_answer (getAnalyzeApiUrls p) s k r Hk Hbefore Hnet).
  split; [reflexivity|]. split; [reflexivity|].
  rewrite map_map, <- firstn_map. now rewrite probe_urls.
Qed.

(** X2. When every probe is refused, [testAnalyzeApiConnectivity] has
    tried all three candidates, in order, and resolves (it never rejects)
    to the failure record with its fixed message and no [workingUrl]. *)
Theorem connectivity_unreachable (s : State) :
  (forall j, j < 3 -> transport_failure (preflight p s j) = true) ->
  fst (MeetingService.testAnalyzeApiConnectivity p s)
  = Normal (MeetingService.mkConnectivity false None
              (Some "Could not connect to any analyze API endpoints. Make sure the Python service is running on port 8000."))
  /\ map req_url (skipn (List.length (trace s))
                    (trace (snd (MeetingService.testAnalyzeApiConnectivity p s))))
     = baseUrls.
Proof.
  intros Hall. unfold MeetingService.testAnalyzeApiConnectivity.
  rewrite (probe_no_answer (getAnalyzeApiUrls p) s Hall).
  split; [reflexivity|]. cbn [snd trace].
  rewrite skipn_app, Nat.sub_diag, skipn_all, skipn_O, app_nil_l.
  rewrite map_map. apply probe_urls.
Qed.

(** X3. [logout] makes exactly one request and passes a failure on:
    it rejects with the very value [fetch] rejected with, and it resolves
    whenever the request resolves, whatever the HTTP status. *)
Theorem logout_passes_failure_on (s : State) :
  (forall t,
      network p (trace s) logout_request = Throws t ->
      fst (MeetingService.logout p s) = Throws t)
  /\ (forall r,
        network p (trace s) logout_request = Normal r ->
        fst (MeetingService.logout p s) = Normal tt)
  /\ trace (snd (MeetingService.logout p s)) = trace s ++ [logout_request].
Proof.
  unfold MeetingService.logout, try_catch, bind, MeetingService.fetch, lift,
    console_log, ret. cbn.
  change (mkRequest
            "https://mom-bot-transcript-service.onrender.com/auth/logout" "GET" []
            cred_include None None None) with logout_request.
  repeat split.
  - intros t H. now rewrite H.
  - intros r H. now rewrite H.
  - destruct (network p (trace s) logout_request); reflexivity.
Qed.
End Connectivity.

Section MoreOrchestration.
Variable p : Platform.

Local Abbreviation fetch_request := MeetingService.transcript_fetch_request.
Local Abbreviation F meetingUrl meetingTitle s :=
  (MeetingService.fetchAndAnalyzeMeeting p meetingUrl meetingTitle s).
Local Abbreviation loop_start s meetingUrl :=
  (mkState (trace s ++ [fetch_request meetingUrl]) None JUndefined None).

(** When no attempt completes, every URL is tried, [analyzeData] is left
    alone and [analyzeResponse] holds the last response received. *)
Lemma for_of_none_completed (d : jsval) (urls : list string) :
  forall (s : State),
    forallb (fun c => negb (completes c)) (attempts p d urls (trace s)) = true ->
    exists e,
      for_of urls (MeetingService.try_analyze p d) s =
      (Normal tt,
       mkState (trace s ++ map (fun u => MeetingService.analyze_request u d) urls)
               (last_resolved (attempts p d urls (trace s)) (var_analyzeResponse s))
               (var_analyzeData s) e).
Proof.
  induction urls as [|u rest IH]; intros s Hnone.
  - exists (var_lastError s). cbn. rewrite app_nil_r. destruct s; reflexivity.
  - cbn [attempts forallb] in Hnone. apply andb_true_iff in Hnone as [H0 Hrest].
    apply negb_true_iff in H0. unfold completes in H0.
    cbn [for_of attempts last_resolved]. unfold bind.
    destruct (network p (trace s) (MeetingService.analyze_request u d)) as [r|t] eqn:N.
    + destruct (resp_json r) as [b|t] eqn:J; [discriminate|].
      rewrite (try_analyze_unparsed p d u s r t N J).
      destruct (IH (mkState (trace s ++ [MeetingService.analyze_request u d]) (Some r)
                            (var_analyzeData s)
                            (Some (error_or_new t "Unknown error"))) Hrest) as (e & ->).
      exists e. cbn. now rewrite <- app_assoc.
    + rewrite (try_analyze_rejected p d u s t N).
      destruct (IH (mkState (trace s ++ [MeetingService.analyze_request u d])
                            (var_analyzeResponse s) (var_analyzeData s)
                            (Some (error_or_new t "Unknown error"))) Hrest) as (e & ->).
      exists e. cbn. now rewrite <- app_assoc.
Qed.

(** X4. When the transcript fetch succeeds and none of the three analyze
    attempts gets a JSON body, but at least one request resolved, the
    function still reports [success: true] with [analyzeResponse:
    undefined]; whether an [error] is attached depends only on the status
    of the last response received: a 2xx status gives a result without any
    [error] (provided the console dump does not throw), any other status
    gives the summary with ['Unknown error']. *)
Theorem unparsed_answers_give_undefined_analysis
        (s : State) (meetingUrl meetingTitle : string) (d : jsval) (r : Response) :
  fetched p s meetingUrl d ->
  forallb (fun c => negb (completes c))
          (attempts p d (getAnalyzeApiUrls p) (trace s ++ [fetch_request meetingUrl])) = true ->
  last_resolved
    (attempts p d (getAnalyzeApiUrls p) (trace s ++ [fetch_request meetingUrl])) None
  = Some r ->
  (resp_ok r = true ->
   MeetingService.log_original_transcript p meetingTitle d = Normal tt ->
   fst (F meetingUrl meetingTitle s)
   = Normal (mkResult true (Some d) (Some JUndefined) None))
  /\ (resp_ok r = false ->
      fst (F meetingUrl meetingTitle s)
      = Normal (mkResult true (Some d) (Some JUndefined)
                  (Some (JStr "Analysis failed: Unknown error, but transcript was fetched successfully")))).
Proof.
  intros Hf Hnone Hlast.
  destruct (for_of_none_completed d (getAnalyzeApiUrls p) (loop_start s meetingUrl) Hnone)
    as (e & Hloop).
  cbn [trace var_analyzeResponse var_analyzeData] in Hloop. rewrite Hlast in Hloop.
  rewrite (step2_response p s _ meetingUrl meetingTitle d r Hf Hloop eq_refl).
  cbn [fst var_analyzeData]. split.
  - intros Hok Hlog. now rewrite Hok, Hlog.
  - intros Hok. now rewrite Hok.
Qed.

(** The loop only ever appends attempts on a prefix of the URLs to the
    request log. *)
Lemma for_of_logs_a_prefix (d : jsval) (urls : list string) :
  forall (s : State),
    exists n s',
      n <= List.length urls
      /\ for_of urls (MeetingService.try_analyze p d) s = (Normal tt, s')
      /\ trace s' = trace s ++ map (fun u => MeetingService.analyze_request u d)
                                   (firstn n urls).
Proof.
  induction urls as [|u rest IH]; intros s.
  - exists 0, s. cbn. rewrite app_nil_r. auto.
  - cbn [for_of]. unfold bind.
    destruct (network p (trace s) (MeetingService.analyze_request u d)) as [r|t] eqn:N.
    + destruct (resp_json r) as [b|t] eqn:J.
      * rewrite (try_analyze_completed p d u s r b N J).
        exists 1. eexists. split; [cbn; lia|]. split; [reflexivity|reflexivity].
      * rewrite (try_analyze_unparsed p d u s r t N J).
        destruct (IH (mkState (trace s ++ [MeetingService.analyze_request u d]) (Some r)
                              (var_analyzeData s)
                              (Some (error_or_new t "Unknown error"))))
          as (n & s' & Hn & -> & Ht).
        exists (S n), s'. split; [cbn; lia|]. split; [reflexivity|].
        rewrite Ht. cbn. now rewrite <- app_assoc.
    + rewrite (try_analyze_rejected p d u s t N).
      destruct (IH (mkState (trace s ++ [MeetingService.analyze_request u d])
                            (var_analyzeResponse s) (var_analyzeData s)
                            (Some (error_or_new t "Unknown error"))))
        as (n & s' & Hn & -> & Ht).
      exists (S n), s'. split; [cbn; lia|]. split; [reflexivity|].
      rewrite Ht. cbn. now rewrite <- app_assoc.
Qed.

(** Every run, by cases: step 1 throws, [data.success] is falsy, or the
    fetch succeeded and the loop left some state [s2] behind. *)
Lemma run_cases (s : State) (meetingUrl meetingTitle : string) :
  (exists t, phase1 p s meetingUrl = Throws t)
  \/ (exists resp body ok,
        network p (trace s) (fetch_request meetingUrl) = Normal resp
        /\ resp_json resp = Normal body
        /\ get p body "success" = Normal ok
        /\ truthy ok = false)
  \/ (exists d, fetched p s meetingUrl d).
Proof.
  unfold phase1, fetched.
  destruct (network p (trace s) (fetch_request meetingUrl)) as [resp|t] eqn:N;
    cbn [cbind]; [|left; eexists; reflexivity].
  destruct (resp_json resp) as [body|t] eqn:J; cbn [cbind];
    [|left; eexists; reflexivity].
  destruct (get p body "success") as [ok|t] eqn:G; [|left; eexists; reflexivity].
  destruct (truthy ok) eqn:T.
  - right; right.
    assert (exists d, get p body "data" = Normal d) as (d & Hd).
    { destruct body; try (eexists; reflexivity); discriminate. }
    exists d, resp, body, ok. auto.
  - right; left. exists resp, body, ok. auto.
Qed.

(** The state the run ends in, once the fetch has succeeded, is the one
    the loop leaves behind. *)
Lemma fetched_run (s : State) (meetingUrl meetingTitle : string) (d : jsval) :
  fetched p s meetingUrl d ->
  exists s2 result,
    for_of (getAnalyzeApiUrls p) (MeetingService.try_analyze p d) (loop_start s meetingUrl)
    = (Normal tt, s2)
    /\ F meetingUrl meetingTitle s = (Normal result, s2)
    /\ ((success result = true /\ data result = Some d
         /\ (analyzeResponse result = None -> error result <> None))
        \/ (success result = false /\ data result = None
            /\ analyzeResponse result = None /\ error result <> None)).
Proof.
  intros Hf.
  destruct (for_of_try_analyze_total p d (getAnalyzeApiUrls p) (loop_start s meetingUrl))
    as (s2 & Hloop).
  exists s2.
  destruct (var_analyzeResponse s2) as [r|] eqn:Hr.
  - rewrite (step2_response p s s2 meetingUrl meetingTitle d r Hf Hloop Hr).
    eexists. split; [exact Hloop|]. split; [reflexivity|].
    destruct (resp_ok r).
    + destruct (MeetingService.log_original_transcript p meetingTitle d);
        [left|right]; cbn; repeat split; discriminate.
    + destruct (MeetingService.analysis_failed_message p (var_analyzeData s2));
        [left|right]; cbn; repeat split; discriminate.
  - rewrite (step2_no_response p s s2 meetingUrl meetingTitle d Hf Hloop Hr).
    eexists. split; [exact Hloop|]. split; [reflexivity|].
    destruct (MeetingService.network_failure_message p (var_lastError s2));
      [left|right]; cbn; repeat split; discriminate.
Qed.

(** X5. What a result says is backed by the exchange: a result with
    [success: true] is only returned when the transcript fetch succeeded,
    and its [data] is exactly the [data.data] of that response; a result
    with [success: false] has neither [data] nor [analyzeResponse] and
    always has an [error]; and a successful result that lacks
    [analyzeResponse] always has an [error]. *)
Theorem result_reflects_the_fetch (s s' : State) (meetingUrl meetingTitle : string)
        (result : MeetingProcessResult) :
  F meetingUrl meetingTitle s = (Normal result, s') ->
  (success result = true ->
   exists d, fetched p s meetingUrl d /\ data result = Some d
             /\ (analyzeResponse result = None -> error result <> None))
  /\ (success result = false ->
      data result = None /\ analyzeResponse result = None /\ error result <> None).
Proof.
  intros Hrun.
  destruct (run_cases s meetingUrl meetingTitle)
    as [(t & Hthrow)|[(resp & body & ok & Hnet & Hjson & Hok & Hfalsy)|(d & Hf)]].
  - rewrite (step1_throws p s meetingUrl meetingTitle t Hthrow) in Hrun.
    injection Hrun as <- _. cbn. split; [discriminate|]. repeat split; discriminate.
  - destruct (step1_not_success p s meetingUrl meetingTitle resp body ok
                Hnet Hjson Hok Hfalsy) as (m & _ & Heq).
    rewrite Heq in Hrun. injection Hrun as <- _. cbn.
    split; [discriminate|]. repeat split; discriminate.
  - destruct (fetched_run s meetingUrl meetingTitle d Hf)
      as (s2 & result' & _ & Heq & Hshape).
    rewrite Heq in Hrun. injection Hrun as -> _.
    destruct Hshape as [(Hs & Hd & Ha)|(Hs & Hd & Ha & He)].
    + split; [intros _; exists d; auto|rewrite Hs; discriminate].
    + split; [rewrite Hs; discriminate|auto].
Qed.

(** X6. Whatever the network does, a run makes at most four requests:
    first the transcript fetch (a credentialed [POST] of
    [{joinUrl: meetingUrl}]), then attempts on a prefix of the three
    candidates, in their order and each at most once. Attempts are only
    made after a successful transcript fetch, and each is a [POST]
    without credentials that carries the fetched payload [data.data] as
    its body (no body when [data.data] is [undefined]). *)
Theorem requests_follow_the_protocol (s : State) (meetingUrl meetingTitle : string) :
  exists n d,
    n <= 3
    /\ trace (snd (F meetingUrl meetingTitle s))
       = trace s
         ++ mkRequest "https://mom-bot-transcript-service.onrender.com/transcript/fetch"
              "POST" [("Content-Type", "application/json")] cred_include None None
              (Some (JObj [("joinUrl", JStr meetingUrl)]))
         :: map (fun apiUrl =>
                   mkRequest apiUrl "POST"
                     [("accept", "application/json");
                      ("accept-language",
                       "en-IN,en-US;q=0.9,en-GB;q=0.8,en;q=0.7,ta;q=0.6,kn;q=0.5");
                      ("content-type", "application/json")]
                     cred_omit (Some "cors") None
                     (match d with JUndefined => None | _ => Some d end))
                (firstn n (getAnalyzeApiUrls p))
    /\ (0 < n -> fetched p s meetingUrl d).
Proof.
  assert (Hprotocol : exists n d,
             n <= 3
             /\ trace (snd (F meetingUrl meetingTitle s)) = requests_before p s meetingUrl d n
             /\ (0 < n -> fetched p s meetingUrl d)).
  { destruct (run_cases s meetingUrl meetingTitle)
      as [(t & Hthrow)|[(resp & body & ok & Hnet & Hjson & Hok & Hfalsy)|(d & Hf)]].
    - exists 0, JUndefined. split; [lia|]. split; [|lia].
      now rewrite (step1_throws p s meetingUrl meetingTitle t Hthrow).
    - exists 0, JUndefined. split; [lia|]. split; [|lia].
      destruct (step1_not_success p s meetingUrl meetingTitle resp body ok
                  Hnet Hjson Hok Hfalsy) as (m & _ & ->). reflexivity.
    - destruct (fetched_run s meetingUrl meetingTitle d Hf)
        as (s2 & result & Hloop & -> & _).
      destruct (for_of_logs_a_prefix d (getAnalyzeApiUrls p) (loop_start s meetingUrl))
        as (n & s2' & Hn & Hloop' & Htrace).
      rewrite Hloop in Hloop'. injection Hloop' as <-.
      exists n, d. split; [exact Hn|]. split; [|auto].
      cbn [snd]. rewrite Htrace. cbn [trace]. unfold requests_before.
      now rewrite <- app_assoc. }
  destruct Hprotocol as (n & d & Hn & Htrace & Hf).
  exists n, d. split; [exact Hn|]. split; [|exact Hf].
  rewrite Htrace. reflexivity.
Qed.

(** X7. Step 1 reads [data.success] for its truth value only: a body
    other than [null] whose [success] is missing or falsy ([false], [0],
    [""], [null]) ends the run with [{success: false}] after the one
    request, and the [error] is ['Failed to fetch transcript'] whenever
    the body has no truthy [message]; a body that is not an object (a
    number, a string, an array) always gets that default. *)
Theorem falsy_success_is_terminal (s : State) (meetingUrl meetingTitle : string)
        (resp : Response) (body : jsval) :
  network p (trace s) (fetch_request meetingUrl) = Normal resp ->
  resp_json resp = Normal body ->
  is_nullish body = false ->
  truthy (match body with
          | JObj fields => match assoc "success" fields with Some v => v | None => JUndefined end
          | _ => JUndefined
          end) = false ->
  fst (F meetingUrl meetingTitle s)
  = Normal (mkResult false None None
              (Some (match body with
                     | JObj fields =>
                         match assoc "message" fields with
                         | Some m => if truthy m then m else JStr "Failed to fetch transcript"
                         | None => JStr "Failed to fetch transcript"
                         end
                     | _ => JStr "Failed to fetch transcript"
                     end)))
  /\ trace (snd (F meetingUrl meetingTitle s)) = trace s ++ [fetch_request meetingUrl].
Proof.
  intros Hnet Hjson Hbody Hfalsy.
  assert (Hok : exists ok, get p body "success" = Normal ok /\ truthy ok = false).
  { destruct body; try discriminate; cbn; eauto. }
  destruct Hok as (ok & Hok & Hok').
  destruct (step1_not_success p s meetingUrl meetingTitle resp body ok
              Hnet Hjson Hok Hok') as (m & Hm & ->).
  split; [|reflexivity]. cbn [fst]. do 3 f_equal.
  destruct body; try discriminate; cbn in Hm; injection Hm as <-; try reflexivity.
  unfold js_or. destruct (assoc "message" fields); reflexivity.
Qed.
End MoreOrchestration.


(** ** The arithmetic of [formatDuration] *)

Lemma round_half_even_cases (num den : Z) :
  (0 < den)%Z ->
  let m := AppComponent.round_half_even num den in
  (m = num / den /\ 2 * (num mod den) <= den)%Z
  \/ (m = num / den + 1 /\ den <= 2 * (num mod den))%Z.
Proof.
  intros Hden. unfold AppComponent.round_half_even. cbv zeta.
  destruct (Z.ltb_spec den (2 * (num mod den))) as [Hlt|Hge]; cbn [orb].
  - right. split; [reflexivity|lia].
  - destruct (Z.eqb_spec den (2 * (num mod den))) as [Heq|Hne]; cbn [andb].
    + destruct (Z.odd (num / den)); [right|left]; split; try reflexivity; lia.
    + left. split; [reflexivity|lia].
Qed.

Lemma quotient_exponent_bound (x k : Z) :
  (0 < x < 2 ^ 53)%Z -> (0 < k)%Z ->
  (AppComponent.quotient_exponent x k <= 0
   /\ k < 2 ^ (1 - AppComponent.quotient_exponent x k))%Z.
Proof.
  intros [Hx Hbound] Hk. unfold AppComponent.quotient_exponent. cbv zeta.
  assert (Hlx : (Z.log2 x < 53)%Z) by (apply Z.log2_lt_pow2; lia).
  pose proof (Z.log2_nonneg k) as Hlk.
  pose proof (Z.log2_nonneg x) as Hlx0.
  destruct (Z.log2_spec k Hk) as [_ Hupper].
  set (e := (Z.log2 x - Z.log2 k)%Z).
  set (below := if (0 <=? e)%Z then (x <? k * 2 ^ e)%Z else (x * 2 ^ (- e) <? k)%Z).
  assert (Hfl : ((if below then e - 1 else e) <= e)%Z) by (destruct below; lia).
  split; [subst e; lia|].
  eapply Z.lt_le_trans; [exact Hupper|].
  apply Z.pow_le_mono_r; subst e; lia.
Qed.

Lemma floor_of_rounded_positive (X k P m : Z) :
  (0 < X)%Z -> (0 < k)%Z -> (0 < P)%Z -> (k < 2 * P)%Z ->
  ((m = X * P / k /\ 2 * ((X * P) mod k) <= k)
   \/ (m = X * P / k + 1 /\ k <= 2 * ((X * P) mod k)))%Z ->
  (m / P = X / k)%Z.
Proof.
  intros HX Hk HP HkP Hm.
  pose proof (Z.div_mod X k ltac:(lia)) as HXk.
  pose proof (Z.mod_pos_bound X k Hk) as Hrho.
  pose proof (Z.div_mod (X * P) k ltac:(lia)) as HN.
  pose proof (Z.mod_pos_bound (X * P) k Hk) as Hr.
  set (n := (X / k)%Z) in *. set (rho := (X mod k)%Z) in *.
  set (m0 := (X * P / k)%Z) in *. set (r := ((X * P) mod k)%Z) in *.
  assert (Hlow : (n * P <= m0)%Z) by nia.
  assert (Hup : (m0 < (n + 1) * P)%Z) by nia.
  symmetry. apply (Z.div_unique m P n (m - P * n)); [left|lia].
  destruct Hm as [[-> _]|[-> Hround]]; [lia|].
  split; [lia|].
  assert (m0 + 1 < (n + 1) * P)%Z; [|lia].
  destruct (Z.eq_dec m0 ((n + 1) * P - 1)) as [Heq|Hne]; [|lia].
  exfalso.
  assert (Hdelta : (1 <= k - rho)%Z) by lia.
  assert (r = k - (k - rho) * P)%Z by nia.
  nia.
Qed.

Lemma floor_of_rounded_negative (X k P m : Z) :
  (0 < X)%Z -> (0 < k)%Z -> (0 < P)%Z -> (k < 2 * P)%Z ->
  ((m = X * P / k /\ 2 * ((X * P) mod k) <= k)
   \/ (m = X * P / k + 1 /\ k <= 2 * ((X * P) mod k)))%Z ->
  ((- m) / P = (- X) / k)%Z.
Proof.
  intros HX Hk HP HkP Hm.
  pose proof (Z.div_mod (- X) k ltac:(lia)) as HXk.
  pose proof (Z.mod_pos_bound (- X) k Hk) as Hrho.
  pose proof (Z.div_mod (X * P) k ltac:(lia)) as HN.
  pose proof (Z.mod_pos_bound (X * P) k Hk) as Hr.
  set (q := ((- X) / k)%Z) in *. set (rho := ((- X) mod k)%Z) in *.
  set (m0 := (X * P / k)%Z) in *. set (r := ((X * P) mod k)%Z) in *.
  assert (HXq : (X = k * (- q) - rho)%Z) by lia.
  assert (Hup : (m0 <= (- q) * P)%Z) by nia.
  assert (Hlow : ((- q) * P - P <= m0)%Z) by nia.
  symmetry. apply (Z.div_unique (- m) P q (- m - P * q)); [left|lia].
  destruct Hm as [[-> Hdown]|[-> Hround]].
  - split; [lia|].
    assert ((- q) * P - P < m0)%Z; [|lia].
    destruct (Z.eq_dec m0 ((- q) * P - P)) as [Heq|Hne]; [|lia].
    exfalso.
    assert (r = (k - rho) * P)%Z by nia.
    assert (1 <= k - rho)%Z by lia.
    nia.
  - split; [|lia].
    assert (m0 < (- q) * P)%Z; [|lia].
    destruct (Z.eq_dec m0 ((- q) * P)) as [Heq|Hne]; [|lia].
    exfalso.
    assert (r = - (rho * P))%Z by nia.
    nia.
Qed.

(** On integers below 2^53 in magnitude the rounding of the quotient
    does not show: the floor is that of the exact quotient. *)
Lemma floor_quotient_exact (x k : Z) :
  (0 < k)%Z -> (Z.abs x < 2 ^ 53)%Z ->
  AppComponent.floor_quotient x k = (x / k)%Z.
Proof.
  intros Hk Hx. unfold AppComponent.floor_quotient.
  destruct (Z.eqb_spec x 0) as [->|Hnz]; [reflexivity|].
  destruct (quotient_exponent_bound (Z.abs x) k ltac:(lia) Hk) as [HE HkE].
  set (E := AppComponent.quotient_exponent (Z.abs x) k) in *.
  destruct (Z.leb_spec 0 E) as [H0|Hneg].
  - assert (E = 0)%Z by lia. subst E. rewrite H in *.
    change (2 ^ (1 - 0))%Z with 2%Z in HkE. assert (k = 1)%Z by lia. subst k.
    change (1 * 2 ^ 0)%Z with 1%Z. change (2 ^ 0)%Z with 1%Z.
    unfold AppComponent.round_half_even. rewrite Z.mod_1_r, !Z.div_1_r. cbn [Z.mul orb andb Z.ltb Z.eqb Z.compare].
    rewrite Z.mul_1_r, Z.mul_comm. apply Z.abs_sgn.
  - set (P := (2 ^ (- E))%Z).
    assert (HP : (0 < P)%Z) by (apply Z.pow_pos_nonneg; lia).
    assert (HkP : (k < 2 * P)%Z).
    { replace (1 - E)%Z with (Z.succ (- E)) in HkE by lia.
      rewrite Z.pow_succ_r in HkE by lia. exact HkE. }
    pose proof (round_half_even_cases (Z.abs x * P) k Hk) as Hm. cbv zeta in Hm.
    destruct (Z.lt_trichotomy x 0) as [Hlt|[Heq|Hgt]]; [|contradiction|].
    + rewrite (Z.sgn_neg x Hlt).
      replace (-1 * AppComponent.round_half_even (Z.abs x * P) k)%Z
        with (- AppComponent.round_half_even (Z.abs x * P) k)%Z by lia.
      rewrite (floor_of_rounded_negative (Z.abs x) k P _ ltac:(lia) Hk HP HkP Hm).
      f_equal. lia.
    + rewrite (Z.sgn_pos x Hgt).
      replace (1 * AppComponent.round_half_even (Z.abs x * P) k)%Z
        with (AppComponent.round_half_even (Z.abs x * P) k)%Z by lia.
      rewrite (floor_of_rounded_positive (Z.abs x) k P _ ltac:(lia) Hk HP HkP Hm).
      f_equal. lia.
Qed.


(* ================================================================== *)
(** * Properties of the component's handlers *)
(* ================================================================== *)

Ltac ui_run :=
  unfold Hooks.ufinally, Hooks.ucatch, Hooks.ubind, Hooks.await, Hooks.set, Hooks.uret.

Lemma js_or_default_truthy (v : jsval) (d : string) :
  d <> "" -> truthy (js_or v (JStr d)) = true.
Proof.
  intros Hd. unfold js_or. destruct (truthy v) eqn:T; [exact T|].
  cbn. apply negb_true_iff. now apply String.eqb_neq.
Qed.

(** What the [catch] of [handleFetchTranscript] does with a rejection [t]
    of the request or of the parsing of its body. *)
Ltac caught_in_handleFetchTranscript :=
  match goal with
  | t : thrown |- context [message_of ?om _] =>
      destruct t as [e|]; cbn [message_of];
      [ do 2 eexists; split; [reflexivity|];
        do 3 (split; [reflexivity|]);
        split;
        [ right; left; do 2 (split; [reflexivity|]);
          cbn; now apply js_or_default_truthy
        | intros _; reflexivity ]
      | destruct om as [m|t'] eqn:Eom;
        [ do 2 eexists; split; [reflexivity|];
          do 3 (split; [reflexivity|]);
          split;
          [ right; left; do 2 (split; [reflexivity|]);
            cbn; now apply js_or_default_truthy
          | intros _; reflexivity ]
        | do 2 eexists; split; [reflexivity|];
          do 3 (split; [reflexivity|]);
          split;
          [ right; right; exists t'; do 4 (split; [reflexivity|]); reflexivity
          | intros Honly; destruct (Honly ThrowOther eq_refl) as (e & He);
            discriminate ] ] ]
  end.

Section ComponentProperties.
Variable p : Platform.
Variable trim : string -> string.
Variable other_message : completion jsval.

Local Abbreviation unauth := (JObj [("authenticated", JBool false)]).

(** X8. The component's own [checkAuthStatus] never rejects, makes
    exactly one request and always ends with [loading] cleared. It stores
    the parsed body as it is, whatever the HTTP status, and
    [{authenticated: false}] when the request is rejected or the body does
    not parse. A body that parses to [null] is therefore stored too, and
    this is the one case in which the render's read of
    [authStatus.authenticated] throws afterwards. *)
Theorem component_checkAuthStatus_settles (c : AppComponent.Component) (s : State) :
  exists c',
    AppComponent.checkAuthStatus p c s =
    (Normal tt, c',
     mkState (trace s ++ [AppComponent.status_request]) (var_analyzeResponse s)
             (var_analyzeData s) (var_lastError s))
    /\ c' = AppComponent.setLoading false
              (AppComponent.setAuthStatus
                 (match network p (trace s) AppComponent.status_request with
                  | Normal resp =>
                      match resp_json resp with
                      | Normal body => body
                      | Throws _ => unauth
                      end
                  | Throws _ => unauth
                  end) c)
    /\ ((exists t, AppComponent.render_authenticated p c' = Throws t)
        <-> exists resp body,
              network p (trace s) AppComponent.status_request = Normal resp
              /\ resp_json resp = Normal body
              /\ is_nullish body = true).
Proof.
  unfold AppComponent.checkAuthStatus. ui_run.
  unfold MeetingService.fetch, MeetingService.json, lift.
  destruct (network p (trace s) AppComponent.status_request) as [resp|t].
  2:{ eexists. split; [reflexivity|]. split; [reflexivity|]. cbn. split.
      - intros (t' & H). discriminate.
      - intros (resp & body & H & _). discriminate. }
  destruct (resp_json resp) as [body|t] eqn:J.
  2:{ eexists. split; [reflexivity|]. split; [reflexivity|]. cbn. split.
      - intros (t' & H). discriminate.
      - intros (resp' & body & Hr & H & _). injection Hr as <-.
        rewrite J in H. discriminate. }
  eexists. split; [reflexivity|]. split; [reflexivity|].
  unfold AppComponent.render_authenticated. cbn [AppComponent.authStatus
    AppComponent.setLoading AppComponent.setAuthStatus]. split.
  - intros (t' & H). exists resp, body. split; [reflexivity|]. split; [exact J|].
    destruct body; try reflexivity; cbn in H; discriminate.
  - intros (resp' & body' & Hr & Hb & Hn). injection Hr as <-.
    rewrite J in Hb. injection Hb as <-.
    destruct body; try discriminate; eexists; reflexivity.
Qed.

(** X9. The component's own [handleLogout] never rejects. When the
    request resolves, whatever its status, the user is shown as logged out
    and the transcript is dropped; when the request is rejected the
    failure is swallowed and the state stays as it was, so the user is
    still shown as logged in. *)
Theorem component_handleLogout_swallows_failure (c : AppComponent.Component) (s : State) :
  AppComponent.handleLogout p c s =
  (Normal tt,
   match network p (trace s) AppComponent.logout_request with
   | Normal _ => AppComponent.setTranscriptData JNull (AppComponent.setAuthStatus unauth c)
   | Throws _ => c
   end,
   mkState (trace s ++ [AppComponent.logout_request]) (var_analyzeResponse s)
           (var_analyzeData s) (var_lastError s)).
Proof.
  unfold AppComponent.handleLogout. ui_run. unfold MeetingService.fetch.
  destruct (network p (trace s) AppComponent.logout_request); reflexivity.
Qed.

(** X10. With a meeting URL that is empty or blank, [handleFetchTranscript]
    makes no request: it only sets the error to
    ['Please enter a Teams meeting URL'], leaving the transcript on display
    and the [fetching] flag as they were. *)
Theorem blank_url_makes_no_request (c : AppComponent.Component) (s : State) :
  trim (AppComponent.meetingUrl c) = "" ->
  AppComponent.handleFetchTranscript p trim other_message c s =
  (Normal tt, AppComponent.setError (JStr "Please enter a Teams meeting URL") c, s).
Proof.
  intros H. unfold AppComponent.handleFetchTranscript. rewrite H. reflexivity.
Qed.

(** X11. With a non-blank URL, [handleFetchTranscript] makes exactly one
    request, the credentialed [POST] of [{joinUrl: <trimmed URL>}], and
    always ends with [fetching] cleared. Either the fetch succeeded and
    the state holds the payload [data.data] with no error; or the
    transcript is [null] and a truthy error is set, so that a failure
    never leaves an earlier transcript or an earlier error behind; or the
    handler itself rejects, which happens only when the request or the
    parsing of the body was rejected with a value that is no [Error] and
    reading that value's [message] throws (the transcript and the error
    are then both [null]). In particular the handler never rejects when
    every rejection is an [Error]. *)
Theorem handleFetchTranscript_settles (c : AppComponent.Component) (s : State) :
  trim (AppComponent.meetingUrl c) <> "" ->
  exists outcome c',
    AppComponent.handleFetchTranscript p trim other_message c s =
    (outcome, c',
     mkState (trace s
              ++ [mkRequest
                    "https://mom-bot-transcript-service.onrender.com/transcript/fetch"
                    "POST" [("Content-Type", "application/json")] cred_include None None
                    (Some (JObj [("joinUrl", JStr (trim (AppComponent.meetingUrl c)))]))])
             (var_analyzeResponse s) (var_analyzeData s) (var_lastError s))
    /\ AppComponent.fetching c' = false
    /\ AppComponent.authStatus c' = AppComponent.authStatus c
    /\ AppComponent.meetingUrl c' = AppComponent.meetingUrl c
    /\ ((exists d, fetched p s (trim (AppComponent.meetingUrl c)) d
                   /\ outcome = Normal tt
                   /\ AppComponent.transcriptData c' = d
                   /\ AppComponent.error c' = JNull)
        \/ (outcome = Normal tt
            /\ AppComponent.transcriptData c' = JNull
            /\ truthy (AppComponent.error c') = true)
        \/ (exists t, outcome = Throws t
                      /\ other_message = Throws t
                      /\ phase1 p s (trim (AppComponent.meetingUrl c)) = Throws ThrowOther
                      /\ AppComponent.transcriptData c' = JNull
                      /\ AppComponent.error c' = JNull))
    /\ ((forall t, phase1 p s (trim (AppComponent.meetingUrl c)) = Throws t ->
           exists e, t = ThrowError e) ->
        outcome = Normal tt).
Proof.
  intros Hurl. apply String.eqb_neq in Hurl.
  unfold AppComponent.handleFetchTranscript. rewrite Hurl. ui_run.
  unfold MeetingService.fetch, MeetingService.json, lift, fetched, phase1.
  change (MeetingService.transcript_fetch_request (trim (AppComponent.meetingUrl c)))
    with (mkRequest "https://mom-bot-transcript-service.onrender.com/transcript/fetch"
            "POST" [("Content-Type", "application/json")] cred_include None None
            (Some (JObj [("joinUrl", JStr (trim (AppComponent.meetingUrl c)))]))).
  set (request := mkRequest _ _ _ _ _ _ _).
  destruct (network p (trace s) request) as [resp|t] eqn:N; cbn [cbind].
  2:{ caught_in_handleFetchTranscript. }
  destruct (resp_json resp) as [body|t] eqn:J; cbn [cbind].
  2:{ caught_in_handleFetchTranscript. }
  destruct (get p body "success") as [ok|t] eqn:G.
  2:{ assert (exists e, t = ThrowError e) as (e & ->)
        by (destruct body; try discriminate; cbn in G; injection G as <-; eauto).
      cbn [message_of].
      do 2 eexists. split; [reflexivity|]. do 3 (split; [reflexivity|]).
      split; [|intros _; reflexivity].
      right. left. do 2 (split; [reflexivity|]). cbn. now apply js_or_default_truthy. }
  destruct (truthy ok) eqn:T.
  - assert (exists d, get p body "data" = Normal d) as (d & Hd)
        by (destruct body; try (eexists; reflexivity); discriminate).
    rewrite Hd.
    assert (exists v, opt_get p d "meetingInfo" = Normal v) as (v1 & ->)
        by (destruct d; cbn; eauto).
    assert (exists v, opt_get p d "transcripts" = Normal v) as (v2 & ->)
        by (destruct d; cbn; eauto).
    do 2 eexists. split; [reflexivity|]. do 3 (split; [reflexivity|]).
    split; [|intros _; reflexivity].
    left. exists d. split; [|do 2 (split; [reflexivity|]); reflexivity].
    exists resp, body, ok. auto.
  - assert (exists m, get p body "message" = Normal m) as (m & ->)
        by (destruct body; try (eexists; reflexivity); discriminate).
    do 2 eexists. split; [reflexivity|]. do 3 (split; [reflexivity|]).
    split; [|intros _; reflexivity].
    right. left. do 2 (split; [reflexivity|]). cbn. now apply js_or_default_truthy.
Qed.
End ComponentProperties.

Section DurationProperties.
Variable getTime : string -> option Z.

(** X12. For two valid dates less than 2^53 milliseconds (some 285,000
    years) apart, [formatDuration] works in whole minutes, rounded down:
    the rounding of the double arithmetic does not show. It prints
    [<m>m] when the difference is under an hour, negative differences
    included (so an end before the start shows as a negative number of
    minutes, never as hours), and [<h>h <m>m] with [0 <= m < 60] and
    [60 h + m] the whole minutes otherwise. *)
Theorem formatDuration_whole_minutes (startTime endTime : string) (a b : Z) :
  getTime startTime = Some a ->
  getTime endTime = Some b ->
  (Z.abs (b - a) < 2 ^ 53)%Z ->
  let minutes := ((b - a) / 60000)%Z in
  (60000 * minutes <= b - a < 60000 * (minutes + 1))%Z
  /\ ((minutes < 60)%Z ->
      AppComponent.formatDuration getTime startTime endTime
      = (string_of_Z minutes ++ "m")%string)
  /\ ((60 <= minutes)%Z ->
      exists h m,
        AppComponent.formatDuration getTime startTime endTime
        = (string_of_Z h ++ "h " ++ string_of_Z m ++ "m")%string
        /\ (1 <= h)%Z /\ (0 <= m < 60)%Z /\ (60 * h + m = minutes)%Z).
Proof.
  intros Ha Hb Hbound minutes. subst minutes.
  unfold AppComponent.formatDuration. rewrite Ha, Hb.
  cbn [AppComponent.number_sub AppComponent.floor_div AppComponent.number_mod
       AppComponent.number_positive AppComponent.number_text option_map].
  change (1000 * 60)%Z with 60000%Z.
  rewrite (floor_quotient_exact (b - a) 1 ltac:(lia) Hbound), Z.div_1_r.
  rewrite (floor_quotient_exact (b - a) 60000 ltac:(lia) Hbound).
  pose proof (Z.div_mod (b - a) 60000 ltac:(lia)) as Hdiv.
  pose proof (Z.mod_pos_bound (b - a) 60000 ltac:(lia)) as Hmod.
  assert (Hminutes : (Z.abs ((b - a) / 60000) < 2 ^ 53)%Z) by lia.
  rewrite (floor_quotient_exact ((b - a) / 60000) 60 ltac:(lia) Hminutes).
  split; [|split].
  - lia.
  - intros Hlt.
    replace (0 <? (b - a) / 60000 / 60)%Z with false; [reflexivity|].
    symmetry. apply Z.ltb_ge.
    pose proof (Z.div_mod ((b - a) / 60000) 60 ltac:(lia)).
    pose proof (Z.mod_pos_bound ((b - a) / 60000) 60 ltac:(lia)). lia.
  - intros Hge.
    pose proof (Z.div_mod ((b - a) / 60000) 60 ltac:(lia)).
    pose proof (Z.mod_pos_bound ((b - a) / 60000) 60 ltac:(lia)).
    replace (0 <? (b - a) / 60000 / 60)%Z with true
      by (symmetry; apply Z.ltb_lt; lia).
    exists ((b - a) / 60000 / 60)%Z, (((b - a) / 60000) mod 60)%Z.
    split; [reflexivity|]. lia.
Qed.

(** X13. When either date is invalid, [formatDuration] returns ["NaNm"]:
    nothing in its [try] throws, so the ['Unknown'] of the [catch] is
    never shown. *)
Theorem formatDuration_invalid_date (startTime endTime : string) :
  getTime startTime = None \/ getTime endTime = None ->
  AppComponent.formatDuration getTime startTime endTime = "NaNm".
Proof.
  unfold AppComponent.formatDuration. intros [H|H]; rewrite H.
  - destruct (getTime endTime); reflexivity.
  - reflexivity.
Qed.
End DurationProperties.

Section EngineThrows.
Variable p : Platform.

Lemma cbind_throws_errors_only {A B} (c : completion A) (k : A -> completion B) :
  throws_errors_only c ->
  (forall a, throws_errors_only (k a)) ->
  throws_errors_only (cbind c k).
Proof.
  intros Hc Hk t. destruct c as [a|t0]; cbn.
  - apply Hk.
  - intros H. injection H as <-. now apply Hc.
Qed.

Lemma normal_throws_errors_only {A} (a : A) : throws_errors_only (Normal a).
Proof. intros t H. discriminate. Qed.

Lemma type_error_throws_errors_only {A} (f : engine_fault) :
  throws_errors_only (@type_error p A f).
Proof. intros t H. injection H as <-. eexists. reflexivity. Qed.

Lemma get_throws_errors_only (v : jsval) (k : string) : throws_errors_only (get p v k).
Proof.
  destruct v; cbn; first [apply normal_throws_errors_only|apply type_error_throws_errors_only].
Qed.

Lemma opt_get_throws_errors_only (v : jsval) (k : string) :
  throws_errors_only (opt_get p v k).
Proof.
  unfold opt_get. destruct (is_nullish v);
    [apply normal_throws_errors_only|apply get_throws_errors_only].
Qed.

Lemma to_string_throws_errors_only : forall v : jsval, throws_errors_only (to_string p v).
Proof.
  fix IH 1. intros v.
  destruct v as [| |b|x|str|l|fields|name]; try apply normal_throws_errors_only.
  - cbn [to_string]. revert l. fix IHl 1. intros l.
    destruct l as [|x r]; [apply normal_throws_errors_only|].
    apply cbind_throws_errors_only.
    + destruct (is_nullish x); [apply normal_throws_errors_only|apply IH].
    + intros s. pose proof (IHl r) as Hr.
      destruct r as [|y r']; [apply normal_throws_errors_only|].
      apply cbind_throws_errors_only; [exact Hr|].
      intros u. apply normal_throws_errors_only.
  - cbn [to_string]. destruct (has_own "toString" fields);
      [apply type_error_throws_errors_only|apply normal_throws_errors_only].
Qed.

Lemma length_positive_throws_errors_only (v : jsval) :
  throws_errors_only (length_positive p v).
Proof.
  destruct v; cbn [length_positive]; try apply normal_throws_errors_only.
  destruct (assoc "length" fields) as [len|]; [|apply normal_throws_errors_only].
  apply cbind_throws_errors_only; [|intros; apply normal_throws_errors_only].
  destruct len; cbn [to_number]; try apply normal_throws_errors_only;
    (apply cbind_throws_errors_only;
     [apply to_string_throws_errors_only|intros; apply normal_throws_errors_only]).
Qed.

Lemma forEach_throws_errors_only (expr : string) (recv : jsval)
      (cb : jsval -> nat -> completion unit) :
  (forall x i, throws_errors_only (cb x i)) ->
  throws_errors_only (MeetingService.forEach p expr recv cb).
Proof.
  intros Hcb. destruct recv; cbn [MeetingService.forEach];
    try apply type_error_throws_errors_only.
  generalize 0. induction elems as [|x r IH]; intros i; cbn [MeetingService.forEach_from].
  - apply normal_throws_errors_only.
  - apply cbind_throws_errors_only; [apply Hcb|intros; apply IH].
Qed.

Lemma entry_line_throws_errors_only (entry : jsval) (i : nat) :
  throws_errors_only (MeetingService.entry_line p entry i).
Proof.
  unfold MeetingService.entry_line.
  repeat first
    [ apply normal_throws_errors_only
    | apply opt_get_throws_errors_only
    | apply get_throws_errors_only
    | apply to_string_throws_errors_only
    | apply cbind_throws_errors_only; [|intros ?]
    | match goal with |- throws_errors_only (if ?b then _ else _) => destruct b end ].
Qed.

(** The logging of the entries throws TypeErrors only. *)
Lemma log_original_transcript_throws_errors_only (meetingTitle : string) (d : jsval) :
  throws_errors_only (MeetingService.log_original_transcript p meetingTitle d).
Proof.
  unfold MeetingService.log_original_transcript.
  apply cbind_throws_errors_only; [apply opt_get_throws_errors_only|intros transcripts].
  apply cbind_throws_errors_only; [apply length_positive_throws_errors_only|intros nonempty].
  destruct nonempty; [|apply normal_throws_errors_only].
  apply cbind_throws_errors_only; [apply get_throws_errors_only|intros ts].
  apply forEach_throws_errors_only. intros transcript index.
  apply cbind_throws_errors_only; [apply opt_get_throws_errors_only|intros created].
  apply cbind_throws_errors_only; [apply to_string_throws_errors_only|intros _].
  apply cbind_throws_errors_only; [apply opt_get_throws_errors_only|intros entries].
  destruct (is_nullish entries); [apply normal_throws_errors_only|].
  apply forEach_throws_errors_only. intros entry entryIndex.
  apply cbind_throws_errors_only; [apply entry_line_throws_errors_only|intros _].
  apply normal_throws_errors_only.
Qed.
End EngineThrows.

Section SummaryProperties.
Variable p : Platform.
Variable other_message : completion jsval.

(** X14. In the version with predefined meetings a successful fetch is
    only shown when the logging of its entries goes through: if the fetch
    succeeds and that logging does not throw, the state ends with the
    payload and no error; if the logging throws (a [transcripts] that is
    not an array, say), what it throws is a TypeError, the payload is
    dropped and the TypeError's message is shown as the error instead.
    Either way the handler does not reject, [fetching] and
    [fetchingMeetingId] are cleared and one request was made. *)
Theorem summary_depends_on_logging
        (meetingUrl meetingTitle : string) (meetingId : Z)
        (c : AppSummary.Component) (s : State) (d : jsval) :
  fetched p s meetingUrl d ->
  exists c',
    AppSummary.handleFetchMeetingSummary p other_message meetingUrl meetingTitle meetingId c s =
    (Normal tt, c',
     mkState (trace s ++ [MeetingService.transcript_fetch_request meetingUrl])
             (var_analyzeResponse s) (var_analyzeData s) (var_lastError s))
    /\ AppSummary.fetching c' = false
    /\ AppSummary.fetchingMeetingId c' = None
    /\ (MeetingService.log_original_transcript p meetingTitle d = Normal tt ->
        AppSummary.transcriptData c' = d /\ AppSummary.error c' = JNull)
    /\ (forall t,
          MeetingService.log_original_transcript p meetingTitle d = Throws t ->
          exists e,
            t = ThrowError e
            /\ AppSummary.transcriptData c' = JNull
            /\ AppSummary.error c'
               = js_or (JStr (err_message e)) (JStr "An error occurred")).
Proof.
  intros (resp & body & ok & Hnet & Hjson & Hok & Htruthy & Hd).
  unfold AppSummary.handleFetchMeetingSummary. ui_run.
  unfold MeetingService.fetch, MeetingService.json, lift.
  rewrite Hnet, Hjson, Hok, Htruthy, Hd.
  assert (exists v, opt_get p d "meetingInfo" = Normal v) as (v1 & ->)
      by (destruct d; cbn; eauto).
  pose proof (log_original_transcript_throws_errors_only p meetingTitle d) as Honly.
  destruct (MeetingService.log_original_transcript p meetingTitle d) as [[]|t].
  - eexists. split; [reflexivity|]. repeat split; intros; discriminate.
  - destruct (Honly t eq_refl) as (e & ->). cbn [message_of].
    eexists. split; [reflexivity|]. repeat split; try discriminate.
    intros t Ht. injection Ht as <-. exists e. repeat split.
Qed.

(** X15. On a payload of the declared [TranscriptData] shape that
    logging cannot throw, so a successful fetch always ends with the
    payload on display and no error. *)
Theorem summary_of_declared_shape
        (meetingUrl meetingTitle : string) (meetingId : Z)
        (c : AppSummary.Component) (s : State) (td : App.TranscriptData) :
  fetched p s meetingUrl (encode_transcript td) ->
  fst (AppSummary.handleFetchMeetingSummary p other_message meetingUrl meetingTitle
         meetingId c s)
  = (Normal tt,
     AppSummary.mkComponent (AppSummary.authStatus c) (AppSummary.loading c) false None
       (encode_transcript td) JNull).
Proof.
  intros (resp & body & ok & Hnet & Hjson & Hok & Htruthy & Hd).
  unfold AppSummary.handleFetchMeetingSummary. ui_run.
  unfold MeetingService.fetch, MeetingService.json, lift.
  rewrite Hnet, Hjson, Hok, Htruthy, Hd.
  assert (exists v, opt_get p (encode_transcript td) "meetingInfo" = Normal v) as (v1 & ->)
      by (unfold encode_transcript; cbn; eauto).
  rewrite log_original_transcript_encoded. reflexivity.
Qed.
End SummaryProperties.


(* ================================================================== *)
(** * The entry template and the error summaries *)
(* ================================================================== *)

Section EntryLines.
Variable p : Platform.

Lemma or_default_nonempty (x : option string) (d : string) :
  App.or_default (nonempty x) d = App.or_default x d.
Proof.
  destruct x as [s|]; [|reflexivity]. cbn.
  destruct (String.eqb s "") eqn:E; cbn; [reflexivity|now rewrite E].
Qed.

(** X16. The export cannot tell an empty field from a missing one, nor a
    missing entry from an entry without fields: an empty [startTime] or
    [endTime] is written as ['00:00'], an empty [text] as ['No content'],
    an empty [speaker] gets no prefix, and a [null] entry gives the line
    of the all-default entry. *)
Theorem export_line_ignores_empty_fields
        (startTime endTime text speaker : option string) :
  App.format_entry (Some (App.mkEntry startTime endTime text speaker))
  = App.format_entry (Some (App.mkEntry (nonempty startTime) (nonempty endTime)
                                        (nonempty text) (nonempty speaker)))
  /\ App.format_entry None = "[00:00 - 00:00] No content"
  /\ App.format_entry (Some (App.mkEntry (Some "") (Some "") (Some "") (Some "")))
     = App.format_entry None.
Proof.
  split; [|split; reflexivity].
  unfold App.format_entry. cbn [App.opt_field App.startTime App.endTime App.text App.speaker].
  rewrite !or_default_nonempty.
  destruct speaker as [s|]; [|reflexivity]. cbn.
  destruct (String.eqb s "") eqn:E; cbn; [reflexivity|now rewrite E].
Qed.

(** X17. The two copies of the entry template agree: for an entry of the
    declared shape, the line that [fetchAndAnalyzeMeeting] logs for the
    entry at index [i] is [i + 1], a dot and a blank, followed by exactly
    the line that [downloadTranscript] writes for it; in particular the
    logging of such an entry cannot throw. *)
Theorem logged_line_is_the_export_line (entry : option App.TranscriptEntry) (i : nat) :
  MeetingService.entry_line p (encode_entry entry) i
  = Normal (string_of_nat (i + 1) ++ ". " ++ App.format_entry entry)%string.
Proof. apply entry_line_encoded. Qed.

(** X18. The analysis-failed summary can always be built when the error
    body's [message] is missing or a primitive value; when [message] is an
    object, the summary is built exactly when the object has no property
    of its own called [toString], and otherwise building it throws a
    TypeError (which the outer [catch] of [fetchAndAnalyzeMeeting] turns
    into [{success: false}]). *)
Theorem summary_is_built_unless_unprintable (body message : jsval) :
  opt_get p body "message" = Normal message ->
  (is_primitive message = true ->
   exists summary, MeetingService.analysis_failed_message p body = Normal summary)
  /\ (forall fields,
        message = JObj fields ->
        MeetingService.analysis_failed_message p body
        = if has_own "toString" fields
          then Throws (ThrowError (mkError (fault_message p NotPrimitive)))
          else Normal "Analysis failed: [object Object], but transcript was fetched successfully").
Proof.
  intros Hm. split.
  - intros Hprim. now apply (analysis_failed_message_primitive p body message).
  - intros fields ->. unfold MeetingService.analysis_failed_message. rewrite Hm.
    cbn. destruct (has_own "toString" fields); reflexivity.
Qed.
End EntryLines.

(* ================================================================== *)
(** * Properties of the component that goes through the service *)
(* ================================================================== *)

Section AnalysisProperties.
Variable p : Platform.

Local Abbreviation unauth := (JObj [("authenticated", JBool false)]).
Local Abbreviation no_substring :=
  (fault_message p (NotAFunction "result.analyzeResponse.data.html.substring")).

Lemma fetchAndAnalyzeMeeting_settles (meetingUrl meetingTitle : string) (s : State) :
  exists result s',
    MeetingService.fetchAndAnalyzeMeeting p meetingUrl meetingTitle s = (Normal result, s').
Proof.
  unfold MeetingService.fetchAndAnalyzeMeeting. apply try_catch_total.
  intros t s0. eexists. eexists. reflexivity.
Qed.

(** X19. In the version that goes through the service, [checkAuthStatus]
    stores what [MeetingService.checkAuthStatus] resolves to and clears
    [loading]; it never rejects, and its own [catch] is never entered.
    The status it stores is never [null] or [undefined] (it is the parsed
    body of the answer when that is not [null], and
    [{authenticated: false}] otherwise), so the render's read of
    [authStatus.authenticated] cannot throw afterwards. *)
Theorem app_checkAuthStatus_stores_service_answer (c : AppAnalysis.Component) (s : State) :
  exists v s' c',
    MeetingService.checkAuthStatus p s = (Normal v, s')
    /\ AppAnalysis.checkAuthStatus p c s = (Normal tt, c', s')
    /\ c' = AppAnalysis.setLoading false (AppAnalysis.setAuthStatus v c)
    /\ is_nullish v = false
    /\ (v = unauth
        \/ exists resp,
             network p (trace s) (MeetingService.auth_status_request p) = Normal resp
             /\ resp_json resp = Normal v)
    /\ exists shown, AppAnalysis.render_authenticated p c' = Normal shown.
Proof.
  unfold AppAnalysis.checkAuthStatus. ui_run.
  unfold MeetingService.checkAuthStatus, try_catch, bind, MeetingService.fetch,
    MeetingService.json, lift, console_log, ret, AppAnalysis.render_authenticated.
  destruct (network p (trace s) (MeetingService.auth_status_request p)) as [resp|t] eqn:N.
  2:{ do 3 eexists. do 4 (split; [reflexivity|]). split; [left; reflexivity|].
      eexists. reflexivity. }
  destruct (resp_json resp) as [body|t] eqn:J.
  2:{ do 3 eexists. do 4 (split; [reflexivity|]). split; [left; reflexivity|].
      eexists. reflexivity. }
  destruct body; do 3 eexists; do 4 (split; [reflexivity|]);
    (split; [first [left; reflexivity | right; exists resp; split; [reflexivity|exact J]]|]);
    eexists; reflexivity.
Qed.

(** X20. [handleLogout] of that version never rejects, although
    [MeetingService.logout] does: when the logout request is rejected the
    state stays as it was (the user is still shown as logged in, with the
    transcript and the analysis on display); when it resolves, whatever
    its status, the user is shown as logged out and both are dropped. *)
Theorem app_handleLogout_swallows_failure (c : AppAnalysis.Component) (s : State) :
  AppAnalysis.handleLogout p c s =
  (Normal tt,
   match network p (trace s) (logout_request) with
   | Normal _ =>
       AppAnalysis.setAnalyzeResponse JNull
         (AppAnalysis.setTranscriptData JNull (AppAnalysis.setAuthStatus unauth c))
   | Throws _ => c
   end,
   mkState (trace s ++ [logout_request]) (var_analyzeResponse s)
           (var_analyzeData s) (var_lastError s)).
Proof.
  unfold AppAnalysis.handleLogout. ui_run.
  unfold MeetingService.logout, try_catch, bind, MeetingService.fetch, lift, console_log, ret,
    logout_request.
  destruct (network p (trace s) _); reflexivity.
Qed.

(** What the debugging block does, by the [html] it finds. *)
Lemma log_analyze_response_cases (a : jsval) :
  AppAnalysis.log_analyze_response p a
  = if truthy (analysis_html a) && negb (is_string (analysis_html a))
    then Throws (ThrowError (mkError no_substring))
    else Normal tt.
Proof.
  unfold AppAnalysis.log_analyze_response, analysis_html.
  destruct a as [| |b|x|str|l|fields|f]; try reflexivity.
  - destruct b; reflexivity.
  - cbn. destruct x as [[]|[]| |[] m e]; reflexivity.
  - cbn. destruct (String.eqb str ""); reflexivity.
  - cbn [truthy get cbind].
    destruct (assoc "data" fields) as [d|]; [|reflexivity].
    destruct d as [| |b|x|str|l|inner|f]; try reflexivity.
    cbn [opt_get is_nullish get cbind].
    destruct (assoc "html" inner) as [html|]; [|reflexivity].
    destruct html as [| |b|x|str|l|inner'|f]; try reflexivity.
    + destruct b; reflexivity.
    + destruct x as [[]|[]| |[] m e]; reflexivity.
    + cbn. destruct (String.eqb str ""); reflexivity.
Qed.

(** X21. The debugging block of [handleFetchMeetingSummary] throws
    exactly when the analysis body carries a [data.html] that is truthy
    and not a string (a number, [true], an array or an object): the
    preview calls [substring] on it. *)
Theorem analysis_preview_needs_string_html (a : jsval) :
  (AppAnalysis.log_analyze_response p a = Normal tt
   <-> truthy (analysis_html a) = false \/ is_string (analysis_html a) = true)
  /\ (AppAnalysis.log_analyze_response p a <> Normal tt ->
      AppAnalysis.log_analyze_response p a = Throws (ThrowError (mkError no_substring))).
Proof.
  rewrite log_analyze_response_cases.
  destruct (truthy (analysis_html a)); destruct (is_string (analysis_html a)); cbn;
    (split; [split; [auto|intros [?|?]; try reflexivity; discriminate]|]);
    intros H; try reflexivity; now elim H.
Qed.

(** The state [handleFetchMeetingSummary] leaves behind, given what the
    service resolved to. *)
Lemma handleFetchMeetingSummary_after
      (meetingUrl meetingTitle : string) (meetingId : Z)
      (c : AppAnalysis.Component) (s s' : State) (result : MeetingProcessResult) :
  MeetingService.fetchAndAnalyzeMeeting p meetingUrl meetingTitle s = (Normal result, s') ->
  AppAnalysis.handleFetchMeetingSummary p meetingUrl meetingTitle meetingId c s
  = (Normal tt,
     AppAnalysis.mkComponent (AppAnalysis.authStatus c) (AppAnalysis.loading c) false None
       (if success result then AppAnalysis.result_data result else JNull)
       (if success result
        then js_or (AppAnalysis.result_analyzeResponse result) JNull else JNull)
       (if success result then
          match AppAnalysis.log_analyze_response p (AppAnalysis.result_analyzeResponse result)
          with
          | Normal _ =>
              if truthy (AppAnalysis.result_error result)
              then AppAnalysis.result_error result else JNull
          | Throws t =>
              JStr (thrown_message t "An error occurred during the process")
          end
        else js_or (AppAnalysis.result_error result) (JStr "Failed to process meeting")),
     s').
Proof.
  intros Hrun. unfold AppAnalysis.handleFetchMeetingSummary. ui_run. unfold lift.
  rewrite Hrun.
  destruct (success result); [|reflexivity].
  destruct (AppAnalysis.log_analyze_response p (AppAnalysis.result_analyzeResponse result))
    as [[]|[e|]]; [|reflexivity|reflexivity].
  destruct (truthy (AppAnalysis.result_error result)); reflexivity.
Qed.

(** X22. [handleFetchMeetingSummary] never rejects, makes exactly the
    requests of [fetchAndAnalyzeMeeting], and ends with [fetching] and
    [fetchingMeetingId] cleared. When the service reports failure, no
    transcript and no analysis are shown and a truthy error is. When it
    reports success, the transcript and the analysis body of the result
    are on display (even if the debugging block throws afterwards), and
    the error is [null] exactly when the result carries no truthy error
    and the debugging block did not throw. *)
Theorem summary_displays_the_result
        (meetingUrl meetingTitle : string) (meetingId : Z)
        (c : AppAnalysis.Component) (s : State) :
  exists result s' c',
    MeetingService.fetchAndAnalyzeMeeting p meetingUrl meetingTitle s = (Normal result, s')
    /\ AppAnalysis.handleFetchMeetingSummary p meetingUrl meetingTitle meetingId c s
       = (Normal tt, c', s')
    /\ AppAnalysis.fetching c' = false
    /\ AppAnalysis.fetchingMeetingId c' = None
    /\ AppAnalysis.authStatus c' = AppAnalysis.authStatus c
    /\ AppAnalysis.loading c' = AppAnalysis.loading c
    /\ (success result = false ->
        AppAnalysis.transcriptData c' = JNull
        /\ AppAnalysis.analyzeResponse c' = JNull
        /\ AppAnalysis.error c'
           = js_or (AppAnalysis.result_error result) (JStr "Failed to process meeting")
        /\ truthy (AppAnalysis.error c') = true)
    /\ (success result = true ->
        AppAnalysis.transcriptData c' = AppAnalysis.result_data result
        /\ AppAnalysis.analyzeResponse c'
           = js_or (AppAnalysis.result_analyzeResponse result) JNull
        /\ (AppAnalysis.error c' = JNull
            <-> truthy (AppAnalysis.result_error result) = false
                /\ AppAnalysis.log_analyze_response p
                     (AppAnalysis.result_analyzeResponse result) = Normal tt)).
Proof.
  destruct (fetchAndAnalyzeMeeting_settles meetingUrl meetingTitle s) as (result & s' & Hrun).
  exists result, s'. eexists. split; [exact Hrun|].
  split; [apply (handleFetchMeetingSummary_after _ _ _ _ _ _ _ Hrun)|].
  cbn [AppAnalysis.fetching AppAnalysis.fetchingMeetingId AppAnalysis.authStatus
       AppAnalysis.loading AppAnalysis.transcriptData AppAnalysis.analyzeResponse
       AppAnalysis.error].
  repeat (split; [reflexivity|]).
  split; intros ->.
  - repeat (split; [reflexivity|]). now apply js_or_default_truthy.
  - repeat (split; [reflexivity|]).
    destruct (AppAnalysis.log_analyze_response p (AppAnalysis.result_analyzeResponse result))
      as [[]|t].
    + destruct (truthy (AppAnalysis.result_error result)) eqn:T.
      * split; [|intros [? _]; discriminate].
        intros E. rewrite E in T. discriminate.
      * split; auto.
    + split; [discriminate|intros [_ ?]; discriminate].
Qed.

(** X23. When the transcript is fetched and the network rejects all three
    analyze attempts, the component shows the transcript together with
    the network-failure summary as its error, and no analysis: the
    failure of the analysis does not hide the transcript. *)
Theorem unreachable_analysis_shows_transcript_and_warning
        (meetingUrl meetingTitle : string) (meetingId : Z)
        (c : AppAnalysis.Component) (s : State) (d : jsval) :
  fetched p s meetingUrl d ->
  (forall j, j < 3 -> transport_failure (candidate p s meetingUrl d j) = true) ->
  exists t summary,
    candidate p s meetingUrl d 2 = Throws t
    /\ MeetingService.network_failure_message p (Some (error_or_new t "Unknown error"))
       = Normal summary
    /\ fst (AppAnalysis.handleFetchMeetingSummary p meetingUrl meetingTitle meetingId c s)
       = (Normal tt,
          AppAnalysis.mkComponent (AppAnalysis.authStatus c) (AppAnalysis.loading c)
            false None d JNull (JStr summary)).
Proof.
  intros Hf Hall.
  destruct (candidate p s meetingUrl d 2) as [r|t] eqn:Hlast.
  { specialize (Hall 2 ltac:(lia)). rewrite Hlast in Hall. discriminate. }
  destruct (for_of_all_rejected p d (getAnalyzeApiUrls p)
              (mkState (trace s ++ [MeetingService.transcript_fetch_request meetingUrl])
                       None JUndefined None))
    as (e & Hloop & He).
  { intros j Hj. specialize (Hall j Hj). unfold candidate, requests_before in Hall.
    cbn [trace]. rewrite <- app_assoc. exact Hall. }
  specialize (He 2 t eq_refl).
  rewrite He in Hloop.
  2:{ unfold candidate, requests_before in Hlast. cbn [trace]. rewrite <- app_assoc.
      exact Hlast. }
  destruct (network_failure_message_normal p (error_or_new t "Unknown error"))
    as (summary & Hsummary & Hne).
  exists t, summary. split; [reflexivity|]. split; [exact Hsummary|].
  pose proof (step2_no_response p s _ meetingUrl meetingTitle d Hf Hloop eq_refl) as Hrun.
  cbn [var_lastError] in Hrun. rewrite Hsummary in Hrun.
  rewrite (handleFetchMeetingSummary_after _ _ meetingId c _ _ _ Hrun).
  cbn [fst success AppAnalysis.result_data AppAnalysis.result_analyzeResponse
       AppAnalysis.result_error AppAnalysis.field data analyzeResponse error].
  rewrite log_analyze_response_cases.
  cbn. apply String.eqb_neq in Hne. rewrite Hne. reflexivity.
Qed.

(** X24. For a transcript of the declared shape and an analysis that
    answers 2xx with a JSON body, the component shows the transcript and
    that body ([null] in place of a falsy body); the error stays [null]
    unless the body's [data.html] is truthy and not a string, in which
    case the engine's "substring is not a function" message is shown
    beside the transcript and the analysis. *)
Theorem analysis_of_declared_shape_is_shown
        (meetingUrl meetingTitle : string) (meetingId : Z)
        (c : AppAnalysis.Component) (s : State) (td : App.TranscriptData)
        (k : nat) (r : Response) (body : jsval) :
  fetched p s meetingUrl (encode_transcript td) ->
  k < 3 ->
  (forall j, j < k -> completes (candidate p s meetingUrl (encode_transcript td) j) = false) ->
  candidate p s meetingUrl (encode_transcript td) k = Normal r ->
  resp_json r = Normal body ->
  resp_ok r = true ->
  fst (AppAnalysis.handleFetchMeetingSummary p meetingUrl meetingTitle meetingId c s)
  = (Normal tt,
     AppAnalysis.mkComponent (AppAnalysis.authStatus c) (AppAnalysis.loading c)
       false None (encode_transcript td) (js_or body JNull)
       (if truthy (analysis_html body) && negb (is_string (analysis_html body))
        then JStr no_substring else JNull)).
Proof.
  intros Hf Hk Hbefore Hcand Hjson Hok.
  pose proof (declared_shape_analysis_succeeds p s meetingUrl meetingTitle td k r body
                Hf Hk Hbefore Hcand Hjson Hok) as Hresult.
  destruct (MeetingService.fetchAndAnalyzeMeeting p meetingUrl meetingTitle s)
    as [outcome s'] eqn:Hrun.
  cbn [fst] in Hresult. subst outcome.
  rewrite (handleFetchMeetingSummary_after _ _ meetingId c _ _ _ Hrun).
  cbn [fst success AppAnalysis.result_data AppAnalysis.result_analyzeResponse
       AppAnalysis.result_error AppAnalysis.field data analyzeResponse error truthy].
  rewrite log_analyze_response_cases.
  destruct (truthy (analysis_html body) && negb (is_string (analysis_html body)));
    reflexivity.
Qed.
End AnalysisProperties.

(* ------------------------------------------------------------------ *)
(** ** The further statements at work on the samples *)
(* ------------------------------------------------------------------ *)

Lemma connectivity_first_reachable_witness :
  let p := platform_of (refusing_first 1 (json_response 404 JNull)) in
  fst (MeetingService.testAnalyzeApiConnectivity p initial_state)
  = Normal (MeetingService.mkConnectivity true
              (Some "http://127.0.0.1:8000/api/v1/analyze?test_mode=true&llm_timeout=60&user_lookup_timeout=30")
              None)
  /\ map req_url (trace (snd (MeetingService.testAnalyzeApiConnectivity p initial_state)))
     = ["http://localhost:8000/api/v1/analyze"; "http://127.0.0.1:8000/api/v1/analyze"].
Proof.
  intros p.
  destruct (connectivity_first_reachable p initial_state 1
              (mkResponse 404 "" (Normal JNull))) as (Hresult & Htrace & _).
  - lia.
  - intros j Hj. destruct j as [|j]; [reflexivity|lia].
  - reflexivity.
  - split; [exact Hresult|]. rewrite Htrace. reflexivity.
Defined.

Lemma connectivity_unreachable_witness :
  fst (MeetingService.testAnalyzeApiConnectivity quiet_platform initial_state)
  = Normal (MeetingService.mkConnectivity false None
              (Some "Could not connect to any analyze API endpoints. Make sure the Python service is running on port 8000."))
  /\ map req_url (skipn (List.length (trace initial_state))
                    (trace (snd (MeetingService.testAnalyzeApiConnectivity quiet_platform
                                   initial_state))))
     = baseUrls.
Proof.
  apply (connectivity_unreachable quiet_platform initial_state).
  intros j Hj. destruct j as [|[|[|j]]]; [reflexivity|reflexivity|reflexivity|lia].
Defined.

Lemma logout_passes_failure_on_witness :
  fst (MeetingService.logout quiet_platform initial_state)
  = Throws (ThrowError (mkError "Failed to fetch"))
  /\ fst (MeetingService.logout (platform_of (refusing_first 0 (json_response 500 JNull)))
            initial_state)
     = Normal tt.
Proof.
  split.
  - destruct (logout_passes_failure_on quiet_platform initial_state) as (H & _).
    apply H. reflexivity.
  - destruct (logout_passes_failure_on
                (platform_of (refusing_first 0 (json_response 500 JNull))) initial_state)
      as (_ & H & _).
    apply (H (mkResponse 500 "" (Normal JNull))). reflexivity.
Defined.

Lemma unparsed_answers_give_undefined_analysis_witness :
  let p := sample_platform [] connection_refused (fetched_ok sample_transcript)
             connection_refused (unparsed_response 200) connection_refused in
  fst (MeetingService.fetchAndAnalyzeMeeting p "https://teams.example/meet/1" "Standup"
         initial_state)
  = Normal (mkResult true (Some sample_transcript) (Some JUndefined) None).
Proof.
  intros p.
  destruct (unparsed_answers_give_undefined_analysis p initial_state
              "https://teams.example/meet/1" "Standup" sample_transcript
              (mkResponse 200 ""
                 (Throws (ThrowError (mkError "Unexpected token < in JSON at position 0")))))
    as (H & _).
  - fetched_by_evaluation.
  - reflexivity.
  - reflexivity.
  - apply H; reflexivity.
Defined.

Lemma result_reflects_the_fetch_witness :
  let p := sample_platform [] connection_refused (fetched_ok sample_transcript)
             (json_response 200 (JObj [])) connection_refused connection_refused in
  let result := mkResult true (Some sample_transcript) (Some (JObj [])) None in
  fst (MeetingService.fetchAndAnalyzeMeeting p "https://teams.example/meet/1" "Standup"
         initial_state) = Normal result
  /\ exists d,
       fetched p initial_state "https://teams.example/meet/1" d
       /\ data result = Some d
       /\ (analyzeResponse result = None -> error result <> None).
Proof.
  intros p result. split; [reflexivity|].
  refine (proj1 (result_reflects_the_fetch p initial_state
                   (snd (MeetingService.fetchAndAnalyzeMeeting p
                           "https://teams.example/meet/1" "Standup" initial_state))
                   "https://teams.example/meet/1" "Standup" result _) _);
    reflexivity.
Defined.

Lemma requests_follow_the_protocol_witness :
  let p := sample_platform [] connection_refused (fetched_ok sample_transcript)
             connection_refused (json_response 200 (JObj [])) connection_refused in
  let requests :=
    trace (snd (MeetingService.fetchAndAnalyzeMeeting p "https://teams.example/meet/1"
                  "Standup" initial_state)) in
  (exists n d,
     n <= 3
     /\ map req_body requests
        = Some (JObj [("joinUrl", JStr "https://teams.example/meet/1")])
          :: map (fun _ => match d with JUndefined => None | _ => Some d end)
                 (firstn n (getAnalyzeApiUrls p))
     /\ (0 < n -> fetched p initial_state "https://teams.example/meet/1" d))
  /\ map (fun r => (req_url r, req_method r, req_body r)) requests
     = [("https://mom-bot-transcript-service.onrender.com/transcript/fetch", "POST",
         Some (JObj [("joinUrl", JStr "https://teams.example/meet/1")]));
        ("http://localhost:8000/api/v1/analyze?test_mode=true&llm_timeout=60&user_lookup_timeout=30",
         "POST", Some sample_transcript);
        ("http://127.0.0.1:8000/api/v1/analyze?test_mode=true&llm_timeout=60&user_lookup_timeout=30",
         "POST", Some sample_transcript)].
Proof.
  intros p requests. split; [|reflexivity].
  destruct (requests_follow_the_protocol p initial_state "https://teams.example/meet/1"
              "Standup") as (n & d & Hn & Htrace & Hf).
  exists n, d. split; [exact Hn|]. split; [|exact Hf].
  unfold requests. rewrite Htrace. cbn [trace initial_state app map req_body].
  rewrite map_map. reflexivity.
Defined.

Lemma falsy_success_is_terminal_witness :
  let p := sample_platform [] connection_refused
             (json_response 502 (JArr [JStr "bad gateway"]))
             (json_response 200 (JObj [])) connection_refused connection_refused in
  fst (MeetingService.fetchAndAnalyzeMeeting p "https://teams.example/meet/1" "Standup"
         initial_state)
  = Normal (mkResult false None None (Some (JStr "Failed to fetch transcript")))
  /\ trace (snd (MeetingService.fetchAndAnalyzeMeeting p "https://teams.example/meet/1"
                   "Standup" initial_state))
     = [MeetingService.transcript_fetch_request "https://teams.example/meet/1"].
Proof.
  intros p.
  apply (falsy_success_is_terminal p initial_state "https://teams.example/meet/1" "Standup"
           (mkResponse 502 "" (Normal (JArr [JStr "bad gateway"])))
           (JArr [JStr "bad gateway"])); reflexivity.
Defined.

Lemma formatDuration_whole_minutes_witness :
  AppComponent.formatDuration sample_getTime "2026-02-01T10:00:00Z" "2026-02-01T10:45:30Z"
  = "45m"
  /\ AppComponent.formatDuration sample_getTime "2026-02-01T12:05:00Z" "2026-02-01T10:00:00Z"
     = "-125m"
  /\ (exists h m,
        AppComponent.formatDuration sample_getTime "2026-02-01T10:00:00Z"
          "2026-02-01T12:05:00Z"
        = (string_of_Z h ++ "h " ++ string_of_Z m ++ "m")%string
        /\ (1 <= h)%Z /\ (0 <= m < 60)%Z /\ (60 * h + m = 125)%Z)
  /\ AppComponent.formatDuration sample_getTime "-271821-04-20T00:00:00.000Z"
       "+275760-09-12T23:59:59.999Z"
     = "4800000000h 0m".
Proof.
  split; [|split; [|split]].
  - destruct (formatDuration_whole_minutes sample_getTime "2026-02-01T10:00:00Z"
                "2026-02-01T10:45:30Z" 1769940000000 1769942730000
                eq_refl eq_refl ltac:(vm_compute; reflexivity))
      as (_ & H & _).
    apply H. reflexivity.
  - destruct (formatDuration_whole_minutes sample_getTime "2026-02-01T12:05:00Z"
                "2026-02-01T10:00:00Z" 1769947500000 1769940000000
                eq_refl eq_refl ltac:(vm_compute; reflexivity))
      as (_ & H & _).
    apply H. reflexivity.
  - destruct (formatDuration_whole_minutes sample_getTime "2026-02-01T10:00:00Z"
                "2026-02-01T12:05:00Z" 1769940000000 1769947500000
                eq_refl eq_refl ltac:(vm_compute; reflexivity))
      as (_ & _ & H).
    apply H. vm_compute. discriminate.
  - vm_compute. reflexivity.
Defined.

Lemma formatDuration_invalid_date_witness :
  AppComponent.formatDuration sample_getTime "yesterday" "2026-02-01T10:00:00Z" = "NaNm".
Proof.
  apply (formatDuration_invalid_date sample_getTime). left. reflexivity.
Defined.

Lemma blank_url_makes_no_request_witness :
  AppComponent.handleFetchTranscript quiet_platform sample_trim (Normal JUndefined)
    blank_component initial_state
  = (Normal tt,
     AppComponent.setError (JStr "Please enter a Teams meeting URL") blank_component,
     initial_state).
Proof.
  apply (blank_url_makes_no_request quiet_platform sample_trim (Normal JUndefined)
           blank_component initial_state).
  reflexivity.
Defined.

Lemma handleFetchTranscript_settles_witness :
  (let p := sample_platform [] connection_refused (fetched_ok sample_transcript)
              connection_refused connection_refused connection_refused in
   exists c',
     AppComponent.handleFetchTranscript p sample_trim (Normal JUndefined)
       typing_component initial_state
     = (Normal tt, c',
        mkState [mkRequest
                   "https://mom-bot-transcript-service.onrender.com/transcript/fetch"
                   "POST" [("Content-Type", "application/json")] cred_include None None
                   (Some (JObj [("joinUrl", JStr "https://teams.example/meet/1")]))]
                None JUndefined None)
     /\ AppComponent.fetching c' = false
     /\ AppComponent.transcriptData c' = sample_transcript
     /\ AppComponent.error c' = JNull)
  /\
  (let p := platform_of (fun _ _ => Throws ThrowOther) in
   let unreadable :=
     ThrowError (mkError "Cannot read properties of null (reading 'message')") in
   exists c',
     fst (AppComponent.handleFetchTranscript p sample_trim (Throws unreadable)
            typing_component initial_state)
     = (Throws unreadable, c')
     /\ AppComponent.fetching c' = false
     /\ AppComponent.transcriptData c' = JNull
     /\ AppComponent.error c' = JNull).
Proof.
  split.
  - intros p.
    destruct (handleFetchTranscript_settles p sample_trim (Normal JUndefined)
                typing_component initial_state ltac:(discriminate))
      as (outcome & c' & Hrun & Hfetching & _ & _ & _ & Honly).
    exists c'. rewrite Hrun.
    pose proof Hrun as Hvalue. vm_compute in Hvalue. injection Hvalue as <- <-.
    repeat split.
  - intros p unreadable.
    destruct (handleFetchTranscript_settles p sample_trim (Throws unreadable)
                typing_component initial_state ltac:(discriminate))
      as (outcome & c' & Hrun & Hfetching & _ & _ & _ & _).
    exists c'. rewrite Hrun.
    pose proof Hrun as Hvalue. vm_compute in Hvalue. injection Hvalue as <- <-.
    repeat split.
Defined.

Lemma summary_depends_on_logging_witness :
  let payload := JObj [("transcripts", JObj [("length", JBool true)])] in
  let p := sample_platform [] connection_refused (fetched_ok payload)
             connection_refused connection_refused connection_refused in
  exists c',
    fst (AppSummary.handleFetchMeetingSummary p (Normal JUndefined)
           "https://teams.example/meet/1" "Standup" 2
           summary_component initial_state) = (Normal tt, c')
    /\ AppSummary.fetching c' = false
    /\ AppSummary.fetchingMeetingId c' = None
    /\ AppSummary.transcriptData c' = JNull
    /\ AppSummary.error c' = JStr "data.data.transcripts.forEach is not a function".
Proof.
  intros payload p.
  destruct (summary_depends_on_logging p (Normal JUndefined)
              "https://teams.example/meet/1" "Standup" 2
              summary_component initial_state payload) as (c' & Hrun & Hf & Hid & _ & Hthrow).
  - fetched_by_evaluation.
  - exists c'. rewrite Hrun. split; [reflexivity|]. split; [exact Hf|]. split; [exact Hid|].
    destruct (Hthrow (ThrowError (mkError "data.data.transcripts.forEach is not a function"))
                eq_refl) as (e & He & Ht & Herror).
    injection He as <-. split; [exact Ht|exact Herror].
Defined.

Lemma summary_of_declared_shape_witness :
  let p := sample_platform [] connection_refused
             (fetched_ok (encode_transcript sample_export))
             connection_refused connection_refused connection_refused in
  fst (AppSummary.handleFetchMeetingSummary p (Normal JUndefined)
           "https://teams.example/meet/1" "Standup" 2
         summary_component initial_state)
  = (Normal tt,
     AppSummary.mkComponent (JObj [("authenticated", JBool true)]) false false None
       (encode_transcript sample_export) JNull).
Proof.
  intros p.
  apply (summary_of_declared_shape p (Normal JUndefined)
           "https://teams.example/meet/1" "Standup" 2
           summary_component initial_state sample_export).
  fetched_by_evaluation.
Defined.

Lemma unreachable_analysis_shows_transcript_and_warning_witness :
  let p := sample_platform [] connection_refused (fetched_ok sample_transcript)
             connection_refused connection_refused connection_refused in
  fst (AppAnalysis.handleFetchMeetingSummary p "https://teams.example/meet/1" "Standup" 2
         analysis_component initial_state)
  = (Normal tt,
     AppAnalysis.mkComponent (JObj [("authenticated", JBool true)]) false false None
       sample_transcript JNull
       (JStr "Analysis failed - could not connect to any analyze API endpoints. Last error: Failed to fetch. Transcript was fetched successfully.")).
Proof.
  intros p.
  destruct (unreachable_analysis_shows_transcript_and_warning p
              "https://teams.example/meet/1" "Standup" 2 analysis_component initial_state
              sample_transcript) as (t & summary & Hlast & Hsummary & Hrun).
  - fetched_by_evaluation.
  - intros j Hj. destruct j as [|[|[|j]]]; [reflexivity|reflexivity|reflexivity|lia].
  - rewrite Hrun. injection Hlast as <-. injection Hsummary as <-. reflexivity.
Defined.

Lemma analysis_of_declared_shape_is_shown_witness :
  let body := JObj [("data", JObj [("mode", JStr "test");
                                   ("html", JArr [JStr "<h1>Minutes</h1>"])])] in
  let p := sample_platform [] connection_refused
             (fetched_ok (encode_transcript sample_export))
             connection_refused (json_response 200 body) connection_refused in
  fst (AppAnalysis.handleFetchMeetingSummary p "https://teams.example/meet/1" "Standup" 2
         analysis_component initial_state)
  = (Normal tt,
     AppAnalysis.mkComponent (JObj [("authenticated", JBool true)]) false false None
       (encode_transcript sample_export) body
       (JStr "result.analyzeResponse.data.html.substring is not a function")).
Proof.
  intros body p.
  apply (analysis_of_declared_shape_is_shown p "https://teams.example/meet/1" "Standup" 2
           analysis_component initial_state sample_export 1
           (mkResponse 200 "" (Normal body)) body).
  - fetched_by_evaluation.
  - lia.
  - intros j Hj. destruct j as [|j]; [reflexivity|lia].
  - reflexivity.
  - reflexivity.
  - reflexivity.
Defined.


Lemma export_line_ignores_empty_fields_witness :
  App.format_entry (Some (App.mkEntry (Some "") (Some "00:09") (Some "") (Some "Ann")))
  = "[00:00 - 00:09] Ann: No content".
Proof.
  destruct (export_line_ignores_empty_fields (Some "") (Some "00:09") (Some "") (Some "Ann"))
    as (H & _).
  rewrite H. reflexivity.
Defined.

Lemma summary_is_built_unless_unprintable_witness :
  MeetingService.analysis_failed_message quiet_platform
    (JObj [("message", JObj [("detail", JStr "x"); ("toString", JStr "y")])])
  = Throws (ThrowError (mkError "Cannot convert object to primitive value"))
  /\ exists summary,
       MeetingService.analysis_failed_message quiet_platform
         (JObj [("message", JNum (S754_zero false))]) = Normal summary.
Proof.
  split.
  - destruct (summary_is_built_unless_unprintable quiet_platform
                (JObj [("message", JObj [("detail", JStr "x"); ("toString", JStr "y")])])
                (JObj [("detail", JStr "x"); ("toString", JStr "y")]) eq_refl) as (_ & H).
    apply (H _ eq_refl).
  - destruct (summary_is_built_unless_unprintable quiet_platform
                (JObj [("message", JNum (S754_zero false))])
                (JNum (S754_zero false)) eq_refl) as (H & _).
    apply H. reflexivity.
Defined.

Lemma component_checkAuthStatus_settles_witness :
  let p := sample_platform [] (json_response 200 JNull) connection_refused
             connection_refused connection_refused connection_refused in
  exists c',
    fst (AppComponent.checkAuthStatus p typing_component initial_state) = (Normal tt, c')
    /\ AppComponent.authStatus c' = JNull
    /\ AppComponent.render_authenticated p c'
       = Throws (ThrowError
                   (mkError "Cannot read properties of null (reading 'authenticated')")).
Proof.
  intros p.
  destruct (component_checkAuthStatus_settles p typing_component initial_state)
    as (c' & Hrun & Hc & _).
  exists c'. rewrite Hrun. split; [reflexivity|]. rewrite Hc. split; reflexivity.
Defined.

Lemma app_checkAuthStatus_stores_service_answer_witness :
  let p := sample_platform [] (json_response 200 JNull) connection_refused
             connection_refused connection_refused connection_refused in
  exists c',
    fst (AppAnalysis.checkAuthStatus p analysis_component initial_state) = (Normal tt, c')
    /\ AppAnalysis.authStatus c' = JObj [("authenticated", JBool false)]
    /\ AppAnalysis.render_authenticated p c' = Normal false.
Proof.
  intros p.
  destruct (app_checkAuthStatus_stores_service_answer p analysis_component initial_state)
    as (v & s' & c' & Hservice & Hrun & Hc & _).
  exists c'. rewrite Hrun. split; [reflexivity|]. rewrite Hc.
  injection Hservice as <- _. split; reflexivity.
Defined.

Lemma analysis_preview_needs_string_html_witness :
  AppAnalysis.log_analyze_response quiet_platform
    (JObj [("data", JObj [("html", JStr "<h1>Minutes</h1>")])]) = Normal tt
  /\ AppAnalysis.log_analyze_response quiet_platform
       (JObj [("data", JObj [("html", JBool true)])])
     = Throws (ThrowError
                 (mkError "result.analyzeResponse.data.html.substring is not a function")).
Proof.
  split.
  - apply (proj1 (analysis_preview_needs_string_html quiet_platform
                    (JObj [("data", JObj [("html", JStr "<h1>Minutes</h1>")])]))).
    right. reflexivity.
  - apply (proj2 (analysis_preview_needs_string_html quiet_platform
                    (JObj [("data", JObj [("html", JBool true)])]))).
    discriminate.
Defined.

Lemma summary_displays_the_result_witness :
  let p := sample_platform [] connection_refused
             (json_response 200 (JObj [("success", JBool false); ("message", JStr "")]))
             connection_refused connection_refused connection_refused in
  exists c',
    fst (AppAnalysis.handleFetchMeetingSummary p "https://teams.example/meet/1" "Standup" 2
           analysis_component initial_state) = (Normal tt, c')
    /\ AppAnalysis.transcriptData c' = JNull
    /\ AppAnalysis.analyzeResponse c' = JNull
    /\ AppAnalysis.error c' = JStr "Failed to fetch transcript".
Proof.
  intros p.
  destruct (summary_displays_the_result p "https://teams.example/meet/1" "Standup" 2
              analysis_component initial_state)
    as (result & s' & c' & Hservice & Hrun & _ & _ & _ & _ & Hfailure & _).
  exists c'. rewrite Hrun. split; [reflexivity|].
  injection Hservice as <- _.
  destruct (Hfailure eq_refl) as (Ht & Ha & He & _).
  split; [exact Ht|]. split; [exact Ha|]. rewrite He. reflexivity.
Defined.
